(** * LabelBench / ALBench: dataset skeleton and trainer configuration

    A shallow embedding of
    - [LabelBench/skeleton/dataset_skeleton.py] (module [LabelBench]),
    - [ALBench/skeleton/dataset_skeleton.py]    (module [ALBench]),
    - [ALBench/trainer/trainer.py]              (module [Trainer]),
    followed by the properties of the dataset bookkeeping that the
    specification states.

    Conventions.  A Python call that may raise returns a [result]; a method
    that mutates [self] returns the new [self] next to its result, so that the
    mutations made before an exception stay visible.  NumPy arrays of indices
    live in a store ([heap]) and are named by references, because the
    specification talks about copies and in-place mutation of them.  NumPy
    arithmetic, the feature extractor, the transforms and the raw datasets are
    collaborators outside the repository and are parameters of the model. *)

From stdpp Require Import gmap strings list sets.
From Stdlib Require Import ZArith Lia Ascii.

Open Scope string_scope.
Open Scope list_scope.
Open Scope Z_scope.

(** ** Exceptions and results *)

Inductive exn :=
| Exception (msg : string)
| AssertionError (msg : string)
| ValueError (msg : string)
| TypeError (msg : string)
| KeyError (key : string)
| AttributeError (msg : string)
| UnboundLocalError (var : string)
| IndexError (msg : string).

Inductive result (A : Type) :=
| Ok (a : A)
| Raise (e : exn).
Arguments Ok {A} a.
Arguments Raise {A} e.

#[global] Instance result_ret : MRet result := fun _ a => Ok a.
#[global] Instance result_bind : MBind result := fun _ _ f m =>
  match m with
  | Ok a => f a
  | Raise e => Raise e
  end.

(** Python's [if f:] on an optional callable: [None] is falsy, a function is
    truthy.  [apply_if_set] is the idiom [if f: v = f(v)]. *)
Definition apply_if_set {A} (f : option (A → A)) (v : A) : A :=
  match f with
  | Some g => g v
  | None => v
  end.

(** ** Raw datasets

    The wrapped source is opaque: it has a length and an indexing operation
    that may raise.  An item is a tuple whose first two fields are the input
    and the label, followed by any number of metadata fields. *)

Section RawDataset.
Context {X Y Meta : Type}.

Record item := Item {
  item_x : X;
  item_y : Y;
  item_meta : list Meta
}.

Record raw_dataset := RawDataset {
  raw_len : nat;
  raw_getitem : Z → result item
}.

(** [x, y = it[:2]] *)
Definition unpack_first_two (it : item) : result (X * Y) :=
  Ok (item_x it, item_y it).

(** [x, y = it] *)
Definition unpack_two (it : item) : result (X * Y) :=
  match item_meta it with
  | [] => Ok (item_x it, item_y it)
  | _ :: _ => Raise (ValueError "too many values to unpack (expected 2)")
  end.

(** A raw dataset backed by a Python list, with Python's indexing: negative
    indices count from the end, anything else out of range raises. *)
Definition raw_of_list (l : list item) : raw_dataset :=
  {| raw_len := length l;
     raw_getitem := fun i =>
       let n := Z.of_nat (length l) in
       let j := if bool_decide (i < 0) then i + n else i in
       if bool_decide (0 ≤ j < n)
       then match l !! Z.to_nat j with
            | Some it => Ok it
            | None => Raise (IndexError "list index out of range")
            end
       else Raise (IndexError "list index out of range") |}.
End RawDataset.
Arguments item : clear implicits.
Arguments raw_dataset : clear implicits.

(** ** Index arrays in the store

    The labeled-index tracker is a NumPy array that the dataset object holds
    by reference.  [np.array] and [np.concatenate] allocate a new array each
    time; whether a caller can reach the dataset's own array therefore
    depends on which reference a method hands out. *)

Inductive ndarray :=
| NdNone                (* [array(None, dtype=object)]: zero-dimensional *)
| NdIdx (l : list Z).   (* one-dimensional array of integers *)

Abbreviation loc := positive (only parsing).
Abbreviation heap := (gmap positive ndarray) (only parsing).

(** Computations over the store that may raise. *)
Definition M (A : Type) : Type := heap → heap * result A.

Definition ret_M {A} (a : A) : M A := fun h => (h, Ok a).
Definition raise_M {A} (e : exn) : M A := fun h => (h, Raise e).
Definition bind_M {A B} (m : M A) (f : A → M B) : M B := fun h =>
  match m h with
  | (h', Ok a) => f a h'
  | (h', Raise e) => (h', Raise e)
  end.

Notation "'do' x <- m ; k" := (bind_M m (fun x => k))
  (at level 10, x name, m at level 100, k at level 200,
   format "'[v' 'do'  x  <-  m ; '/' k ']'").

(** Allocation returns a reference that names no array yet. *)
Definition next_loc (h : heap) : loc := fresh (dom h).

Definition alloc (a : ndarray) : M loc := fun h =>
  let r := next_loc h in (<[r := a]> h, Ok r).

(** Dereferencing; a reference held by a live Python object always points to
    an array, so the last case is never taken from a well-formed state. *)
Definition deref (r : loc) : M ndarray := fun h =>
  match h !! r with
  | Some a => (h, Ok a)
  | None => (h, Raise (Exception "dangling reference"))
  end.

(** In-place element assignment [arr[i] = v] on a one-dimensional array. *)
Definition np_setitem (r : loc) (i : nat) (v : Z) : M unit := fun h =>
  match h !! r with
  | Some (NdIdx l) =>
      if bool_decide (i < length l)%nat
      then (<[r := NdIdx (<[i := v]> l)]> h, Ok ())
      else (h, Raise (IndexError "index is out of bounds"))
  | Some NdNone => (h, Raise (IndexError "too many indices for array"))
  | None => (h, Raise (Exception "dangling reference"))
  end.

(** In-place overwrite of the array behind [r] ([arr[...] = ...],
    [arr.sort()], [arr.resize(...)]): the reference stays, the contents
    change. *)
Definition np_overwrite (r : loc) (a : ndarray) : M unit := fun h =>
  (<[r := a]> h, Ok ()).

(** [np.array(l)] for a Python list of integers. *)
Definition np_array_list (l : list Z) : M loc := alloc (NdIdx l).

(** [np.array(o)] for [o] either [None] or an existing array: a copy. *)
Definition np_array (o : option loc) : M loc :=
  match o with
  | None => alloc NdNone
  | Some r => do a <- deref r; alloc a
  end.

(** [np.concatenate((a, b))] *)
Definition np_concatenate (ra rb : loc) : M loc :=
  do a <- deref ra;
  do b <- deref rb;
  match a, b with
  | NdIdx la, NdIdx lb => alloc (NdIdx (la ++ lb))
  | _, _ => raise_M (ValueError "zero-dimensional arrays cannot be concatenated")
  end.

(** [len(a)] on an array. *)
Definition np_len (r : loc) : M nat :=
  do a <- deref r;
  match a with
  | NdIdx l => ret_M (length l)
  | NdNone => raise_M (TypeError "len() of unsized object")
  end.

(** [list(a)] on an array. *)
Definition np_to_list (r : loc) : M (list Z) :=
  do a <- deref r;
  match a with
  | NdIdx l => ret_M l
  | NdNone => raise_M (TypeError "iteration over a 0-d array")
  end.

(** [set(l)] and [list(s)] on integers: Python fixes no iteration order for
    a set, [elements] stands for whichever order the interpreter uses. *)
Definition py_set (l : list Z) : gset Z := list_to_set l.
Definition py_list_of_set (s : gset Z) : list Z := elements s.
Definition py_range (n : nat) : list Z := seqZ 0 (Z.of_nat n).

(** ** LabelBench/skeleton/dataset_skeleton.py *)

Module LabelBench.

Inductive LabelType := MULTI_CLASS | MULTI_LABEL.

(** [datasets = {}] and [register_dataset]: the registry is a module-level
    dictionary; the decorator stores the pair and hands the function back. *)
Section Registry.
Context {GetFn : Type}.

Definition datasets_init : gmap string (LabelType * GetFn) := ∅.

Definition register_dataset (name : string) (type : LabelType) (get_fn : GetFn)
    (datasets : gmap string (LabelType * GetFn))
  : gmap string (LabelType * GetFn) * GetFn :=
  (<[name := (type, get_fn)]> datasets, get_fn).

(** [datasets[name]] *)
Definition datasets_getitem (datasets : gmap string (LabelType * GetFn))
    (name : string) : result (LabelType * GetFn) :=
  match datasets !! name with
  | Some v => Ok v
  | None => Raise (KeyError name)
  end.

(** The registrations made while the modules load, in order. *)
Definition register_all (regs : list (string * LabelType * GetFn))
    (datasets : gmap string (LabelType * GetFn))
  : gmap string (LabelType * GetFn) :=
  foldl (fun ds r => (register_dataset r.1.1 r.1.2 r.2 ds).1) datasets regs.
End Registry.

(** A value that is either one array or a tuple of two arrays
    ([isinstance(v, tuple)]). *)
Inductive array_or_pair (Arr : Type) :=
| Single (a : Arr)
| Paired (a b : Arr).
Arguments Single {Arr} a.
Arguments Paired {Arr} a b.

Module DatasetOnMemory.
Section DatasetOnMemory.
Context {Arr Labels : Type}.
Context (arr_len : Arr → nat) (labels_len : Labels → nat).

Record t := mk {
  X : array_or_pair Arr;
  y : option Labels;
  n_class : Z;
  _return_indices : bool
}.

(** [len(y)], where [y] may be [None]. *)
Definition len_y (y : option Labels) : result nat :=
  match y with
  | Some l => Ok (labels_len l)
  | None => Raise (TypeError "object of type 'NoneType' has no len()")
  end.

Definition __init__ (X : array_or_pair Arr) (y : option Labels) (n_class : Z)
  : result t :=
  ny ← len_y y;
  let same :=
    match X with
    | Paired x0 x1 =>
        bool_decide (arr_len x0 = ny) && bool_decide (arr_len x1 = ny)
    | Single x => bool_decide (arr_len x = ny)
    end in
  if same
  then Ok {| X := X; y := y; n_class := n_class; _return_indices := false |}
  else Raise (AssertionError "X and y must have the same length.").

Definition __len__ (self : t) : result nat := len_y (y self).

Definition get_inputs (self : t) : result Arr :=
  match X self with
  | Paired _ _ => Raise (Exception "Dataset has tuple as input.")
  | Single x => Ok x
  end.

Definition get_labels (self : t) : option Labels := y self.

Definition set_return_indices (return_indices : bool) (self : t) : t :=
  {| X := X self; y := y self; n_class := n_class self;
     _return_indices := return_indices |}.
(** Indexing into an array and into the labels ([a[item]]), as NumPy does
    it. *)
Context {Row Lab : Type}.
Context (arr_getitem : Arr → Z → result Row)
        (labels_getitem : Labels → Z → result Lab).

(** The input component of an item: one row, or the tuple of the rows of the
    two views. *)
Inductive input_rows :=
| OneRow (x : Row)
| TwoRows (x0 x1 : Row).

Definition __getitem__ (self : t) (item : Z)
  : result (input_rows * Lab * option Z) :=
  x ← match X self with
      | Paired x0 x1 =>
          a ← arr_getitem x0 item;
          b ← arr_getitem x1 item;
          Ok (TwoRows a b)
      | Single x0 =>
          a ← arr_getitem x0 item;
          Ok (OneRow a)
      end;
  y ← match y self with
      | Some l => labels_getitem l item
      | None => Raise (TypeError "'NoneType' object is not subscriptable")
      end;
  Ok (x, y, if _return_indices self then Some item else None).
End DatasetOnMemory.
Arguments t : clear implicits.
Arguments input_rows : clear implicits.
End DatasetOnMemory.

Module TransformDataset.
Section TransformDataset.
Context {X Y Meta : Type}.

Record t := mk {
  dataset : raw_dataset X Y Meta;
  __transform : option (X → X);
  __strong_transform : option (X → X);
  __target_transform : option (Y → Y);
  __default_transform : option (X → X);
  __default_target_transform : option (Y → Y);
  ignore_metadata : bool;
  _return_indices : bool
}.

Definition __init__ (dataset : raw_dataset X Y Meta)
    (transform : option (X → X)) (target_transform : option (Y → Y))
    (ignore_metadata : bool) : t :=
  {| dataset := dataset;
     __transform := transform;
     __strong_transform := None;
     __target_transform := target_transform;
     __default_transform := transform;
     __default_target_transform := target_transform;
     ignore_metadata := ignore_metadata;
     _return_indices := false |}.

Definition __len__ (self : t) : nat := raw_len (dataset self).

(** The input component of a returned sample: the transformed input, or the
    pair (weak view, strong view). *)
Inductive view :=
| Weak (x : X)
| WeakStrong (x xs : X).

(** The returned tuple [(x, y)] or [(x, y, item)]. *)
Record sample := Sample {
  sample_x : view;
  sample_y : Y;
  sample_index : option Z
}.

(** Reading the local variable [x], which is bound only on the branch that
    applied the input transform. *)
Definition read_local_x (x : option X) : result X :=
  match x with
  | Some v => Ok v
  | None => Raise (UnboundLocalError "x")
  end.

Definition __getitem__ (self : t) (item : Z) : result sample :=
  it ← raw_getitem (dataset self) item;
  '(x_orig, y) ← (if ignore_metadata self then unpack_first_two it
                  else unpack_two it);
  let x : option X :=
    match __transform self with
    | Some f => Some (f x_orig)
    | None => None
    end in
  let y := apply_if_set (__target_transform self) y in
  x ← match __strong_transform self with
      | Some g =>
          let xs := g x_orig in
          x ← read_local_x x;
          Ok (WeakStrong x xs)
      | None =>
          x ← read_local_x x;
          Ok (Weak x)
      end;
  Ok {| sample_x := x;
        sample_y := y;
        sample_index := if _return_indices self then Some item else None |}.

Definition get_transform (self : t) : option (X → X) := __transform self.

Definition set_transform (transform : option (X → X)) (self : t) : t :=
  {| dataset := dataset self;
     __transform := transform;
     __strong_transform := __strong_transform self;
     __target_transform := __target_transform self;
     __default_transform := __default_transform self;
     __default_target_transform := __default_target_transform self;
     ignore_metadata := ignore_metadata self;
     _return_indices := _return_indices self |}.

Definition set_strong_transform (strong_transform : option (X → X))
    (self : t) : t :=
  {| dataset := dataset self;
     __transform := __transform self;
     __strong_transform := strong_transform;
     __target_transform := __target_transform self;
     __default_transform := __default_transform self;
     __default_target_transform := __default_target_transform self;
     ignore_metadata := ignore_metadata self;
     _return_indices := _return_indices self |}.

Definition set_target_transform (target_transform : option (Y → Y))
    (self : t) : t :=
  {| dataset := dataset self;
     __transform := __transform self;
     __strong_transform := __strong_transform self;
     __target_transform := target_transform;
     __default_transform := __default_transform self;
     __default_target_transform := __default_target_transform self;
     ignore_metadata := ignore_metadata self;
     _return_indices := _return_indices self |}.

Definition set_to_default_transform (self : t) : t :=
  set_transform (__default_transform self) self.

Definition set_to_default_target_transform (self : t) : t :=
  set_target_transform (__default_target_transform self) self.

Definition set_return_indices (return_indices : bool) (self : t) : t :=
  {| dataset := dataset self;
     __transform := __transform self;
     __strong_transform := __strong_transform self;
     __target_transform := __target_transform self;
     __default_transform := __default_transform self;
     __default_target_transform := __default_target_transform self;
     ignore_metadata := ignore_metadata self;
     _return_indices := return_indices |}.

(** The mutating calls a client can make on a wrapper, as data, so that
    histories of calls can be quantified over. *)
Inductive call :=
| CallSetTransform (f : option (X → X))
| CallSetStrongTransform (f : option (X → X))
| CallSetTargetTransform (f : option (Y → Y))
| CallSetToDefaultTransform
| CallSetToDefaultTargetTransform
| CallSetReturnIndices (b : bool).

Definition step (self : t) (c : call) : t :=
  match c with
  | CallSetTransform f => set_transform f self
  | CallSetStrongTransform f => set_strong_transform f self
  | CallSetTargetTransform f => set_target_transform f self
  | CallSetToDefaultTransform => set_to_default_transform self
  | CallSetToDefaultTargetTransform => set_to_default_target_transform self
  | CallSetReturnIndices b => set_return_indices b self
  end.

Definition run (self : t) (cs : list call) : t := foldl step self cs.

Definition is_set_transform (c : call) : bool :=
  match c with CallSetTransform _ => true | _ => false end.

Definition is_set_target_transform (c : call) : bool :=
  match c with CallSetTargetTransform _ => true | _ => false end.
End TransformDataset.
Arguments t : clear implicits.
Arguments sample : clear implicits.
Arguments view : clear implicits.
Arguments call : clear implicits.
End TransformDataset.

(** The split tags ["train"], ["val"], ["test"]. *)
Inductive split := train | val | test.

Definition split_name (s : split) : string :=
  match s with
  | train => "train"
  | val => "val"
  | test => "test"
  end.

Module ALDataset.
Section ALDataset.
Context {X Y Meta Arr Stat Labels FE : Type}.
Context (arr_len : Arr → nat) (labels_len : Labels → nat).
(** [(e - mean) / std] with NumPy broadcasting; it does not raise, a zero
    deviation gives a non-finite entry. *)
Context (normalize : array_or_pair Arr → Stat → Stat → Arr).
(** [feature_extractor.get_feature(dataset, dataset_split, epoch,
    use_strong)]: the extractor has a state of its own and may raise. *)
Context (get_feature : FE → TransformDataset.t X Y Meta → split → Z → bool →
                       FE * result (array_or_pair Arr)).

(** A label field is a value (possibly [None]) or a zero-argument producer
    ([callable(...)]). *)
Inductive labels_field :=
| LabelsValue (v : option Labels)
| LabelsFn (f : unit → option Labels).

(** A statistic field is a value or a reducer called as [f(emb, axis=0)]. *)
Inductive stat_field :=
| StatValue (s : Stat)
| StatFn (f : Arr → Stat).

Record t := mk {
  train_dataset : TransformDataset.t X Y Meta;
  val_dataset : TransformDataset.t X Y Meta;
  test_dataset : TransformDataset.t X Y Meta;
  label_type : LabelType;
  num_classes : Z;
  train_emb : option (array_or_pair Arr);
  val_emb : option (array_or_pair Arr);
  test_emb : option (array_or_pair Arr);
  __train_emb_mean : stat_field;
  __train_emb_std : stat_field;
  __labeled_idxs : option loc;
  __train_labels : labels_field;
  __val_labels : labels_field;
  __test_labels : labels_field;
  classnames : list string
}.

(** The three [isinstance(..., TransformDataset)] assertions hold by typing.
    The attribute [feature_extractor], set to [None] here and read by no
    method, is left out of the record. *)
Definition __init__ (train_dataset val_dataset test_dataset :
                       TransformDataset.t X Y Meta)
    (train_labels val_labels test_labels : labels_field)
    (label_type : LabelType) (num_classes : Z) (classnames : list string)
    (train_emb_mean train_emb_std : stat_field) : t :=
  {| train_dataset := train_dataset;
     val_dataset := val_dataset;
     test_dataset := test_dataset;
     label_type := label_type;
     num_classes := num_classes;
     train_emb := None;
     val_emb := None;
     test_emb := None;
     __train_emb_mean := train_emb_mean;
     __train_emb_std := train_emb_std;
     __labeled_idxs := None;
     __train_labels := train_labels;
     __val_labels := val_labels;
     __test_labels := test_labels;
     classnames := classnames |}.

(** [getattr(self, dataset_split + "_dataset")] *)
Definition getattr_dataset (self : t) (s : split) : TransformDataset.t X Y Meta :=
  match s with
  | train => train_dataset self
  | val => val_dataset self
  | test => test_dataset self
  end.

(** [setattr(self, dataset_split + "_emb", feat_emb)] *)
Definition setattr_emb (self : t) (s : split) (feat_emb : array_or_pair Arr) : t :=
  {| train_dataset := train_dataset self;
     val_dataset := val_dataset self;
     test_dataset := test_dataset self;
     label_type := label_type self;
     num_classes := num_classes self;
     train_emb := match s with train => Some feat_emb | _ => train_emb self end;
     val_emb := match s with val => Some feat_emb | _ => val_emb self end;
     test_emb := match s with test => Some feat_emb | _ => test_emb self end;
     __train_emb_mean := __train_emb_mean self;
     __train_emb_std := __train_emb_std self;
     __labeled_idxs := __labeled_idxs self;
     __train_labels := __train_labels self;
     __val_labels := __val_labels self;
     __test_labels := __test_labels self;
     classnames := classnames self |}.

(** The body of [for _, dataset_split in enumerate([...])]. *)
Fixpoint update_embedding_loop (splits : list split) (epoch : Z)
    (use_strong : bool) (feature_extractor : FE) (self : t)
  : FE * t * result unit :=
  match splits with
  | [] => (feature_extractor, self, Ok ())
  | dataset_split :: rest =>
      let dataset := getattr_dataset self dataset_split in
      match get_feature feature_extractor dataset dataset_split epoch use_strong with
      | (fe, Ok feat_emb) =>
          update_embedding_loop rest epoch use_strong fe
            (setattr_emb self dataset_split feat_emb)
      | (fe, Raise e) => (fe, self, Raise e)
      end
  end.

(** The assertion [isinstance(feature_extractor, FeatureExtractor)] holds by
    typing.  The result carries the extractor's final state, [self] after the
    assignments made so far, and how the call ended. *)
Definition update_embedding_dataset (epoch : Z) (feature_extractor : FE)
    (use_strong : bool) (self : t) : FE * t * result unit :=
  update_embedding_loop [train; val; test] epoch use_strong
    feature_extractor self.

Definition set_labeled_idxs (self : t) (r : option loc) : t :=
  {| train_dataset := train_dataset self;
     val_dataset := val_dataset self;
     test_dataset := test_dataset self;
     label_type := label_type self;
     num_classes := num_classes self;
     train_emb := train_emb self;
     val_emb := val_emb self;
     test_emb := test_emb self;
     __train_emb_mean := __train_emb_mean self;
     __train_emb_std := __train_emb_std self;
     __labeled_idxs := r;
     __train_labels := __train_labels self;
     __val_labels := __val_labels self;
     __test_labels := __test_labels self;
     classnames := classnames self |}.

Definition update_labeled_idxs (new_idxs : list Z) (self : t) : M t :=
  match __labeled_idxs self with
  | None =>
      do r <- np_array_list new_idxs;
      ret_M (set_labeled_idxs self (Some r))
  | Some old =>
      do n <- np_array_list new_idxs;
      do r <- np_concatenate old n;
      ret_M (set_labeled_idxs self (Some r))
  end.

(** [if callable(v): v = v()] on a label field. *)
Definition realize_labels (v : labels_field) : option Labels :=
  match v with
  | LabelsFn f => f tt
  | LabelsValue l => l
  end.

(** [if callable(v): v = v(emb, axis=0)] on a statistic field. *)
Definition realize_stat (v : stat_field) (emb : Arr) : Stat :=
  match v with
  | StatFn f => f emb
  | StatValue s => s
  end.

(** [emb[0] if isinstance(emb, tuple) else emb] *)
Definition first_view (emb : array_or_pair Arr) : Arr :=
  match emb with
  | Paired a _ => a
  | Single a => a
  end.

Definition set_realized (self : t) (train_labels val_labels test_labels :
    option Labels) (mean std : Stat) : t :=
  {| train_dataset := train_dataset self;
     val_dataset := val_dataset self;
     test_dataset := test_dataset self;
     label_type := label_type self;
     num_classes := num_classes self;
     train_emb := train_emb self;
     val_emb := val_emb self;
     test_emb := test_emb self;
     __train_emb_mean := StatValue mean;
     __train_emb_std := StatValue std;
     __labeled_idxs := __labeled_idxs self;
     __train_labels := LabelsValue train_labels;
     __val_labels := LabelsValue val_labels;
     __test_labels := LabelsValue test_labels;
     classnames := classnames self |}.

Definition get_embedding_datasets (self : t)
  : t * result (DatasetOnMemory.t Arr Labels * DatasetOnMemory.t Arr Labels *
                DatasetOnMemory.t Arr Labels) :=
  match train_emb self, val_emb self, test_emb self with
  | Some tr, Some va, Some te =>
      let train_labels := realize_labels (__train_labels self) in
      let val_labels := realize_labels (__val_labels self) in
      let test_labels := realize_labels (__test_labels self) in
      let mean := realize_stat (__train_emb_mean self) (first_view tr) in
      let std := realize_stat (__train_emb_std self) (first_view tr) in
      let self := set_realized self train_labels val_labels test_labels mean std in
      let init := DatasetOnMemory.__init__ arr_len labels_len in
      (self,
       train_dataset ←
         match tr with
         | Paired a b =>
             init (Paired (normalize (Single a) mean std)
                          (normalize (Single b) mean std))
                  train_labels (num_classes self)
         | Single _ =>
             init (Single (normalize tr mean std)) train_labels
                  (num_classes self)
         end;
       val_dataset ←
         init (Single (normalize va mean std)) val_labels (num_classes self);
       test_dataset ←
         init (Single (normalize te mean std)) test_labels (num_classes self);
       Ok (train_dataset, val_dataset, test_dataset))
  | _, _, _ => (self, Raise (Exception "Embedding is not initialized."))
  end.

Definition get_input_datasets (self : t) :=
  (train_dataset self, val_dataset self, test_dataset self).

Definition __len__ (self : t) : nat :=
  TransformDataset.__len__ (train_dataset self).

Definition get_num_classes (self : t) : Z := num_classes self.

Definition get_classnames (self : t) : list string := classnames self.

Definition num_labeled (self : t) : M nat :=
  match __labeled_idxs self with
  | Some r => np_len r
  | None => raise_M (TypeError "object of type 'NoneType' has no len()")
  end.

Definition labeled_idxs (self : t) : M loc :=
  np_array (__labeled_idxs self).

Definition unlabeled_idxs (self : t) : M loc :=
  do r <- labeled_idxs self;
  do l <- np_to_list r;
  let labeled_set := py_set l in
  let all_set := py_set (py_range (__len__ self)) in
  np_array_list (py_list_of_set (all_set ∖ labeled_set)).
(** [a.shape], and [a.shape[1]] on it. *)
Context (shape : Arr → list nat).

Definition shape_1 (a : Arr) : result nat :=
  match shape a !! 1%nat with
  | Some k => Ok k
  | None => Raise (IndexError "tuple index out of range")
  end.

Definition get_embedding_dim (self : t) : result nat :=
  match train_emb self with
  | None => Raise (AssertionError "Embedding is not initialized.")
  | Some (Paired a _) => shape_1 a
  | Some (Single a) => shape_1 a
  end.

Definition set_train_labels (self : t) (v : labels_field) : t :=
  {| train_dataset := train_dataset self;
     val_dataset := val_dataset self;
     test_dataset := test_dataset self;
     label_type := label_type self;
     num_classes := num_classes self;
     train_emb := train_emb self;
     val_emb := val_emb self;
     test_emb := test_emb self;
     __train_emb_mean := __train_emb_mean self;
     __train_emb_std := __train_emb_std self;
     __labeled_idxs := __labeled_idxs self;
     __train_labels := v;
     __val_labels := __val_labels self;
     __test_labels := __test_labels self;
     classnames := classnames self |}.

(** [get_train_labels]: the returned [np.array(...)] of the labels is given
    by its contents; [None] stands for the zero-dimensional array that NumPy
    builds from an absent value. *)
Definition get_train_labels (self : t) : t * option Labels :=
  match __train_labels self with
  | LabelsFn f =>
      let v := f tt in
      (set_train_labels self (LabelsValue v), v)
  | LabelsValue v => (self, v)
  end.
End ALDataset.
Arguments t : clear implicits.
Arguments labels_field : clear implicits.
Arguments stat_field : clear implicits.
End ALDataset.

End LabelBench.

(** ** ALBench/skeleton/dataset_skeleton.py

    The older copy of the same classes: no strong view, no index return, no
    [unlabeled_idxs], and weak labels carried as metadata. *)

Module ALBench.

Inductive LabelType := MULTI_CLASS | MULTI_LABEL.

(** [datasets = {}] and [register_dataset]: the registry is a module-level
    dictionary; the decorator stores the pair and hands the function back. *)
Section Registry.
Context {GetFn : Type}.

Definition datasets_init : gmap string (LabelType * GetFn) := ∅.

Definition register_dataset (name : string) (type : LabelType) (get_fn : GetFn)
    (datasets : gmap string (LabelType * GetFn))
  : gmap string (LabelType * GetFn) * GetFn :=
  (<[name := (type, get_fn)]> datasets, get_fn).

(** [datasets[name]] *)
Definition datasets_getitem (datasets : gmap string (LabelType * GetFn))
    (name : string) : result (LabelType * GetFn) :=
  match datasets !! name with
  | Some v => Ok v
  | None => Raise (KeyError name)
  end.

(** The registrations made while the modules load, in order. *)
Definition register_all (regs : list (string * LabelType * GetFn))
    (datasets : gmap string (LabelType * GetFn))
  : gmap string (LabelType * GetFn) :=
  foldl (fun ds r => (register_dataset r.1.1 r.1.2 r.2 ds).1) datasets regs.
End Registry.

Module DatasetOnMemory.
Section DatasetOnMemory.
Context {Arr Labels : Type}.
Context (arr_len : Arr → nat) (labels_len : Labels → nat).

Record t := mk {
  X : Arr;
  y : option Labels;
  n_class : Z;
  meta_data : option Labels
}.

Definition len_y (y : option Labels) : result nat :=
  match y with
  | Some l => Ok (labels_len l)
  | None => Raise (TypeError "object of type 'NoneType' has no len()")
  end.

Definition __init__ (X : Arr) (y : option Labels) (n_class : Z)
    (meta_data : option Labels) : result t :=
  ny ← len_y y;
  if bool_decide (arr_len X = ny)
  then
    match meta_data with
    | Some m =>
        if bool_decide (arr_len X = labels_len m)
        then Ok {| X := X; y := y; n_class := n_class; meta_data := meta_data |}
        else Raise (AssertionError "X and y must have the same length.")
    | None =>
        Ok {| X := X; y := y; n_class := n_class; meta_data := meta_data |}
    end
  else Raise (AssertionError "X and y must have the same length.").

Definition __len__ (self : t) : result nat := len_y (y self).
Definition get_inputs (self : t) : Arr := X self.
Definition get_labels (self : t) : option Labels := y self.
Context {Row Lab : Type}.
Context (arr_getitem : Arr → Z → result Row)
        (labels_getitem : Labels → Z → result Lab).

Definition __getitem__ (self : t) (item : Z) : result (Row * Lab) :=
  x ← arr_getitem (X self) item;
  y ← match y self with
      | Some l => labels_getitem l item
      | None => Raise (TypeError "'NoneType' object is not subscriptable")
      end;
  Ok (x, y).
End DatasetOnMemory.
Arguments t : clear implicits.
End DatasetOnMemory.

Module TransformDataset.
Section TransformDataset.
Context {X Y Meta : Type}.

Record t := mk {
  dataset : raw_dataset X Y Meta;
  __transform : option (X → X);
  __target_transform : option (Y → Y);
  __default_transform : option (X → X);
  __default_target_transform : option (Y → Y);
  ignore_metadata : bool;
  __transform_seed : Z
}.

Definition __init__ (dataset : raw_dataset X Y Meta)
    (transform : option (X → X)) (target_transform : option (Y → Y))
    (ignore_metadata : bool) : t :=
  {| dataset := dataset;
     __transform := transform;
     __target_transform := target_transform;
     __default_transform := transform;
     __default_target_transform := target_transform;
     ignore_metadata := ignore_metadata;
     __transform_seed := 42 |}.

Definition __len__ (self : t) : nat := raw_len (dataset self).

Definition __getitem__ (self : t) (item : Z) : result (X * Y) :=
  it ← raw_getitem (dataset self) item;
  '(x, y) ← (if ignore_metadata self then unpack_first_two it
             else unpack_two it);
  let x := apply_if_set (__transform self) x in
  let y := apply_if_set (__target_transform self) y in
  Ok (x, y).

Definition set_transform (transform : option (X → X)) (self : t) : t :=
  {| dataset := dataset self;
     __transform := transform;
     __target_transform := __target_transform self;
     __default_transform := __default_transform self;
     __default_target_transform := __default_target_transform self;
     ignore_metadata := ignore_metadata self;
     __transform_seed := __transform_seed self |}.

Definition set_target_transform (target_transform : option (Y → Y))
    (self : t) : t :=
  {| dataset := dataset self;
     __transform := __transform self;
     __target_transform := target_transform;
     __default_transform := __default_transform self;
     __default_target_transform := __default_target_transform self;
     ignore_metadata := ignore_metadata self;
     __transform_seed := __transform_seed self |}.

Definition set_to_default_transform (self : t) : t :=
  set_transform (__default_transform self) self.

Definition set_to_default_target_transform (self : t) : t :=
  set_target_transform (__default_target_transform self) self.
End TransformDataset.
Arguments t : clear implicits.
End TransformDataset.

Inductive split := train | val | test.

Module ALDataset.
Section ALDataset.
Context {X Y Meta Arr Stat Labels FE : Type}.
Context (arr_len : Arr → nat) (labels_len : Labels → nat).
(** [(emb - mean) / std] *)
Context (normalize : Arr → Stat → Stat → Arr).
(** [get_feature_fn(dataset, dataset_split, epoch)] *)
Context (get_feature_fn : FE → TransformDataset.t X Y Meta → split → Z →
                          FE * result Arr).

Inductive labels_field :=
| LabelsValue (v : option Labels)
| LabelsFn (f : unit → option Labels).

Inductive stat_field :=
| StatValue (s : Stat)
| StatFn (f : Arr → Stat).

Record t := mk {
  train_dataset : TransformDataset.t X Y Meta;
  val_dataset : TransformDataset.t X Y Meta;
  test_dataset : TransformDataset.t X Y Meta;
  label_type : LabelType;
  num_classes : Z;
  train_emb : option Arr;
  val_emb : option Arr;
  test_emb : option Arr;
  __train_emb_mean : stat_field;
  __train_emb_std : stat_field;
  __labeled_idxs : option loc;
  __train_labels : labels_field;
  __val_labels : labels_field;
  __test_labels : labels_field;
  __train_weak_labels : labels_field;
  __val_weak_labels : labels_field;
  __test_weak_labels : labels_field;
  classnames : list string
}.

Definition __init__ (train_dataset val_dataset test_dataset :
                       TransformDataset.t X Y Meta)
    (train_labels val_labels test_labels : labels_field)
    (label_type : LabelType) (num_classes : Z) (classnames : list string)
    (train_emb_mean train_emb_std : stat_field)
    (train_weak_labels val_weak_labels test_weak_labels : labels_field) : t :=
  {| train_dataset := train_dataset;
     val_dataset := val_dataset;
     test_dataset := test_dataset;
     label_type := label_type;
     num_classes := num_classes;
     train_emb := None;
     val_emb := None;
     test_emb := None;
     __train_emb_mean := train_emb_mean;
     __train_emb_std := train_emb_std;
     __labeled_idxs := None;
     __train_labels := train_labels;
     __val_labels := val_labels;
     __test_labels := test_labels;
     __train_weak_labels := train_weak_labels;
     __val_weak_labels := val_weak_labels;
     __test_weak_labels := test_weak_labels;
     classnames := classnames |}.

Definition getattr_dataset (self : t) (s : split) : TransformDataset.t X Y Meta :=
  match s with
  | train => train_dataset self
  | val => val_dataset self
  | test => test_dataset self
  end.

Definition setattr_emb (self : t) (s : split) (feat_emb : Arr) : t :=
  {| train_dataset := train_dataset self;
     val_dataset := val_dataset self;
     test_dataset := test_dataset self;
     label_type := label_type self;
     num_classes := num_classes self;
     train_emb := match s with train => Some feat_emb | _ => train_emb self end;
     val_emb := match s with val => Some feat_emb | _ => val_emb self end;
     test_emb := match s with test => Some feat_emb | _ => test_emb self end;
     __train_emb_mean := __train_emb_mean self;
     __train_emb_std := __train_emb_std self;
     __labeled_idxs := __labeled_idxs self;
     __train_labels := __train_labels self;
     __val_labels := __val_labels self;
     __test_labels := __test_labels self;
     __train_weak_labels := __train_weak_labels self;
     __val_weak_labels := __val_weak_labels self;
     __test_weak_labels := __test_weak_labels self;
     classnames := classnames self |}.

Fixpoint update_embedding_loop (splits : list split) (epoch : Z)
    (fe : FE) (self : t) : FE * t * result unit :=
  match splits with
  | [] => (fe, self, Ok ())
  | dataset_split :: rest =>
      let dataset := getattr_dataset self dataset_split in
      match get_feature_fn fe dataset dataset_split epoch with
      | (fe, Ok feat_emb) =>
          update_embedding_loop rest epoch fe
            (setattr_emb self dataset_split feat_emb)
      | (fe, Raise e) => (fe, self, Raise e)
      end
  end.

(** The assertion [callable(get_feature_fn)] holds by typing. *)
Definition update_embedding_dataset (epoch : Z) (fe : FE) (self : t)
  : FE * t * result unit :=
  update_embedding_loop [train; val; test] epoch fe self.

Definition set_labeled_idxs (self : t) (r : option loc) : t :=
  {| train_dataset := train_dataset self;
     val_dataset := val_dataset self;
     test_dataset := test_dataset self;
     label_type := label_type self;
     num_classes := num_classes self;
     train_emb := train_emb self;
     val_emb := val_emb self;
     test_emb := test_emb self;
     __train_emb_mean := __train_emb_mean self;
     __train_emb_std := __train_emb_std self;
     __labeled_idxs := r;
     __train_labels := __train_labels self;
     __val_labels := __val_labels self;
     __test_labels := __test_labels self;
     __train_weak_labels := __train_weak_labels self;
     __val_weak_labels := __val_weak_labels self;
     __test_weak_labels := __test_weak_labels self;
     classnames := classnames self |}.

Definition update_labeled_idxs (new_idxs : list Z) (self : t) : M t :=
  match __labeled_idxs self with
  | None =>
      do r <- np_array_list new_idxs;
      ret_M (set_labeled_idxs self (Some r))
  | Some old =>
      do n <- np_array_list new_idxs;
      do r <- np_concatenate old n;
      ret_M (set_labeled_idxs self (Some r))
  end.

Definition realize_labels (v : labels_field) : option Labels :=
  match v with
  | LabelsFn f => f tt
  | LabelsValue l => l
  end.

Definition realize_stat (v : stat_field) (emb : Arr) : Stat :=
  match v with
  | StatFn f => f emb
  | StatValue s => s
  end.

Definition set_realized (self : t)
    (train_labels val_labels test_labels : option Labels)
    (train_weak val_weak test_weak : option Labels) (mean std : Stat) : t :=
  {| train_dataset := train_dataset self;
     val_dataset := val_dataset self;
     test_dataset := test_dataset self;
     label_type := label_type self;
     num_classes := num_classes self;
     train_emb := train_emb self;
     val_emb := val_emb self;
     test_emb := test_emb self;
     __train_emb_mean := StatValue mean;
     __train_emb_std := StatValue std;
     __labeled_idxs := __labeled_idxs self;
     __train_labels := LabelsValue train_labels;
     __val_labels := LabelsValue val_labels;
     __test_labels := LabelsValue test_labels;
     __train_weak_labels := LabelsValue train_weak;
     __val_weak_labels := LabelsValue val_weak;
     __test_weak_labels := LabelsValue test_weak;
     classnames := classnames self |}.

Definition get_embedding_datasets (self : t)
  : t * result (DatasetOnMemory.t Arr Labels * DatasetOnMemory.t Arr Labels *
                DatasetOnMemory.t Arr Labels) :=
  match train_emb self, val_emb self, test_emb self with
  | Some tr, Some va, Some te =>
      let train_labels := realize_labels (__train_labels self) in
      let val_labels := realize_labels (__val_labels self) in
      let test_labels := realize_labels (__test_labels self) in
      let train_weak := realize_labels (__train_weak_labels self) in
      let val_weak := realize_labels (__val_weak_labels self) in
      let test_weak := realize_labels (__test_weak_labels self) in
      let mean := realize_stat (__train_emb_mean self) tr in
      let std := realize_stat (__train_emb_std self) tr in
      let self := set_realized self train_labels val_labels test_labels
                    train_weak val_weak test_weak mean std in
      let init := DatasetOnMemory.__init__ arr_len labels_len in
      (self,
       train_dataset ←
         init (normalize tr mean std) train_labels (num_classes self) train_weak;
       val_dataset ←
         init (normalize va mean std) val_labels (num_classes self) val_weak;
       test_dataset ←
         init (normalize te mean std) test_labels (num_classes self) test_weak;
       Ok (train_dataset, val_dataset, test_dataset))
  | _, _, _ => (self, Raise (Exception "Embedding is not initialized."))
  end.

Definition __len__ (self : t) : nat :=
  TransformDataset.__len__ (train_dataset self).

Definition num_labeled (self : t) : M nat :=
  match __labeled_idxs self with
  | Some r => np_len r
  | None => raise_M (TypeError "object of type 'NoneType' has no len()")
  end.

Definition labeled_idxs (self : t) : M loc :=
  np_array (__labeled_idxs self).
Context (shape : Arr → list nat).

Definition shape_1 (a : Arr) : result nat :=
  match shape a !! 1%nat with
  | Some k => Ok k
  | None => Raise (IndexError "tuple index out of range")
  end.

Definition get_embedding_dim (self : t) : result nat :=
  match train_emb self with
  | None => Raise (AssertionError "Embedding is not initialized.")
  | Some a => shape_1 a
  end.

Definition set_train_labels (self : t) (v : labels_field) : t :=
  {| train_dataset := train_dataset self;
     val_dataset := val_dataset self;
     test_dataset := test_dataset self;
     label_type := label_type self;
     num_classes := num_classes self;
     train_emb := train_emb self;
     val_emb := val_emb self;
     test_emb := test_emb self;
     __train_emb_mean := __train_emb_mean self;
     __train_emb_std := __train_emb_std self;
     __labeled_idxs := __labeled_idxs self;
     __train_labels := v;
     __val_labels := __val_labels self;
     __test_labels := __test_labels self;
     __train_weak_labels := __train_weak_labels self;
     __val_weak_labels := __val_weak_labels self;
     __test_weak_labels := __test_weak_labels self;
     classnames := classnames self |}.

Definition get_train_labels (self : t) : t * option Labels :=
  match __train_labels self with
  | LabelsFn f =>
      let v := f tt in
      (set_train_labels self (LabelsValue v), v)
  | LabelsValue v => (self, v)
  end.

Definition get_input_datasets (self : t) :=
  (train_dataset self, val_dataset self, test_dataset self).

Definition get_num_classes (self : t) : Z := num_classes self.

Definition get_classnames (self : t) : list string := classnames self.
End ALDataset.
Arguments t : clear implicits.
Arguments labels_field : clear implicits.
Arguments stat_field : clear implicits.
End ALDataset.

End ALBench.

(** ** ALBench/trainer/trainer.py *)

Module Trainer.

(** [s.split(sep)[0]]: the part of [s] before the first separator. *)
Fixpoint split_head (sep : Ascii.ascii) (s : string) : string :=
  match s with
  | EmptyString => EmptyString
  | String c rest =>
      if Ascii.eqb c sep then EmptyString else String c (split_head sep rest)
  end.

Section Trainer.
(** Configuration data that is neither a string, an integer nor a boolean
    (floats, lists). *)
Context {Other : Type}.

(** The values of a trainer configuration.  The last three are the closures
    [optim_fn] built by [get_optimizer_fn]; each records the variables it
    captured ([lr] and [betas] are read from the configuration when the
    closure is called). *)
Inductive value :=
| VStr (s : string)
| VInt (z : Z)
| VBool (b : bool)
| VOther (o : Other)
| AdamFn (wd : value)
| AdamBetasFn (wd : value)
| SGDFn (wd nesterov momentum : value).

(** [str(v)] for a value that is not a string. *)
Context (py_str : value → string).

(** [trainer_config[key]] *)
Definition dict_getitem (d : gmap string value) (key : string) : result value :=
  match d !! key with
  | Some v => Ok v
  | None => Raise (KeyError key)
  end.

(** [key in trainer_config] *)
Definition dict_contains (key : string) (d : gmap string value) : bool :=
  bool_decide (is_Some (d !! key)).

(** [v == s] for a string literal [s]. *)
Definition eq_str (v : value) (s : string) : bool :=
  match v with
  | VStr t => String.eqb t s
  | _ => false
  end.

(** [v.split("_")[0]] *)
Definition split_underscore_0 (v : value) : result string :=
  match v with
  | VStr s => Ok (split_head "_"%char s)
  | _ => Raise (AttributeError "object has no attribute 'split'")
  end.

(** ["%s optimizer is unknown" % v] *)
Definition unknown_optimizer_message (v : value) : string :=
  match v with
  | VStr s => s +:+ " optimizer is unknown"
  | _ => py_str v +:+ " optimizer is unknown"
  end.

(** [get_optimizer_fn]: the dictionary after the call, and how the call
    ended.  On normal return the function returns the dictionary itself. *)
Definition get_optimizer_fn (trainer_config : gmap string value)
  : gmap string value * result unit :=
  let final : result (gmap string value) :=
    name ← dict_getitem trainer_config "trainer_name";
    train_method ← split_underscore_0 name;
    if negb (String.eqb train_method "sklearn") then
      wd ← (if dict_contains "wd" trainer_config
            then dict_getitem trainer_config "wd" else Ok (VInt 0));
      optim_name ← dict_getitem trainer_config "optim_name";
      optim_fn ←
        (if eq_str optim_name "Adam" then
           if negb (dict_contains "betas" trainer_config)
           then Ok (AdamFn wd)
           else Ok (AdamBetasFn wd)
         else if eq_str optim_name "SGD" then
           nesterov ← (if dict_contains "nesterov" trainer_config
                       then dict_getitem trainer_config "nesterov"
                       else Ok (VBool false));
           momentum ← (if dict_contains "momentum" trainer_config
                       then dict_getitem trainer_config "momentum"
                       else Ok (VInt 0));
           Ok (SGDFn wd nesterov momentum)
         else
           Raise (ValueError (unknown_optimizer_message optim_name)));
      Ok (<["optim_fn" := optim_fn]> trainer_config)
    else Ok trainer_config in
  match final with
  | Ok d => (d, Ok ())
  | Raise e => (trainer_config, Raise e)
  end.
End Trainer.
Arguments value : clear implicits.

Section Fns.
Context {Other : Type}.
(** The function objects that [get_fns] installs:
    [F.binary_cross_entropy_with_logits], [F.cross_entropy], [torch.sigmoid]
    and the softmax over the last dimension. *)
Context (binary_cross_entropy_with_logits cross_entropy sigmoid softmax_last
         : Other).

(** [get_fns]: the dictionary after the call, and how the call ended. *)
Definition get_fns (trainer_config : gmap string (value Other))
  : gmap string (value Other) * result unit :=
  if negb (dict_contains "loss_fn" trainer_config)
  then (trainer_config, Raise (AssertionError "loss_fn not in trainer config."))
  else if negb (dict_contains "pred_fn" trainer_config)
  then (trainer_config, Raise (AssertionError "pred_fn not in trainer config."))
  else
    match dict_getitem trainer_config "loss_fn" with
    | Raise e => (trainer_config, Raise e)
    | Ok loss =>
        let c1 :=
          if eq_str loss "Binary Cross Entropy"
          then <["loss_fn" := VOther binary_cross_entropy_with_logits]>
                 trainer_config
          else if eq_str loss "Cross Entropy"
          then <["loss_fn" := VOther cross_entropy]> trainer_config
          else trainer_config in
        match dict_getitem c1 "pred_fn" with
        | Raise e => (c1, Raise e)
        | Ok pred =>
            let c2 :=
              if eq_str pred "Sigmoid"
              then <["pred_fn" := VOther sigmoid]> c1
              else if eq_str pred "Softmax"
              then <["pred_fn" := VOther softmax_last]> c1
              else c1 in
            (c2, Ok ())
        end
    end.

(** What [get_fns] leaves under [loss_fn] and under [pred_fn], given what
    was there. *)
Definition resolved_loss (v : value Other) : value Other :=
  if eq_str v "Binary Cross Entropy"
  then VOther binary_cross_entropy_with_logits
  else if eq_str v "Cross Entropy" then VOther cross_entropy
  else v.

Definition resolved_pred (v : value Other) : value Other :=
  if eq_str v "Sigmoid" then VOther sigmoid
  else if eq_str v "Softmax" then VOther softmax_last
  else v.
End Fns.

(** [get_trainer]: the trainer registered under [name], applied to the
    arguments. *)
Section GetTrainer.
Context {Args TrainerT : Type}.

Definition get_trainer (trainers : gmap string (Args → TrainerT))
    (name : string) (args : Args) : result TrainerT :=
  match trainers !! name with
  | Some mk => Ok (mk args)
  | None => Raise (KeyError name)
  end.
End GetTrainer.

End Trainer.

(** ** ALBench/dataset/dataset_impl/cifar10_dataset.py

    The torchvision dataset, the image transforms, the seeded permutation and
    the table of class names come from outside the file and are parameters. *)

Module Cifar10.

(** The bound [k] of a slice of a sequence of length [n], as Python clamps
    it: a negative bound counts from the end. *)
Definition slice_bound (n : nat) (k : Z) : nat :=
  Z.to_nat (if bool_decide (k < 0) then Z.max 0 (Z.of_nat n + k)
            else Z.min k (Z.of_nat n)).

(** [l[:k]] and [l[k:]] *)
Definition slice_to {A} (l : list A) (k : Z) : list A :=
  take (slice_bound (length l) k) l.
Definition slice_from {A} (l : list A) (k : Z) : list A :=
  drop (slice_bound (length l) k) l.

(** [indices[idx]] on an index array. *)
Definition indices_getitem (indices : list Z) (idx : Z) : result Z :=
  let n := Z.of_nat (length indices) in
  let j := if bool_decide (idx < 0) then idx + n else idx in
  if bool_decide (0 ≤ j < n)
  then match indices !! Z.to_nat j with
       | Some v => Ok v
       | None => Raise (IndexError "index is out of bounds")
       end
  else Raise (IndexError "index is out of bounds").

Section Cifar10.
Context {X Y Meta TT Labels : Type}.
(** [train_transform], [test_transform], and the label transform built from
    [n_class]. *)
Context (train_transform test_transform : X → X).
Context (target_transform : Z → TT).
(** [CIFAR10(data_dir, train=..., download=True, target_transform=...)] *)
Context (CIFAR10 : string → bool → TT → raw_dataset X Y Meta).
(** [np.random.RandomState(42).permutation(n)] *)
Context (permutation : nat → list Z).
(** [get_classnames(name)] *)
Context (get_classnames : string → list string).

(** [torch.utils.data.Subset(dataset, indices)] *)
Definition Subset (dataset : raw_dataset X Y Meta) (indices : list Z)
  : raw_dataset X Y Meta :=
  {| raw_len := length indices;
     raw_getitem := fun idx =>
       j ← indices_getitem indices idx;
       raw_getitem dataset j |}.

(** The returned 8-tuple. *)
Record returned := Returned {
  ret_train : ALBench.TransformDataset.t X Y Meta;
  ret_val : ALBench.TransformDataset.t X Y Meta;
  ret_test : ALBench.TransformDataset.t X Y Meta;
  ret_train_labels : option Labels;
  ret_val_labels : option Labels;
  ret_test_labels : option Labels;
  ret_n_class : Z;
  ret_classnames : list string
}.

(** The two index arrays cut from the permutation. *)
Definition val_idxs (idxs : list Z) : list Z :=
  slice_to idxs ((- Z.of_nat (length idxs)) `div` 2).
Definition test_idxs (idxs : list Z) : list Z :=
  slice_from idxs ((- Z.of_nat (length idxs)) `div` 2).

Definition get_cifar10_imb_dataset (n_class : Z) (data_dir : string)
  : returned :=
  let tt := target_transform n_class in
  let train_dataset := CIFAR10 data_dir true tt in
  let test_dataset := CIFAR10 data_dir false tt in
  let idxs := permutation (raw_len test_dataset) in
  let val_dataset := Subset test_dataset (val_idxs idxs) in
  let test_dataset := Subset test_dataset (test_idxs idxs) in
  let classnames :=
    if bool_decide (n_class < 10)
    then slice_to (get_classnames "cifar10") n_class ++ ["others"]
    else get_classnames "cifar10" in
  {| ret_train := ALBench.TransformDataset.__init__ train_dataset
                    (Some train_transform) None false;
     ret_val := ALBench.TransformDataset.__init__ val_dataset
                  (Some test_transform) None false;
     ret_test := ALBench.TransformDataset.__init__ test_dataset
                   (Some test_transform) None false;
     ret_train_labels := None;
     ret_val_labels := None;
     ret_test_labels := None;
     ret_n_class := n_class;
     ret_classnames := classnames |}.

Definition get_cifar10_dataset (data_dir : string) : returned :=
  let n_class := 10 in
  get_cifar10_imb_dataset n_class data_dir.
End Cifar10.
Arguments returned : clear implicits.

End Cifar10.

(** ** Row alignment

    The condition under which the in-memory dataset of a split can be built:
    the split has a label array, and every view of its embedding has as many
    rows as there are labels. *)

Definition rows_match {Arr Labels : Type} (arr_len : Arr → nat)
    (labels_len : Labels → nat) (e : LabelBench.array_or_pair Arr)
    (y : option Labels) : Prop :=
  ∃ l, y = Some l ∧
       match e with
       | LabelBench.Single a => arr_len a = labels_len l
       | LabelBench.Paired a b =>
           arr_len a = labels_len l ∧ arr_len b = labels_len l
       end.

(** The input of the training dataset that [get_embedding_datasets] builds
    from the embedding [tr] and the statistics [m], [s]: each view is
    normalized on its own. *)
Definition normalized_train {Arr Stat : Type}
    (normalize : LabelBench.array_or_pair Arr → Stat → Stat → Arr)
    (tr : LabelBench.array_or_pair Arr) (m s : Stat)
  : LabelBench.array_or_pair Arr :=
  match tr with
  | LabelBench.Paired a b =>
      LabelBench.Paired (normalize (LabelBench.Single a) m s)
                        (normalize (LabelBench.Single b) m s)
  | LabelBench.Single _ => LabelBench.Single (normalize tr m s)
  end.


(** ** Client programs used in the statements *)

Section Observations.
Context {X Y Meta Arr Stat Labels : Type}.
Import LabelBench.ALDataset.
Abbreviation ald := (t X Y Meta Arr Stat Labels) (only parsing).

(** The dataset [self] holds a one-dimensional tracker with contents [l]. *)
Definition tracks (self : ald) (h : heap) (l : list Z) : Prop :=
  ∃ r, __labeled_idxs self = Some r ∧ h !! r = Some (NdIdx l).

(** Successive calls of [update_labeled_idxs], one per batch. *)
Fixpoint update_all (batches : list (list Z)) (self : ald) : M ald :=
  match batches with
  | [] => ret_M self
  | b :: rest => do self <- update_labeled_idxs b self; update_all rest self
  end.

(** [list(self.labeled_idxs())] and [self.num_labeled()]. *)
Definition read_labeled (self : ald) : M (list Z * nat) :=
  do r <- labeled_idxs self;
  do l <- np_to_list r;
  do n <- num_labeled self;
  ret_M (l, n).

(** [list(self.unlabeled_idxs())] *)
Definition read_unlabeled (self : ald) : M (list Z) :=
  do r <- unlabeled_idxs self;
  np_to_list r.

(** What a client can see of the labeling state. *)
Definition observe (self : ald) : M (list Z * nat * list Z) :=
  do ln <- read_labeled self;
  do u <- read_unlabeled self;
  ret_M (ln.1, ln.2, u).

(** A client that takes [labeled_idxs()], overwrites the array it got with
    [a] in place, and then looks at the dataset again. *)
Definition mutate_then_observe (self : ald) (a : ndarray)
  : M (list Z * nat * list Z) :=
  do r <- labeled_idxs self;
  do _ <- np_overwrite r a;
  observe self.
End Observations.

(** ** A small concrete instance

    One integer feature per row and exact integer arithmetic in place of
    floating point; used to run the definitions on explicit inputs. *)

Module Demo.

(** Nested arrays: a number, or a sequence of arrays. *)
#[local] Unset Elimination Schemes.
Inductive nd :=
| Num (z : Z)
| Rows (l : list nd).
#[local] Set Elimination Schemes.

Definition nd_len (a : nd) : nat :=
  match a with
  | Num _ => 0%nat
  | Rows l => length l
  end.

Fixpoint nd_map (f : Z → Z) (a : nd) : nd :=
  match a with
  | Num z => Num (f z)
  | Rows l => Rows (map (nd_map f) l)
  end.

Definition vec (l : list Z) : nd := Rows (map Num l).

Fixpoint nd_sum (a : nd) : Z :=
  match a with
  | Num z => z
  | Rows l => foldr (fun x acc => nd_sum x + acc) 0 l
  end.

(** [np.mean(a, axis=0)] of a one-dimensional array, rounded down. *)
Definition mean (a : nd) : Z := nd_sum a `div` Z.of_nat (nd_len a).

(** A constant deviation, so that the arithmetic below stays readable. *)
Definition std (a : nd) : Z := 1.

(** [(e - mean) / std] with scalar statistics; a tuple operand is first
    converted to an array of its two components. *)
Definition normalize (e : LabelBench.array_or_pair nd) (m s : Z) : nd :=
  let a := match e with
           | LabelBench.Single a => a
           | LabelBench.Paired a b => Rows [a; b]
           end in
  nd_map (fun x => (x - m) `div` s) a.

Definition raw3 : raw_dataset string Z unit :=
  raw_of_list [Item "img0" 7 []; Item "img1" 8 []; Item "img2" 9 []].

Definition raw1 : raw_dataset string Z unit :=
  raw_of_list [Item "img0" 7 []].

Definition wrap (r : raw_dataset string Z unit)
  : LabelBench.TransformDataset.t string Z unit :=
  LabelBench.TransformDataset.__init__ r (Some (fun x => x +:+ "!")) None false.

Definition upper (x : string) : string := x +:+ "^".

(** A feature extractor whose state is the log of the splits it was asked
    for.  At epoch [e] it embeds a split of [n] items as the rows
    [e, e+1, ..]; it raises on the validation split when [e] is negative. *)
Definition get_feature (log : list LabelBench.split)
    (d : LabelBench.TransformDataset.t string Z unit)
    (s : LabelBench.split) (epoch : Z) (use_strong : bool)
  : list LabelBench.split * result (LabelBench.array_or_pair nd) :=
  let log := log ++ [s] in
  let rows := vec (seqZ epoch (Z.of_nat (LabelBench.TransformDataset.__len__ d))) in
  match s with
  | LabelBench.val =>
      if bool_decide (epoch < 0)
      then (log, Raise (Exception "extractor failed"))
      else (log, Ok (LabelBench.Single rows))
  | _ => (log, Ok (if use_strong then LabelBench.Paired rows rows
                   else LabelBench.Single rows))
  end.

(** Labels for a split of three, one and one items. *)
Definition labels3 : list Z := [0; 1; 0].
Definition labels1 : list Z := [1].

Definition mk_dataset (train_labels : option (list Z))
  : LabelBench.ALDataset.t string Z unit nd Z (list Z) :=
  LabelBench.ALDataset.__init__ (wrap raw3) (wrap raw1) (wrap raw1)
    (LabelBench.ALDataset.LabelsValue train_labels)
    (LabelBench.ALDataset.LabelsFn (fun _ => Some labels1))
    (LabelBench.ALDataset.LabelsValue (Some labels1))
    LabelBench.MULTI_CLASS 2 ["a"; "b"]
    (LabelBench.ALDataset.StatFn mean) (LabelBench.ALDataset.StatFn std).

Definition al3 := mk_dataset (Some labels3).



Definition get_embedding_datasets :=
  LabelBench.ALDataset.get_embedding_datasets
    (X := string) (Y := Z) (Meta := unit) (Labels := list Z)
    nd_len length normalize.

Definition update_embedding_dataset :=
  LabelBench.ALDataset.update_embedding_dataset (Stat := Z) (Labels := list Z)
    get_feature.

(** Trainer configurations. *)
Definition cfg_sklearn : gmap string (Trainer.value unit) :=
  {[ "trainer_name" := Trainer.VStr "sklearn_passive";
     "optim_name" := Trainer.VStr "LBFGS" ]}.

Definition cfg_pytorch : gmap string (Trainer.value unit) :=
  {[ "trainer_name" := Trainer.VStr "pytorch_passive";
     "optim_name" := Trainer.VStr "LBFGS";
     "lr" := Trainer.VOther () ]}.

Definition py_str (v : Trainer.value unit) : string := "<value>".

End Demo.

(** ** More concrete inputs *)

Module DemoMore.

(** Trainer configurations over data with no further values. *)
Definition cfg_adam : gmap string (Trainer.value unit) :=
  {[ "trainer_name" := Trainer.VStr "pytorch_passive";
     "optim_name" := Trainer.VStr "Adam";
     "lr" := Trainer.VOther ();
     "wd" := Trainer.VInt 1 ]}.

Definition cfg_sgd : gmap string (Trainer.value unit) :=
  {[ "trainer_name" := Trainer.VStr "pytorch_passive";
     "optim_name" := Trainer.VStr "SGD";
     "nesterov" := Trainer.VBool true ]}.

Definition cfg_no_optim : gmap string (Trainer.value unit) :=
  {[ "trainer_name" := Trainer.VStr "pytorch_passive" ]}.

(** Function objects named by strings. *)
Definition cfg_fns : gmap string (Trainer.value string) :=
  {[ "loss_fn" := Trainer.VStr "Cross Entropy";
     "pred_fn" := Trainer.VStr "Argmax";
     "lr" := Trainer.VInt 3 ]}.

Definition get_fns :=
  Trainer.get_fns "F.binary_cross_entropy_with_logits" "F.cross_entropy"
    "torch.sigmoid" "softmax".

(** Row access on nested arrays and on label lists, negative indices counting
    from the end. *)
Definition list_getitem {A} (l : list A) (i : Z) : result A :=
  let n := Z.of_nat (length l) in
  let j := if bool_decide (i < 0) then i + n else i in
  if bool_decide (0 ≤ j < n)
  then match l !! Z.to_nat j with
       | Some v => Ok v
       | None => Raise (IndexError "index is out of bounds")
       end
  else Raise (IndexError "index is out of bounds").

Definition nd_getitem (a : Demo.nd) (i : Z) : result Demo.nd :=
  match a with
  | Demo.Rows l => list_getitem l i
  | Demo.Num _ => Raise (IndexError "invalid index to scalar variable.")
  end.

(** [a.shape] *)
Fixpoint nd_shape (a : Demo.nd) : list nat :=
  match a with
  | Demo.Num _ => []
  | Demo.Rows l =>
      length l :: match l with
                  | x :: _ => nd_shape x
                  | [] => []
                  end
  end.

(** An extractor without state that embeds item [k] of a split as the row
    [[epoch + k, 0]]; it raises on the test split at a negative epoch. *)
Definition get_feature2 (fe : unit)
    (d : LabelBench.TransformDataset.t string Z unit)
    (s : LabelBench.split) (epoch : Z) (use_strong : bool)
  : unit * result (LabelBench.array_or_pair Demo.nd) :=
  let rows :=
    Demo.Rows ((fun k => Demo.vec [epoch + k; 0])
               <$> seqZ 0 (Z.of_nat (LabelBench.TransformDataset.__len__ d))) in
  match s with
  | LabelBench.test =>
      if bool_decide (epoch < 0)
      then (fe, Raise (Exception "extractor failed"))
      else (fe, Ok (LabelBench.Single rows))
  | _ => (fe, Ok (LabelBench.Single rows))
  end.

Definition update_embedding_dataset2 :=
  LabelBench.ALDataset.update_embedding_dataset (Stat := Z) (Labels := list Z)
    get_feature2.

(** A dataset whose training labels come from a producer. *)
Definition al_lazy : LabelBench.ALDataset.t string Z unit Demo.nd Z (list Z) :=
  LabelBench.ALDataset.__init__ (Demo.wrap Demo.raw3) (Demo.wrap Demo.raw1)
    (Demo.wrap Demo.raw1)
    (LabelBench.ALDataset.LabelsFn (fun _ => Some Demo.labels3))
    (LabelBench.ALDataset.LabelsValue (Some Demo.labels1))
    (LabelBench.ALDataset.LabelsValue (Some Demo.labels1))
    LabelBench.MULTI_CLASS 2 ["a"; "b"]
    (LabelBench.ALDataset.StatFn Demo.mean) (LabelBench.ALDataset.StatFn Demo.std).

(** A test set of five items, a fixed permutation of its positions, and a
    table of ten class names. *)
Definition raw5 : raw_dataset string Z unit :=
  raw_of_list [Item "t0" 0 []; Item "t1" 1 []; Item "t2" 2 [];
               Item "t3" 3 []; Item "t4" 4 []].

Definition CIFAR10 (data_dir : string) (is_train : bool) (tt : unit)
  : raw_dataset string Z unit :=
  if is_train then Demo.raw3 else raw5.

Definition permutation (n : nat) : list Z := reverse (seqZ 0 (Z.of_nat n)).

Definition names10 (name : string) : list string :=
  ["airplane"; "automobile"; "bird"; "cat"; "deer";
   "dog"; "frog"; "horse"; "ship"; "truck"].

Definition get_cifar10_imb_dataset :=
  Cifar10.get_cifar10_imb_dataset (Labels := list Z) (fun x => x +:+ "~")
    (fun x => x +:+ "!") (fun _ => ()) CIFAR10 permutation names10.

(** The older extractor, embedding item [k] as [epoch + k]. *)
Definition get_feature_fn (fe : unit)
    (d : ALBench.TransformDataset.t string Z unit) (s : ALBench.split)
    (epoch : Z) : unit * result Demo.nd :=
  (fe, Ok (Demo.vec (seqZ epoch (Z.of_nat (ALBench.TransformDataset.__len__ d))))).

Definition albench_normalize (a : Demo.nd) (m s : Z) : Demo.nd :=
  Demo.nd_map (fun x => (x - m) `div` s) a.







End DemoMore.

(** * Properties *)

(** ** Transform wrappers *)

Section TransformDatasetProps.
Context {X Y Meta : Type}.
Implicit Types (f : option (X → X)) (g : option (Y → Y)) (i : Z).

Import LabelBench.TransformDataset.

Lemma set_then_default_transform (w : t X Y Meta) f :
  __transform w = __default_transform w →
  set_to_default_transform (set_transform f w) = w.
Proof. destruct w; cbn; intros <-; reflexivity. Qed.

Lemma set_then_default_target_transform (w : t X Y Meta) g :
  __target_transform w = __default_target_transform w →
  set_to_default_target_transform (set_target_transform g w) = w.
Proof. destruct w; cbn; intros <-; reflexivity. Qed.

(** A wrapper on which [set_transform] was never called still has its
    construction-time input transform. *)
Lemma run_keeps_default_transform (cs : list (call X Y)) (w : t X Y Meta) :
  forallb (fun c => negb (is_set_transform c)) cs = true →
  __transform w = __default_transform w →
  __transform (run w cs) = __default_transform (run w cs).
Proof.
  revert w; induction cs as [|c cs IH]; intros w Hcs Hw; [exact Hw|].
  cbn in Hcs. apply andb_prop in Hcs as [Hc Hcs].
  apply (IH (step w c) Hcs).
  destruct c; cbn in *; try discriminate; congruence.
Qed.

Lemma run_keeps_default_target_transform (cs : list (call X Y))
    (w : t X Y Meta) :
  forallb (fun c => negb (is_set_target_transform c)) cs = true →
  __target_transform w = __default_target_transform w →
  __target_transform (run w cs) = __default_target_transform (run w cs).
Proof.
  revert w; induction cs as [|c cs IH]; intros w Hcs Hw; [exact Hw|].
  cbn in Hcs. apply andb_prop in Hcs as [Hc Hcs].
  apply (IH (step w c) Hcs).
  destruct c; cbn in *; try discriminate; congruence.
Qed.

(** With no input transform the local [x] is never bound, so every read
    that gets past the raw dataset raises. *)
Lemma getitem_without_transform_raises (w : t X Y Meta) i it :
  __transform w = None →
  raw_getitem (dataset w) i = Ok it →
  (ignore_metadata w = true ∨ item_meta it = []) →
  __getitem__ w i = Raise (UnboundLocalError "x").
Proof.
  intros Ht Hi Hm. unfold __getitem__. rewrite Hi, Ht. cbn.
  destruct Hm as [-> | Hm]; cbn.
  - destruct (__strong_transform w); reflexivity.
  - destruct (ignore_metadata w); cbn;
      [|unfold unpack_two; rewrite Hm; cbn];
      destruct (__strong_transform w); reflexivity.
Qed.

(** With an input transform and no strong transform the read returns the
    transformed input. *)
Lemma getitem_with_transform (w : t X Y Meta) i it tf :
  __transform w = Some tf →
  __strong_transform w = None →
  raw_getitem (dataset w) i = Ok it →
  (ignore_metadata w = true ∨ item_meta it = []) →
  __getitem__ w i =
    Ok {| sample_x := Weak (tf (item_x it));
          sample_y := apply_if_set (__target_transform w) (item_y it);
          sample_index := if _return_indices w then Some i else None |}.
Proof.
  intros Ht Hs Hi Hm. unfold __getitem__. rewrite Hi, Ht, Hs. cbn.
  destruct Hm as [-> | Hm]; cbn; [reflexivity|].
  destruct (ignore_metadata w); cbn; [reflexivity|].
  unfold unpack_two; rewrite Hm; reflexivity.
Qed.

(** C8: on a wrapper built with any default transforms and then driven by
    any calls other than [set_transform], setting a custom input transform
    and resetting to the default gives back the same wrapper, hence the same
    result of every read; likewise for the target transform and calls other
    than [set_target_transform]. *)
Theorem reset_to_default_undoes_set
    (ds : raw_dataset X Y Meta) (tr : option (X → X)) (ttr : option (Y → Y))
    (ignore : bool) (cs : list (call X Y)) f g i :
  let w := run (__init__ ds tr ttr ignore) cs in
  (forallb (fun c => negb (is_set_transform c)) cs = true →
     set_to_default_transform (set_transform f w) = w ∧
     __getitem__ (set_to_default_transform (set_transform f w)) i
       = __getitem__ w i) ∧
  (forallb (fun c => negb (is_set_target_transform c)) cs = true →
     set_to_default_target_transform (set_target_transform g w) = w ∧
     __getitem__ (set_to_default_target_transform (set_target_transform g w)) i
       = __getitem__ w i).
Proof.
  intros w; split; intros Hcs.
  - assert (E : set_to_default_transform (set_transform f w) = w).
    { apply set_then_default_transform.
      apply run_keeps_default_transform; [exact Hcs | reflexivity]. }
    split; [exact E | now rewrite E].
  - assert (E : set_to_default_target_transform (set_target_transform g w) = w).
    { apply set_then_default_target_transform.
      apply run_keeps_default_target_transform; [exact Hcs | reflexivity]. }
    split; [exact E | now rewrite E].
Qed.
End TransformDatasetProps.

Section ALBenchTransformDatasetProps.
Context {X Y Meta : Type}.
Import ALBench.TransformDataset.

(** The older copy rebinds [x] in place, so an unset input transform leaves
    the input as it is. *)
Lemma albench_getitem_without_transform (w : t X Y Meta) (i : Z) it :
  __transform w = None →
  raw_getitem (dataset w) i = Ok it →
  (ignore_metadata w = true ∨ item_meta it = []) →
  __getitem__ w i =
    Ok (item_x it, apply_if_set (__target_transform w) (item_y it)).
Proof.
  intros Ht Hi Hm. unfold __getitem__. rewrite Hi, Ht. cbn.
  destruct Hm as [-> | Hm]; cbn; [reflexivity|].
  destruct (ignore_metadata w); cbn; [reflexivity|].
  unfold unpack_two; rewrite Hm; reflexivity.
Qed.

Lemma albench_reset_to_default_undoes_set
    (ds : raw_dataset X Y Meta) (tr f : option (X → X))
    (ttr g : option (Y → Y)) (ignore : bool) :
  let w := __init__ ds tr ttr ignore in
  set_to_default_transform (set_transform f w) = w ∧
  set_to_default_target_transform (set_target_transform g w) = w.
Proof. split; reflexivity. Qed.
End ALBenchTransformDatasetProps.

(** C6: a wrapper built without an input transform (and without a strong
    transform) does not return the base input: the read raises because the
    local [x] was never bound.  The older copy of the class, read at the same
    index of the same raw dataset, returns the input unchanged. *)
Theorem getitem_unset_transform_unbound :
  LabelBench.TransformDataset.__getitem__
    (LabelBench.TransformDataset.__init__ Demo.raw3 None None false) 0
  = Raise (UnboundLocalError "x") ∧
  ALBench.TransformDataset.__getitem__
    (ALBench.TransformDataset.__init__ Demo.raw3 None None false) 0
  = Ok ("img0", 7).
Proof. split; reflexivity. Qed.

(** The reset law at a concrete wrapper and history. *)
Lemma reset_to_default_undoes_set_witness :
  let cs := [LabelBench.TransformDataset.CallSetStrongTransform (Some Demo.upper);
             LabelBench.TransformDataset.CallSetReturnIndices true] in
  let w := LabelBench.TransformDataset.run (Demo.wrap Demo.raw3) cs in
  forallb (fun c => negb (LabelBench.TransformDataset.is_set_transform c)) cs
    = true ∧
  LabelBench.TransformDataset.__getitem__
    (LabelBench.TransformDataset.set_to_default_transform
       (LabelBench.TransformDataset.set_transform (Some Demo.upper) w)) 1
  = LabelBench.TransformDataset.__getitem__ w 1.
Proof.
  intros cs w. split; [reflexivity|].
  exact (proj2 (proj1 (reset_to_default_undoes_set Demo.raw3
           (Some (fun x => x +:+ "!")) None false cs (Some Demo.upper) None 1)
         eq_refl)).
Defined.

(** ** The store *)

Lemma next_loc_fresh (h : heap) : h !! next_loc h = None.
Proof.
  unfold next_loc. apply (not_elem_of_dom (D := gset positive)). apply is_fresh.
Qed.

Lemma next_loc_ne (h : heap) (r : loc) (a : ndarray) :
  h !! r = Some a → next_loc h ≠ r.
Proof. intros Hr E. rewrite <- E, next_loc_fresh in Hr. discriminate. Qed.

Lemma lookup_alloc_old (h : heap) (r : loc) (a b : ndarray) :
  h !! r = Some a → <[next_loc h := b]> h !! r = Some a.
Proof.
  intros Hr. rewrite lookup_insert_ne; [exact Hr|]. eapply next_loc_ne, Hr.
Qed.

Lemma np_setitem_overwrites (r : loc) (i : nat) (v : Z) (h : heap) (l : list Z) :
  h !! r = Some (NdIdx l) → (i < length l)%nat →
  np_setitem r i v h = np_overwrite r (NdIdx (<[i := v]> l)) h.
Proof.
  intros Hr Hi. unfold np_setitem, np_overwrite. rewrite Hr.
  rewrite bool_decide_eq_true_2; [reflexivity | exact Hi].
Qed.

Lemma np_array_copy (r : loc) (a : ndarray) (h : heap) :
  h !! r = Some a →
  np_array (Some r) h = (<[next_loc h := a]> h, Ok (next_loc h)).
Proof. intros Hr. unfold np_array, bind_M, deref. rewrite Hr. reflexivity. Qed.

Lemma np_to_list_idx (r : loc) (l : list Z) (h : heap) :
  h !! r = Some (NdIdx l) → np_to_list r h = (h, Ok l).
Proof. intros Hr. unfold np_to_list, bind_M, deref. rewrite Hr. reflexivity. Qed.

Lemma np_len_idx (r : loc) (l : list Z) (h : heap) :
  h !! r = Some (NdIdx l) → np_len r h = (h, Ok (length l)).
Proof. intros Hr. unfold np_len, bind_M, deref. rewrite Hr. reflexivity. Qed.

Lemma elem_of_py_range (n : nat) (i : Z) :
  i ∈ py_range n ↔ 0 ≤ i < Z.of_nat n.
Proof. unfold py_range. rewrite elem_of_seqZ. lia. Qed.

(** ** The labeled-index tracker *)

Section TrackerProps.
Context {X Y Meta Arr Stat Labels : Type}.
Import LabelBench.ALDataset.
Implicit Types (d : t X Y Meta Arr Stat Labels) (h : heap) (l : list Z).

Lemma tracks_alloc d h l (a : ndarray) :
  tracks d h l → tracks d (<[next_loc h := a]> h) l.
Proof.
  intros (r & Hd & Hr). exists r. split; [exact Hd|].
  now apply lookup_alloc_old.
Qed.

Lemma update_labeled_idxs_first d h new :
  __labeled_idxs d = None →
  ∃ h' d', update_labeled_idxs new d h = (h', Ok d') ∧ tracks d' h' new ∧
           __len__ d' = __len__ d.
Proof.
  intros Hd. unfold update_labeled_idxs. rewrite Hd.
  eexists _, _. split; [reflexivity|]. split; [|reflexivity].
  exists (next_loc h). split; [reflexivity|]. apply lookup_insert_eq.
Qed.

Lemma update_labeled_idxs_more d h old new :
  tracks d h old →
  ∃ h' d', update_labeled_idxs new d h = (h', Ok d') ∧
           tracks d' h' (old ++ new) ∧ __len__ d' = __len__ d.
Proof.
  intros (r & Hd & Hr). unfold update_labeled_idxs. rewrite Hd.
  unfold bind_M, np_array_list, np_concatenate, bind_M, deref, alloc.
  rewrite (lookup_alloc_old _ _ _ _ Hr), lookup_insert_eq. cbn.
  eexists _, _. split; [reflexivity|]. split; [|reflexivity].
  eexists. split; [reflexivity|]. apply lookup_insert_eq.
Qed.

Lemma update_all_tracks batches : ∀ d h old,
  tracks d h old →
  ∃ h' d', update_all batches d h = (h', Ok d') ∧
           tracks d' h' (old ++ concat batches) ∧ __len__ d' = __len__ d.
Proof.
  induction batches as [|b bs IH]; intros d h old Ht; cbn.
  - exists h, d. rewrite app_nil_r. auto.
  - destruct (update_labeled_idxs_more d h old b Ht) as (h1 & d1 & E & Ht1 & L1).
    destruct (IH d1 h1 _ Ht1) as (h2 & d2 & E2 & Ht2 & L2).
    exists h2, d2. unfold bind_M. rewrite E, E2.
    rewrite <- app_assoc in Ht2. split; [reflexivity|]. split; [exact Ht2|].
    congruence.
Qed.

Lemma update_all_from_fresh b bs d h :
  __labeled_idxs d = None →
  ∃ h' d', update_all (b :: bs) d h = (h', Ok d') ∧
           tracks d' h' (concat (b :: bs)) ∧ __len__ d' = __len__ d.
Proof.
  intros Hd. cbn [update_all].
  destruct (update_labeled_idxs_first d h b Hd) as (h1 & d1 & E & Ht1 & L1).
  destruct (update_all_tracks bs d1 h1 b Ht1) as (h2 & d2 & E2 & Ht2 & L2).
  exists h2, d2. unfold bind_M. rewrite E, E2. split; [reflexivity|].
  split; [exact Ht2 | congruence].
Qed.

Lemma labeled_idxs_tracks d h l :
  tracks d h l →
  ∃ r, labeled_idxs d h = (<[next_loc h := NdIdx l]> h, Ok (next_loc h)) ∧
       __labeled_idxs d = Some r ∧ r ≠ next_loc h.
Proof.
  intros (r & Hd & Hr). exists r. unfold labeled_idxs. rewrite Hd.
  split; [now apply np_array_copy|]. split; [reflexivity|].
  intros E. eapply next_loc_ne; [exact Hr | now symmetry].
Qed.

Lemma num_labeled_tracks d h l :
  tracks d h l → num_labeled d h = (h, Ok (length l)).
Proof.
  intros (r & Hd & Hr). unfold num_labeled. rewrite Hd. now apply np_len_idx.
Qed.

Lemma read_labeled_tracks d h l :
  tracks d h l → (read_labeled d h).2 = Ok (l, length l).
Proof.
  intros Ht. unfold read_labeled, bind_M.
  destruct (labeled_idxs_tracks d h l Ht) as (r & -> & _ & _).
  rewrite (np_to_list_idx (next_loc h) l) by apply lookup_insert_eq.
  rewrite (num_labeled_tracks d _ l) by now apply tracks_alloc.
  reflexivity.
Qed.

Lemma read_unlabeled_tracks d h l :
  tracks d h l →
  (read_unlabeled d h).2 =
    Ok (py_list_of_set (py_set (py_range (__len__ d)) ∖ py_set l)).
Proof.
  intros Ht. unfold read_unlabeled, unlabeled_idxs, bind_M.
  destruct (labeled_idxs_tracks d h l Ht) as (r & -> & _ & _).
  rewrite (np_to_list_idx (next_loc h) l) by apply lookup_insert_eq.
  unfold np_array_list, alloc.
  rewrite (np_to_list_idx _ _ _ (lookup_insert_eq _ _ _)). reflexivity.
Qed.

Lemma observe_tracks d h l :
  tracks d h l →
  (observe d h).2 =
    Ok (l, length l, py_list_of_set (py_set (py_range (__len__ d)) ∖ py_set l)).
Proof.
  intros Ht. unfold observe, bind_M.
  pose proof (read_labeled_tracks d h l Ht) as E1.
  destruct (read_labeled d h) as [h1 r1] eqn:R1. cbn in E1. subst r1.
  assert (Ht1 : tracks d h1 l).
  { unfold read_labeled, bind_M in R1.
    destruct (labeled_idxs_tracks d h l Ht) as (r & E & _ & _).
    rewrite E in R1.
    rewrite (np_to_list_idx (next_loc h) l) in R1 by apply lookup_insert_eq.
    rewrite (num_labeled_tracks d _ l) in R1 by now apply tracks_alloc.
    injection R1 as <-. now apply tracks_alloc. }
  pose proof (read_unlabeled_tracks d h1 l Ht1) as E2.
  destruct (read_unlabeled d h1) as [h2 r2]. cbn in E2. subst r2.
  reflexivity.
Qed.

(** The unlabeled indices are the complement of the labeled ones within
    the training range, each listed once. *)
Lemma unlabeled_complement (n : nat) l :
  let u := py_list_of_set (py_set (py_range n) ∖ py_set l) in
  NoDup u ∧ ∀ i, i ∈ u ↔ (0 ≤ i < Z.of_nat n) ∧ i ∉ l.
Proof.
  intros u. split; [apply NoDup_elements|].
  intros i. unfold u, py_list_of_set, py_set.
  rewrite elem_of_elements, elem_of_difference, !elem_of_list_to_set.
  now rewrite elem_of_py_range.
Qed.

(** C4: on a dataset that has no tracker yet, [update_labeled_idxs([a, b])]
    followed by [update_labeled_idxs([c])] leaves [labeled_idxs()] equal to
    [[a, b, c]] in that order and [num_labeled()] equal to 3, whatever the
    integers [a], [b], [c] are (repeated, negative or past the end of the
    training split); on a dataset that already tracks [old], an update with
    [new] leaves [old ++ new]: plain concatenation. *)
Theorem labeled_idxs_chronological d h (a b c : Z) :
  (__labeled_idxs d = None →
   ((do d' <- update_all [[a; b]; [c]] d; read_labeled d') h).2
     = Ok ([a; b; c], 3%nat)) ∧
  (∀ old new, tracks d h old →
   ((do d' <- update_labeled_idxs new d; read_labeled d') h).2
     = Ok (old ++ new, (length old + length new)%nat)).
Proof.
  split.
  - intros Hd.
    destruct (update_all_from_fresh [a; b] [[c]] d h Hd)
      as (h' & d' & E & Ht & _).
    unfold bind_M at 1. rewrite E. cbn in Ht.
    now rewrite (read_labeled_tracks d' h' _ Ht).
  - intros old new Ht.
    destruct (update_labeled_idxs_more d h old new Ht)
      as (h' & d' & E & Ht' & _).
    unfold bind_M at 1. rewrite E.
    rewrite (read_labeled_tracks d' h' _ Ht'). now rewrite length_app.
Qed.

(** C5: on a dataset that has a tracker, after any further sequence of
    [update_labeled_idxs] calls, [unlabeled_idxs()] returns an array without
    duplicates whose elements are exactly the indices of the training range
    that are not among the labeled ones. *)
Theorem unlabeled_idxs_complement d h old (batches : list (list Z)) :
  tracks d h old →
  ∃ u, ((do d' <- update_all batches d; read_unlabeled d') h).2 = Ok u ∧
       NoDup u ∧
       ∀ i, i ∈ u ↔
            (0 ≤ i < Z.of_nat (__len__ d)) ∧ i ∉ old ++ concat batches.
Proof.
  intros Ht.
  destruct (update_all_tracks batches d h old Ht) as (h' & d' & E & Ht' & L).
  eexists. unfold bind_M at 1. rewrite E.
  rewrite (read_unlabeled_tracks d' h' _ Ht'). split; [reflexivity|].
  rewrite L. apply unlabeled_complement.
Qed.

(** C7, as the code has it: without a tracker [num_labeled()] raises a type
    error (the absent value has no length), while [labeled_idxs()] does not
    raise: it allocates and returns a zero-dimensional array that wraps the
    absent value. *)
Theorem absent_tracker_reads d h :
  __labeled_idxs d = None →
  num_labeled d h
    = (h, Raise (TypeError "object of type 'NoneType' has no len()")) ∧
  labeled_idxs d h = (<[next_loc h := NdNone]> h, Ok (next_loc h)).
Proof.
  intros Hd. unfold num_labeled, labeled_idxs. rewrite Hd. split; reflexivity.
Qed.

(** Without a tracker the unlabeled indices cannot be listed either. *)
Lemma absent_tracker_unlabeled d h :
  __labeled_idxs d = None →
  (unlabeled_idxs d h).2 = Raise (TypeError "iteration over a 0-d array").
Proof.
  intros Hd. unfold unlabeled_idxs, labeled_idxs, bind_M. rewrite Hd. cbn.
  unfold np_to_list, bind_M, deref, alloc. now rewrite lookup_insert_eq.
Qed.

(** C10: [labeled_idxs()] returns a fresh copy of the tracker array: the
    reference it returns named no array before the call and is not the
    dataset's own, the array behind it has the contents of the tracker, and
    every other array of the store, the tracker's included, is as it was.
    Whatever a client then writes into the returned array, the tracker keeps
    its contents, and [labeled_idxs()], [num_labeled()] and
    [unlabeled_idxs()] afterwards give what they give without the write: the
    tracked indices, their number, and their complement. *)
Theorem labeled_idxs_returns_copy d h l (a : ndarray) :
  tracks d h l →
  ∃ h1 r,
    labeled_idxs d h = (h1, Ok r) ∧
    h !! r = None ∧
    __labeled_idxs d ≠ Some r ∧
    h1 !! r = Some (NdIdx l) ∧
    np_to_list r h1 = (h1, Ok l) ∧
    (∀ r', r' ≠ r → h1 !! r' = h !! r') ∧
    tracks d (<[r := a]> h1) l ∧
    (mutate_then_observe d a h).2 = (observe d h).2 ∧
    (observe d h).2
      = Ok (l, length l,
            py_list_of_set (py_set (py_range (__len__ d)) ∖ py_set l)).
Proof.
  intros Ht.
  destruct (labeled_idxs_tracks d h l Ht) as (r0 & E & Hd & Hne).
  exists (<[next_loc h := NdIdx l]> h), (next_loc h).
  assert (Ht' : tracks d (<[next_loc h := a]> h) l) by now apply tracks_alloc.
  split; [exact E|].
  split; [apply next_loc_fresh|].
  split; [rewrite Hd; intros [= ->]; now apply Hne|].
  split; [apply lookup_insert_eq|].
  split; [apply np_to_list_idx, lookup_insert_eq|].
  split; [intros r' Hr'; now apply lookup_insert_ne|].
  split; [now rewrite insert_insert_eq|].
  split; [|exact (observe_tracks d h l Ht)].
  rewrite (observe_tracks d h l Ht).
  unfold mutate_then_observe, bind_M. rewrite E.
  unfold np_overwrite. rewrite insert_insert_eq.
  now apply observe_tracks.
Qed.
End TrackerProps.

(** The two-round scenario on the concrete dataset, with a repeated index. *)
Lemma labeled_idxs_chronological_witness :
  LabelBench.ALDataset.__labeled_idxs Demo.al3 = None ∧
  ((do d' <- update_all [[5; 7]; [5]] Demo.al3; read_labeled d') ∅).2
    = Ok ([5; 7; 5], 3%nat).
Proof.
  split; [reflexivity|].
  exact (proj1 (labeled_idxs_chronological Demo.al3 ∅ 5 7 5) eq_refl).
Defined.

(** A dataset of three training items on which index 1 was labeled twice. *)
Lemma unlabeled_idxs_complement_witness :
  let d := LabelBench.ALDataset.set_labeled_idxs Demo.al3 (Some 1%positive) in
  let h : heap := {[ 1%positive := NdIdx [1] ]} in
  tracks d h [1] ∧
  ∃ u, ((do d' <- update_all [[1]; [7]] d; read_unlabeled d') h).2 = Ok u ∧
       NoDup u ∧
       ∀ i, i ∈ u ↔ (0 ≤ i < 3) ∧ i ∉ [1; 1; 7].
Proof.
  intros d h.
  assert (Ht : tracks d h [1]) by (exists 1%positive; split; reflexivity).
  split; [exact Ht|].
  exact (unlabeled_idxs_complement d h [1] [[1]; [7]] Ht).
Defined.

(** C7 as stated fails: on a dataset without a tracker [labeled_idxs()]
    returns normally, with a fresh zero-dimensional array. *)
Lemma labeled_idxs_absent_tracker_returns :
  LabelBench.ALDataset.__labeled_idxs Demo.al3 = None ∧
  LabelBench.ALDataset.labeled_idxs Demo.al3 ∅
    = ({[ 1%positive := NdNone ]}, Ok 1%positive) ∧
  ALBench.ALDataset.labeled_idxs
    (ALBench.ALDataset.set_labeled_idxs
       (X := string) (Y := Z) (Meta := unit) (Arr := Demo.nd) (Stat := Z)
       (Labels := list Z)
       (ALBench.ALDataset.__init__
          (ALBench.TransformDataset.__init__ Demo.raw3 None None false)
          (ALBench.TransformDataset.__init__ Demo.raw1 None None false)
          (ALBench.TransformDataset.__init__ Demo.raw1 None None false)
          (ALBench.ALDataset.LabelsValue None) (ALBench.ALDataset.LabelsValue None)
          (ALBench.ALDataset.LabelsValue None) ALBench.MULTI_CLASS 2 ["a"; "b"]
          (ALBench.ALDataset.StatFn Demo.mean) (ALBench.ALDataset.StatFn Demo.std)
          (ALBench.ALDataset.LabelsValue None) (ALBench.ALDataset.LabelsValue None)
          (ALBench.ALDataset.LabelsValue None)) None) ∅
    = ({[ 1%positive := NdNone ]}, Ok 1%positive).
Proof. repeat split; vm_compute; reflexivity. Qed.

Lemma absent_tracker_reads_witness :
  LabelBench.ALDataset.__labeled_idxs Demo.al3 = None ∧
  LabelBench.ALDataset.num_labeled Demo.al3 ∅
    = (∅, Raise (TypeError "object of type 'NoneType' has no len()")) ∧
  LabelBench.ALDataset.labeled_idxs Demo.al3 ∅
    = (<[next_loc ∅ := NdNone]> ∅, Ok (next_loc ∅)).
Proof.
  split; [reflexivity|].
  exact (absent_tracker_reads Demo.al3 ∅ eq_refl).
Defined.

Lemma labeled_idxs_returns_copy_witness :
  let d := LabelBench.ALDataset.set_labeled_idxs Demo.al3 (Some 1%positive) in
  let h : heap := {[ 1%positive := NdIdx [2; 0] ]} in
  tracks d h [2; 0] ∧
  ∃ h1 r,
    LabelBench.ALDataset.labeled_idxs d h = (h1, Ok r) ∧
    h !! r = None ∧
    LabelBench.ALDataset.__labeled_idxs d ≠ Some r ∧
    h1 !! r = Some (NdIdx [2; 0]) ∧
    np_to_list r h1 = (h1, Ok [2; 0]) ∧
    (∀ r', r' ≠ r → h1 !! r' = h !! r') ∧
    tracks d (<[r := NdIdx [9; 9; 9]]> h1) [2; 0] ∧
    (mutate_then_observe d (NdIdx [9; 9; 9]) h).2 = (observe d h).2 ∧
    (observe d h).2
      = Ok ([2; 0], 2%nat,
            py_list_of_set (py_set (py_range 3) ∖ py_set [2; 0])).
Proof.
  intros d h.
  assert (Ht : tracks d h [2; 0]) by (exists 1%positive; split; reflexivity).
  split; [exact Ht|].
  exact (labeled_idxs_returns_copy d h [2; 0] (NdIdx [9; 9; 9]) Ht).
Defined.

(** The store is shared: a write through the dataset's own reference, which
    no method hands out, would be seen by the next read. *)
Example write_through_own_reference_is_seen :
  let d := LabelBench.ALDataset.set_labeled_idxs Demo.al3 (Some 1%positive) in
  let h : heap := {[ 1%positive := NdIdx [2; 0] ]} in
  (observe d h).2 = Ok ([2; 0], 2%nat, [1]) ∧
  ((do _ <- np_overwrite 1%positive (NdIdx [9; 9; 9]); observe d) h).2
    = Ok ([9; 9; 9], 3%nat, [2; 1; 0]).
Proof. split; vm_compute; reflexivity. Qed.

(** ** Embeddings and normalization statistics *)

Section EmbeddingProps.
Context {X Y Meta Arr Stat Labels FE : Type}.
Context (arr_len : Arr → nat) (labels_len : Labels → nat).
Context (normalize : LabelBench.array_or_pair Arr → Stat → Stat → Arr).
Context (get_feature : FE → LabelBench.TransformDataset.t X Y Meta →
                       LabelBench.split → Z → bool →
                       FE * result (LabelBench.array_or_pair Arr)).
Import LabelBench LabelBench.ALDataset.
Implicit Types (d : t X Y Meta Arr Stat Labels) (fe : FE) (epoch : Z).

Local Abbreviation get_embedding_datasets :=
  (get_embedding_datasets arr_len labels_len normalize).
Local Abbreviation update_embedding_dataset :=
  (update_embedding_dataset get_feature).
Local Abbreviation update_embedding_loop :=
  (update_embedding_loop get_feature).
Local Abbreviation not_initialized :=
  (Raise (Exception "Embedding is not initialized.")).

(** *** The update loop *)

Lemma setattr_emb_stats d s e :
  __train_emb_mean (setattr_emb d s e) = __train_emb_mean d ∧
  __train_emb_std (setattr_emb d s e) = __train_emb_std d.
Proof. split; reflexivity. Qed.

Lemma update_embedding_loop_stats splits : ∀ epoch us fe d,
  let '(_, d', _) := update_embedding_loop splits epoch us fe d in
  __train_emb_mean d' = __train_emb_mean d ∧
  __train_emb_std d' = __train_emb_std d.
Proof.
  induction splits as [|s splits IH]; intros epoch us fe d; cbn; [auto|].
  destruct (get_feature fe (getattr_dataset d s) s epoch us) as [fe1 [e|x]];
    [|auto].
  specialize (IH epoch us fe1 (setattr_emb d s e)).
  destruct (update_embedding_loop splits epoch us fe1 (setattr_emb d s e))
    as [[fe2 d2] r2].
  exact IH.
Qed.

(** An update, completed or not, leaves the statistics fields alone. *)
Lemma update_embedding_dataset_stats epoch fe us d fe' d' r :
  update_embedding_dataset epoch fe us d = (fe', d', r) →
  __train_emb_mean d' = __train_emb_mean d ∧
  __train_emb_std d' = __train_emb_std d.
Proof.
  intros E. pose proof (update_embedding_loop_stats [train; val; test]
                          epoch us fe d) as H.
  unfold ALDataset.update_embedding_dataset in E. now rewrite E in H.
Qed.

(** A completed update has asked the extractor for the three splits in the
    order train, val, test, and stored the three answers. *)
Lemma update_embedding_dataset_completed epoch fe us d fe' d' :
  update_embedding_dataset epoch fe us d = (fe', d', Ok ()) →
  ∃ fe1 fe2 e1 e2 e3,
    get_feature fe (train_dataset d) train epoch us = (fe1, Ok e1) ∧
    get_feature fe1 (val_dataset d) val epoch us = (fe2, Ok e2) ∧
    get_feature fe2 (test_dataset d) test epoch us = (fe', Ok e3) ∧
    d' = setattr_emb (setattr_emb (setattr_emb d train e1) val e2) test e3.
Proof.
  unfold ALDataset.update_embedding_dataset. cbn.
  destruct (get_feature fe (train_dataset d) train epoch us)
    as [fe1 [e1|x]] eqn:E1; [|intros [=]]. cbn.
  destruct (get_feature fe1 (val_dataset d) val epoch us)
    as [fe2 [e2|x]] eqn:E2; [|intros [=]]. cbn.
  destruct (get_feature fe2 (test_dataset d) test epoch us)
    as [fe3 [e3|x]] eqn:E3; [|intros [=]].
  intros [= <- <-]. now exists fe1, fe2, e1, e2, e3.
Qed.

Lemma update_embedding_dataset_train_fails epoch fe us d fe1 x :
  get_feature fe (train_dataset d) train epoch us = (fe1, Raise x) →
  update_embedding_dataset epoch fe us d = (fe1, d, Raise x).
Proof.
  intros E. unfold ALDataset.update_embedding_dataset. cbn. now rewrite E.
Qed.

Lemma update_embedding_dataset_test_fails epoch fe us d fe1 fe2 fe3 e1 e2 x :
  get_feature fe (train_dataset d) train epoch us = (fe1, Ok e1) →
  get_feature fe1 (val_dataset d) val epoch us = (fe2, Ok e2) →
  get_feature fe2 (test_dataset d) test epoch us = (fe3, Raise x) →
  update_embedding_dataset epoch fe us d
    = (fe3, setattr_emb (setattr_emb d train e1) val e2, Raise x).
Proof.
  intros E1 E2 E3. unfold ALDataset.update_embedding_dataset. cbn.
  rewrite E1. cbn. rewrite E2. cbn. now rewrite E3.
Qed.

(** *** Building the in-memory datasets *)

Lemma DatasetOnMemory_init_ok (e : array_or_pair Arr) (y : option Labels) n :
  rows_match arr_len labels_len e y →
  DatasetOnMemory.__init__ arr_len labels_len e y n
    = Ok (DatasetOnMemory.mk e y n false).
Proof.
  intros (l & -> & H). unfold DatasetOnMemory.__init__. cbn.
  destruct e as [a|a b].
  - now rewrite bool_decide_eq_true_2.
  - destruct H as [Ha Hb]. now rewrite !bool_decide_eq_true_2.
Qed.

Lemma DatasetOnMemory_init_ok_inv (e : array_or_pair Arr) y n ds :
  DatasetOnMemory.__init__ arr_len labels_len e y n = Ok ds →
  rows_match arr_len labels_len e y.
Proof.
  unfold DatasetOnMemory.__init__. destruct y as [l|]; cbn; [|intros [=]].
  intros H. exists l. split; [reflexivity|].
  destruct e as [a|a b].
  - case_bool_decide; [assumption | discriminate].
  - repeat case_bool_decide; cbn in H; try discriminate. auto.
Qed.

Lemma DatasetOnMemory_init_fields (e : array_or_pair Arr) y n ds :
  DatasetOnMemory.__init__ arr_len labels_len e y n = Ok ds →
  DatasetOnMemory.X ds = e ∧ DatasetOnMemory.y ds = y.
Proof.
  unfold DatasetOnMemory.__init__. destruct y as [l|]; cbn; [|intros [=]].
  match goal with |- context [if ?b then _ else _] => destruct b end;
    intros [= <-]; auto.
Qed.

Lemma DatasetOnMemory_init_raise (e : array_or_pair Arr) y n x :
  DatasetOnMemory.__init__ arr_len labels_len e y n = Raise x →
  x = TypeError "object of type 'NoneType' has no len()" ∨
  x = AssertionError "X and y must have the same length.".
Proof.
  unfold DatasetOnMemory.__init__. destruct y as [l|]; cbn.
  - match goal with |- context [if ?b then _ else _] => destruct b end;
      intros [= <-]; auto.
  - intros [= <-]; auto.
Qed.

Lemma get_embedding_datasets_absent d :
  train_emb d = None ∨ val_emb d = None ∨ test_emb d = None →
  get_embedding_datasets d = (d, not_initialized).
Proof.
  unfold ALDataset.get_embedding_datasets.
  intros [H | [H | H]]; rewrite H;
    destruct (train_emb d), (val_emb d); reflexivity.
Qed.

Lemma get_embedding_datasets_present d tr va te :
  train_emb d = Some tr → val_emb d = Some va → test_emb d = Some te →
  let m := realize_stat (__train_emb_mean d) (first_view tr) in
  let s := realize_stat (__train_emb_std d) (first_view tr) in
  let ytr := realize_labels (__train_labels d) in
  let yva := realize_labels (__val_labels d) in
  let yte := realize_labels (__test_labels d) in
  let init := DatasetOnMemory.__init__ arr_len labels_len in
  get_embedding_datasets d =
    (set_realized d ytr yva yte m s,
     a ← init (normalized_train normalize tr m s) ytr (num_classes d);
     b ← init (Single (normalize va m s)) yva (num_classes d);
     c ← init (Single (normalize te m s)) yte (num_classes d);
     Ok (a, b, c)).
Proof.
  intros Htr Hva Hte. unfold ALDataset.get_embedding_datasets.
  rewrite Htr, Hva, Hte. cbn. destruct tr; reflexivity.
Qed.

Lemma get_embedding_datasets_present_not_uninitialized d tr va te :
  train_emb d = Some tr → val_emb d = Some va → test_emb d = Some te →
  (get_embedding_datasets d).2 ≠ not_initialized.
Proof.
  intros Htr Hva Hte.
  rewrite (get_embedding_datasets_present d tr va te Htr Hva Hte). cbn.
  repeat match goal with
  | |- context [DatasetOnMemory.__init__ ?al ?ll ?e ?y ?n] =>
      let E := fresh "E" in
      destruct (DatasetOnMemory.__init__ al ll e y n) as [?|?] eqn:E; cbn;
      [|apply DatasetOnMemory_init_raise in E as [-> | ->]; discriminate]
  end.
  discriminate.
Qed.

Lemma get_embedding_datasets_uninitialized_iff d :
  (get_embedding_datasets d).2 = not_initialized ↔
  train_emb d = None ∨ val_emb d = None ∨ test_emb d = None.
Proof.
  split.
  - intros H.
    destruct (train_emb d) as [tr|] eqn:Htr; [|auto].
    destruct (val_emb d) as [va|] eqn:Hva; [|auto].
    destruct (test_emb d) as [te|] eqn:Hte; [|auto].
    now destruct (get_embedding_datasets_present_not_uninitialized
                    d tr va te Htr Hva Hte).
  - intros H. now rewrite (get_embedding_datasets_absent d H).
Qed.

(** *** Frozen statistics *)

Lemma get_embedding_datasets_keeps_values d (m s : Stat) :
  __train_emb_mean d = StatValue m → __train_emb_std d = StatValue s →
  __train_emb_mean (get_embedding_datasets d).1 = StatValue m ∧
  __train_emb_std (get_embedding_datasets d).1 = StatValue s.
Proof.
  intros Hm Hs. unfold ALDataset.get_embedding_datasets.
  destruct (train_emb d), (val_emb d), (test_emb d); cbn; auto.
  all: rewrite Hm, Hs; auto.
Qed.

(** C1: a call of [get_embedding_datasets()] that finds the three
    embeddings computes the mean and the deviation from (the first view of)
    [train_emb], or keeps the values it was constructed with, and stores them
    as values.  After any later [update_embedding_dataset], whatever
    embeddings it installs, the next [get_embedding_datasets()] leaves the
    same two values in place and normalizes the new embeddings with them. *)
Theorem normalization_statistics_frozen d tr va te :
  train_emb d = Some tr → val_emb d = Some va → test_emb d = Some te →
  let m := realize_stat (__train_emb_mean d) (first_view tr) in
  let s := realize_stat (__train_emb_std d) (first_view tr) in
  let d1 := (get_embedding_datasets d).1 in
  __train_emb_mean d1 = StatValue m ∧
  __train_emb_std d1 = StatValue s ∧
  ∀ epoch fe us,
    let d2 := (update_embedding_dataset epoch fe us d1).1.2 in
    let d3 := (get_embedding_datasets d2).1 in
    __train_emb_mean d3 = StatValue m ∧
    __train_emb_std d3 = StatValue s ∧
    ∀ tr2 va2 te2 a b c,
      train_emb d2 = Some tr2 → val_emb d2 = Some va2 →
      test_emb d2 = Some te2 →
      (get_embedding_datasets d2).2 = Ok (a, b, c) →
      DatasetOnMemory.X a = normalized_train normalize tr2 m s ∧
      DatasetOnMemory.X b = Single (normalize va2 m s) ∧
      DatasetOnMemory.X c = Single (normalize te2 m s).
Proof.
  intros Htr Hva Hte m s d1.
  assert (H1 : __train_emb_mean d1 = StatValue m ∧
               __train_emb_std d1 = StatValue s).
  { unfold d1. now rewrite (get_embedding_datasets_present d tr va te). }
  destruct H1 as [Hm1 Hs1]. split; [exact Hm1|]. split; [exact Hs1|].
  intros epoch fe us d2 d3.
  assert (H2 : __train_emb_mean d2 = StatValue m ∧
               __train_emb_std d2 = StatValue s).
  { unfold d2.
    destruct (update_embedding_dataset epoch fe us d1) as [[fe' d'] r] eqn:E.
    destruct (update_embedding_dataset_stats _ _ _ _ _ _ _ E) as [E1 E2].
    cbn. now rewrite E1, E2. }
  destruct H2 as [Hm2 Hs2].
  destruct (get_embedding_datasets_keeps_values d2 m s Hm2 Hs2) as [Hm3 Hs3].
  split; [exact Hm3|]. split; [exact Hs3|].
  intros tr2 va2 te2 a b c Htr2 Hva2 Hte2.
  rewrite (get_embedding_datasets_present d2 tr2 va2 te2 Htr2 Hva2 Hte2).
  rewrite Hm2, Hs2. cbn.
  destruct (DatasetOnMemory.__init__ arr_len labels_len
              (normalized_train normalize tr2 m s) _ _) as [a'|] eqn:Ea; [|intros [=]].
  cbn.
  destruct (DatasetOnMemory.__init__ arr_len labels_len
              (Single (normalize va2 m s)) _ _) as [b'|] eqn:Eb; [|intros [=]].
  cbn.
  destruct (DatasetOnMemory.__init__ arr_len labels_len
              (Single (normalize te2 m s)) _ _) as [c'|] eqn:Ec; [|intros [=]].
  cbn. intros [= <- <- <-].
  apply DatasetOnMemory_init_fields in Ea as [-> _].
  apply DatasetOnMemory_init_fields in Eb as [-> _].
  apply DatasetOnMemory_init_fields in Ec as [-> _].
  auto.
Qed.

(** The newer copy: the call fails with "Embedding is not initialized."
    exactly when one of the three embeddings is absent; it does so on a newly
    constructed dataset; after a completed [update_embedding_dataset] the
    three embeddings are present and the call no longer fails that way.  It
    then returns the three in-memory datasets exactly when each split has a
    label array with as many entries as its normalized embedding has rows,
    which is what the in-memory dataset checks at construction. *)
Lemma get_embedding_datasets_initialized :
  (∀ d, (get_embedding_datasets d).2 = not_initialized ↔
        train_emb d = None ∨ val_emb d = None ∨ test_emb d = None) ∧
  (∀ (ds_train ds_val ds_test : TransformDataset.t X Y Meta)
     ytr yva yte ty n names mean std,
     (get_embedding_datasets
        (__init__ ds_train ds_val ds_test ytr yva yte ty n names mean std)).2
     = not_initialized) ∧
  (∀ d epoch fe us fe' d',
     update_embedding_dataset epoch fe us d = (fe', d', Ok ()) →
     ∃ tr va te,
       train_emb d' = Some tr ∧ val_emb d' = Some va ∧
       test_emb d' = Some te ∧
       (get_embedding_datasets d').2 ≠ not_initialized ∧
       let m := realize_stat (__train_emb_mean d') (first_view tr) in
       let s := realize_stat (__train_emb_std d') (first_view tr) in
       ((∃ a b c, (get_embedding_datasets d').2 = Ok (a, b, c)) ↔
        rows_match arr_len labels_len (normalized_train normalize tr m s)
          (realize_labels (__train_labels d')) ∧
        rows_match arr_len labels_len (Single (normalize va m s))
          (realize_labels (__val_labels d')) ∧
        rows_match arr_len labels_len (Single (normalize te m s))
          (realize_labels (__test_labels d')))).
Proof.
  split; [exact get_embedding_datasets_uninitialized_iff|].
  split; [reflexivity|].
  intros d epoch fe us fe' d' E.
  destruct (update_embedding_dataset_completed _ _ _ _ _ _ E)
    as (fe1 & fe2 & e1 & e2 & e3 & _ & _ & _ & ->).
  exists e1, e2, e3.
  split; [reflexivity|]. split; [reflexivity|]. split; [reflexivity|].
  split; [now apply (get_embedding_datasets_present_not_uninitialized
                       _ e1 e2 e3)|].
  intros m s.
  set (d' := setattr_emb _ test e3) in *.
  rewrite (get_embedding_datasets_present d' e1 e2 e3 eq_refl eq_refl eq_refl).
  cbn zeta. cbn [snd]. fold m s.
  set (ytr := realize_labels (__train_labels _)).
  set (yva := realize_labels (__val_labels _)).
  set (yte := realize_labels (__test_labels _)).
  split.
  - intros (a & b & c & H). revert H.
    destruct (DatasetOnMemory.__init__ arr_len labels_len
                (normalized_train normalize e1 m s) ytr _) as [a'|] eqn:Ea;
      [|intros [=]]. cbn.
    destruct (DatasetOnMemory.__init__ arr_len labels_len
                (Single (normalize e2 m s)) yva _) as [b'|] eqn:Eb;
      [|intros [=]]. cbn.
    destruct (DatasetOnMemory.__init__ arr_len labels_len
                (Single (normalize e3 m s)) yte _) as [c'|] eqn:Ec;
      [|intros [=]].
    intros _. repeat split; eapply DatasetOnMemory_init_ok_inv; eassumption.
  - intros (Rtr & Rva & Rte).
    rewrite (DatasetOnMemory_init_ok _ _ _ Rtr). cbn.
    rewrite (DatasetOnMemory_init_ok _ _ _ Rva). cbn.
    rewrite (DatasetOnMemory_init_ok _ _ _ Rte). cbn.
    eauto.
Qed.
End EmbeddingProps.


(** Embeddings [5, 6, 7] at epoch 5 give mean 6; after a second extraction at
    epoch 10 the embeddings are [10, 11, 12], the stored mean is still 6 and
    the training input is [4, 5, 6]. *)
Lemma normalization_statistics_frozen_witness :
  let d := (Demo.update_embedding_dataset 5 [] false Demo.al3).1.2 in
  let d1 := (Demo.get_embedding_datasets d).1 in
  let d2 := (Demo.update_embedding_dataset 10 [] false d1).1.2 in
  let d3 := (Demo.get_embedding_datasets d2).1 in
  (LabelBench.ALDataset.train_emb d
     = Some (LabelBench.Single (Demo.vec [5; 6; 7])) ∧
   LabelBench.ALDataset.val_emb d = Some (LabelBench.Single (Demo.vec [5])) ∧
   LabelBench.ALDataset.test_emb d = Some (LabelBench.Single (Demo.vec [5]))) ∧
  LabelBench.ALDataset.__train_emb_mean d1 = LabelBench.ALDataset.StatValue 6 ∧
  LabelBench.ALDataset.__train_emb_std d1 = LabelBench.ALDataset.StatValue 1 ∧
  LabelBench.ALDataset.train_emb d2
    = Some (LabelBench.Single (Demo.vec [10; 11; 12])) ∧
  LabelBench.ALDataset.__train_emb_mean d3 = LabelBench.ALDataset.StatValue 6 ∧
  LabelBench.ALDataset.__train_emb_std d3 = LabelBench.ALDataset.StatValue 1 ∧
  ∃ a b c, (Demo.get_embedding_datasets d2).2 = Ok (a, b, c) ∧
           LabelBench.DatasetOnMemory.X a
             = LabelBench.Single (Demo.vec [4; 5; 6]).
Proof.
  intros d d1 d2 d3.
  destruct (normalization_statistics_frozen (Labels := list Z) Demo.nd_len
              length Demo.normalize Demo.get_feature d _ _ _
              eq_refl eq_refl eq_refl)
    as (Hm & Hs & H).
  destruct (H 10 [] false) as (Hm3 & Hs3 & HX).
  split; [repeat split|]. split; [exact Hm|]. split; [exact Hs|].
  split; [reflexivity|]. split; [exact Hm3|]. split; [exact Hs3|].
  destruct (Demo.get_embedding_datasets d2).2 as [[[a b] c]|] eqn:E;
    [|vm_compute in E; discriminate].
  exists a, b, c. split; [reflexivity|].
  exact (proj1 (HX _ _ _ a b c eq_refl eq_refl eq_refl E)).
Defined.


Lemma get_embedding_datasets_initialized_witness :
  let d' := (Demo.update_embedding_dataset 5 [] false Demo.al3).1.2 in
  (Demo.get_embedding_datasets Demo.al3).2
    = Raise (Exception "Embedding is not initialized.") ∧
  Demo.update_embedding_dataset 5 [] false Demo.al3
    = ([LabelBench.train; LabelBench.val; LabelBench.test], d', Ok ()) ∧
  (Demo.get_embedding_datasets d').2
    ≠ Raise (Exception "Embedding is not initialized.") ∧
  ∃ a b c, (Demo.get_embedding_datasets d').2 = Ok (a, b, c).
Proof.
  intros d'.
  destruct (get_embedding_datasets_initialized (X := string) (Y := Z)
              (Meta := unit) (Labels := list Z) Demo.nd_len length
              Demo.normalize Demo.get_feature)
    as (Hiff & Hnew & Hafter).
  split; [apply Hiff; left; reflexivity|].
  split; [reflexivity|].
  destruct (Hafter Demo.al3 5 [] false _ d' eq_refl)
    as (tr & va & te & Htr & Hva & Hte & Hne & Hok).
  split; [exact Hne|].
  apply Hok.
  injection Htr as <-. injection Hva as <-. injection Hte as <-.
  repeat split.
  - exists Demo.labels3. split; reflexivity.
  - exists Demo.labels1. split; reflexivity.
  - exists Demo.labels1. split; reflexivity.
Defined.

(** ** Trainer configuration *)

Section TrainerProps.
Context {Other : Type} (py_str : Trainer.value Other → string).
Import Trainer.
Implicit Types (cfg : gmap string (value Other)) (v : value Other).

Lemma eq_str_false v (s : string) : v ≠ VStr s → eq_str v s = false.
Proof.
  destruct v; cbn; try reflexivity.
  intros H. apply String.eqb_neq. congruence.
Qed.

Lemma dict_getitem_some cfg (key : string) v :
  cfg !! key = Some v → dict_getitem cfg key = Ok v.
Proof. intros H. unfold dict_getitem. now rewrite H. Qed.

Lemma optional_key_ok cfg (key : string) (dflt : value Other) :
  ∃ w, (if dict_contains key cfg then dict_getitem cfg key else Ok dflt)
       = Ok w.
Proof.
  unfold dict_contains, dict_getitem.
  destruct (cfg !! key) as [w|] eqn:E.
  - exists w. rewrite bool_decide_eq_true_2; [reflexivity | eauto].
  - exists dflt. rewrite bool_decide_eq_false_2; [reflexivity|].
    intros [? [=]].
Qed.

(** For a scikit-learn trainer the optimizer is not looked at. *)
Lemma sklearn_skips_optimizer cfg (name : string) :
  cfg !! "trainer_name" = Some (VStr name) →
  split_head "_" name = "sklearn" →
  get_optimizer_fn py_str cfg = (cfg, Ok ()).
Proof.
  intros Hn Hs. unfold get_optimizer_fn.
  rewrite (dict_getitem_some _ _ _ Hn). cbn. rewrite Hs. reflexivity.
Qed.

(** C9, as the code has it: when the trainer name does not start with the
    component [sklearn] and the optimizer name is neither "Adam" nor "SGD",
    the call raises a value error whose message starts with the optimizer
    name, and the configuration is left as it was, without a new [optim_fn]
    entry. *)
Theorem unknown_optimizer_rejected cfg (name : string) v :
  cfg !! "trainer_name" = Some (VStr name) →
  split_head "_" name ≠ "sklearn" →
  cfg !! "optim_name" = Some v →
  v ≠ VStr "Adam" → v ≠ VStr "SGD" →
  get_optimizer_fn py_str cfg
    = (cfg, Raise (ValueError (unknown_optimizer_message py_str v))) ∧
  (get_optimizer_fn py_str cfg).1 !! "optim_fn" = cfg !! "optim_fn" ∧
  ∀ s, v = VStr s →
       unknown_optimizer_message py_str v = s +:+ " optimizer is unknown".
Proof.
  intros Hn Hs Ho HA HS.
  assert (E : get_optimizer_fn py_str cfg
              = (cfg, Raise (ValueError (unknown_optimizer_message py_str v)))).
  { unfold get_optimizer_fn. rewrite (dict_getitem_some _ _ _ Hn). cbn.
    apply String.eqb_neq in Hs. rewrite Hs. cbn.
    destruct (optional_key_ok cfg "wd" (VInt 0)) as [w ->]. cbn.
    rewrite (dict_getitem_some _ _ _ Ho). cbn.
    now rewrite (eq_str_false v "Adam" HA), (eq_str_false v "SGD" HS). }
  split; [exact E|]. split; [now rewrite E|].
  intros s ->. reflexivity.
Qed.
End TrainerProps.

(** C9 as stated fails: a scikit-learn trainer with an unknown optimizer name
    is accepted, and its configuration comes back unchanged. *)
Lemma sklearn_unknown_optimizer_accepted :
  Demo.cfg_sklearn !! "optim_name" = Some (Trainer.VStr "LBFGS") ∧
  Trainer.get_optimizer_fn Demo.py_str Demo.cfg_sklearn
    = (Demo.cfg_sklearn, Ok ()).
Proof.
  split; [reflexivity|].
  apply (sklearn_skips_optimizer Demo.py_str Demo.cfg_sklearn "sklearn_passive");
    reflexivity.
Qed.

Lemma unknown_optimizer_rejected_witness :
  (Demo.cfg_pytorch !! "trainer_name" = Some (Trainer.VStr "pytorch_passive") ∧
   Trainer.split_head "_" "pytorch_passive" ≠ "sklearn" ∧
   Demo.cfg_pytorch !! "optim_name" = Some (Trainer.VStr "LBFGS")) ∧
  Trainer.get_optimizer_fn Demo.py_str Demo.cfg_pytorch
    = (Demo.cfg_pytorch, Raise (ValueError "LBFGS optimizer is unknown")).
Proof.
  assert (H1 : Trainer.split_head "_" "pytorch_passive" ≠ "sklearn")
    by (vm_compute; discriminate).
  split; [repeat split; [exact H1]|].
  refine (proj1 (unknown_optimizer_rejected Demo.py_str Demo.cfg_pytorch
                   "pytorch_passive" (Trainer.VStr "LBFGS")
                   eq_refl H1 eq_refl _ _)); discriminate.
Defined.

(** ** The older copy of the dataset class

    The same properties hold of [ALBench.ALDataset], whose methods differ
    only in the weak labels and in the absence of paired embeddings. *)

Section ALBenchProps.
Context {X Y Meta Arr Stat Labels FE : Type}.
Context (arr_len : Arr → nat) (labels_len : Labels → nat).
Context (normalize : Arr → Stat → Stat → Arr).
Context (get_feature_fn : FE → ALBench.TransformDataset.t X Y Meta →
                          ALBench.split → Z → FE * result Arr).
Import ALBench ALBench.ALDataset.
Implicit Types (d : t X Y Meta Arr Stat Labels) (fe : FE) (epoch : Z)
               (h : heap).

Local Abbreviation get_embedding_datasets :=
  (get_embedding_datasets arr_len labels_len normalize).
Local Abbreviation update_embedding_dataset :=
  (update_embedding_dataset get_feature_fn).
Local Abbreviation not_initialized :=
  (Raise (Exception "Embedding is not initialized.")).



Lemma albench_update_keeps_stats epoch fe d :
  let d' := (update_embedding_dataset epoch fe d).1.2 in
  __train_emb_mean d' = __train_emb_mean d ∧
  __train_emb_std d' = __train_emb_std d.
Proof.
  unfold ALDataset.update_embedding_dataset. cbn.
  destruct (get_feature_fn fe (train_dataset d) train epoch)
    as [fe1 [e1|x]]; cbn; [|auto].
  destruct (get_feature_fn fe1 (val_dataset d) val epoch)
    as [fe2 [e2|x]]; cbn; [|auto].
  destruct (get_feature_fn fe2 (test_dataset d) test epoch)
    as [fe3 [e3|x]]; cbn; auto.
Qed.

Lemma albench_statistics_frozen d tr va te :
  train_emb d = Some tr → val_emb d = Some va → test_emb d = Some te →
  let m := realize_stat (__train_emb_mean d) tr in
  let s := realize_stat (__train_emb_std d) tr in
  let d1 := (get_embedding_datasets d).1 in
  __train_emb_mean d1 = StatValue m ∧
  __train_emb_std d1 = StatValue s ∧
  ∀ epoch fe,
    let d2 := (update_embedding_dataset epoch fe d1).1.2 in
    let d3 := (get_embedding_datasets d2).1 in
    __train_emb_mean d3 = StatValue m ∧ __train_emb_std d3 = StatValue s.
Proof.
  intros Htr Hva Hte m s d1.
  assert (H1 : __train_emb_mean d1 = StatValue m ∧
               __train_emb_std d1 = StatValue s).
  { unfold d1, ALDataset.get_embedding_datasets.
    rewrite Htr, Hva, Hte. split; reflexivity. }
  split; [apply H1|]. split; [apply H1|].
  intros epoch fe d2 d3.
  destruct (albench_update_keeps_stats epoch fe d1) as [Em Es].
  fold d2 in Em, Es. destruct H1 as [Hm Hs]. rewrite Hm in Em. rewrite Hs in Es.
  unfold d3, ALDataset.get_embedding_datasets.
  destruct (train_emb d2), (val_emb d2), (test_emb d2); cbn; auto.
  all: rewrite Em, Es; auto.
Qed.

Lemma albench_update_val_fails epoch fe d fe1 fe2 e1 x :
  get_feature_fn fe (train_dataset d) train epoch = (fe1, Ok e1) →
  get_feature_fn fe1 (val_dataset d) val epoch = (fe2, Raise x) →
  ∃ d', update_embedding_dataset epoch fe d = (fe2, d', Raise x) ∧
        train_emb d' = Some e1 ∧
        val_emb d' = val_emb d ∧
        test_emb d' = test_emb d.
Proof.
  intros E1 E2. exists (setattr_emb d train e1).
  unfold ALDataset.update_embedding_dataset. cbn.
  rewrite E1. cbn. rewrite E2. auto.
Qed.

Lemma albench_update_labeled_idxs_first d h new :
  __labeled_idxs d = None →
  ∃ d', update_labeled_idxs new d h
          = (<[next_loc h := NdIdx new]> h, Ok d') ∧
        __labeled_idxs d' = Some (next_loc h).
Proof.
  intros Hd. unfold update_labeled_idxs. rewrite Hd.
  eexists. split; reflexivity.
Qed.

Lemma albench_update_labeled_idxs_more d h r old new :
  __labeled_idxs d = Some r → h !! r = Some (NdIdx old) →
  ∃ h' d' r', update_labeled_idxs new d h = (h', Ok d') ∧
              __labeled_idxs d' = Some r' ∧
              h' !! r' = Some (NdIdx (old ++ new)).
Proof.
  intros Hd Hr. unfold update_labeled_idxs. rewrite Hd.
  unfold bind_M, np_array_list, np_concatenate, bind_M, deref, alloc.
  rewrite (lookup_alloc_old _ _ _ _ Hr), lookup_insert_eq. cbn.
  eexists _, _, _. split; [reflexivity|]. split; [reflexivity|].
  apply lookup_insert_eq.
Qed.

Lemma albench_absent_tracker_reads d h :
  __labeled_idxs d = None →
  num_labeled d h
    = (h, Raise (TypeError "object of type 'NoneType' has no len()")) ∧
  labeled_idxs d h = (<[next_loc h := NdNone]> h, Ok (next_loc h)).
Proof.
  intros Hd. unfold num_labeled, labeled_idxs. rewrite Hd. split; reflexivity.
Qed.

Lemma albench_labeled_idxs_copy d h r (a : ndarray) :
  __labeled_idxs d = Some r → h !! r = Some a →
  labeled_idxs d h = (<[next_loc h := a]> h, Ok (next_loc h)) ∧
  next_loc h ≠ r.
Proof.
  intros Hd Hr. unfold labeled_idxs. rewrite Hd.
  split; [now apply np_array_copy | eapply next_loc_ne, Hr].
Qed.
End ALBenchProps.

(** ** More on the trainer configuration *)

Section TrainerMore.
Context {Other : Type} (py_str : Trainer.value Other → string).
Import Trainer.
Implicit Types (cfg : gmap string (value Other)) (v : value Other).

Lemma dict_getitem_insert_ne cfg (k k' : string) v :
  k ≠ k' → dict_getitem (<[k := v]> cfg) k' = dict_getitem cfg k'.
Proof. intros H. unfold dict_getitem. now rewrite lookup_insert_ne. Qed.

Lemma dict_contains_insert_ne cfg (k k' : string) v :
  k ≠ k' → dict_contains k' (<[k := v]> cfg) = dict_contains k' cfg.
Proof. intros H. unfold dict_contains. now rewrite lookup_insert_ne. Qed.

Lemma optional_key_default cfg (key : string) (dflt : value Other) :
  (if dict_contains key cfg then dict_getitem cfg key else Ok dflt)
  = Ok (default dflt (cfg !! key)).
Proof.
  unfold dict_contains, dict_getitem.
  destruct (cfg !! key) as [w|] eqn:E.
  - rewrite bool_decide_eq_true_2; [reflexivity | eauto].
  - rewrite bool_decide_eq_false_2; [reflexivity|]. intros [? [=]].
Qed.

Lemma eq_str_true (s : string) : eq_str (Other := Other) (VStr s) s = true.
Proof. cbn. apply String.eqb_refl. Qed.
End TrainerMore.

Section TrainerOptimizer.
Context {Other : Type} (py_str : Trainer.value Other → string).
Import Trainer.
Implicit Types (cfg : gmap string (value Other)) (v : value Other).

(** The closure that a non-sklearn run builds from the configuration. *)
Lemma get_optimizer_fn_run cfg (name : string) v :
  cfg !! "trainer_name" = Some (VStr name) →
  split_head "_" name ≠ "sklearn" →
  cfg !! "optim_name" = Some v →
  get_optimizer_fn py_str cfg =
    let wd := default (VInt 0) (cfg !! "wd") in
    if eq_str v "Adam" then
      (<["optim_fn" := if dict_contains "betas" cfg
                       then AdamBetasFn wd else AdamFn wd]> cfg, Ok ())
    else if eq_str v "SGD" then
      (<["optim_fn" := SGDFn wd (default (VBool false) (cfg !! "nesterov"))
                         (default (VInt 0) (cfg !! "momentum"))]> cfg, Ok ())
    else (cfg, Raise (ValueError (unknown_optimizer_message py_str v))).
Proof.
  intros Hn Hs Ho. unfold get_optimizer_fn.
  rewrite (dict_getitem_some _ _ _ Hn). cbn.
  apply String.eqb_neq in Hs. rewrite Hs. cbn.
  rewrite (optional_key_default cfg "wd"). cbn.
  rewrite (dict_getitem_some _ _ _ Ho). cbn.
  destruct (eq_str v "Adam").
  - destruct (dict_contains "betas" cfg); reflexivity.
  - destruct (eq_str v "SGD"); [|reflexivity].
    rewrite (optional_key_default cfg "nesterov").
    rewrite (optional_key_default cfg "momentum"). reflexivity.
Qed.

(** X1: for a trainer that is not a scikit-learn one, with the optimizer
    name "Adam", the call succeeds and changes the configuration only by
    storing the closure under [optim_fn]; the closure holds the weight decay
    read from the configuration, or 0 when the key is absent, and passes
    [betas] on exactly when the configuration has that key. *)
Theorem get_optimizer_fn_adam cfg (name : string) :
  cfg !! "trainer_name" = Some (VStr name) →
  split_head "_" name ≠ "sklearn" →
  cfg !! "optim_name" = Some (VStr "Adam") →
  let wd := default (VInt 0) (cfg !! "wd") in
  let optim_fn := match cfg !! "betas" with
                  | Some _ => AdamBetasFn wd
                  | None => AdamFn wd
                  end in
  get_optimizer_fn py_str cfg = (<["optim_fn" := optim_fn]> cfg, Ok ()) ∧
  ∀ key : string, key ≠ "optim_fn" →
    (get_optimizer_fn py_str cfg).1 !! key = cfg !! key.
Proof.
  intros Hn Hs Ho wd optim_fn.
  assert (E : get_optimizer_fn py_str cfg = (<["optim_fn" := optim_fn]> cfg, Ok ())).
  { rewrite (get_optimizer_fn_run cfg name _ Hn Hs Ho). cbn.
    unfold optim_fn, dict_contains.
    destruct (cfg !! "betas") as [b|].
    - rewrite bool_decide_eq_true_2; [reflexivity | eauto].
    - rewrite bool_decide_eq_false_2; [reflexivity|]. intros [? [=]]. }
  split; [exact E|]. intros key Hk. rewrite E. cbn.
  now rewrite lookup_insert_ne.
Qed.

(** X2: with the optimizer name "SGD" the call succeeds likewise; the
    closure holds the weight decay (default 0), the Nesterov flag (default
    [False]) and the momentum (default 0). *)
Theorem get_optimizer_fn_sgd cfg (name : string) :
  cfg !! "trainer_name" = Some (VStr name) →
  split_head "_" name ≠ "sklearn" →
  cfg !! "optim_name" = Some (VStr "SGD") →
  let optim_fn := SGDFn (default (VInt 0) (cfg !! "wd"))
                        (default (VBool false) (cfg !! "nesterov"))
                        (default (VInt 0) (cfg !! "momentum")) in
  get_optimizer_fn py_str cfg = (<["optim_fn" := optim_fn]> cfg, Ok ()) ∧
  ∀ key : string, key ≠ "optim_fn" →
    (get_optimizer_fn py_str cfg).1 !! key = cfg !! key.
Proof.
  intros Hn Hs Ho optim_fn.
  assert (E : get_optimizer_fn py_str cfg = (<["optim_fn" := optim_fn]> cfg, Ok ())).
  { now rewrite (get_optimizer_fn_run cfg name _ Hn Hs Ho). }
  split; [exact E|]. intros key Hk. rewrite E. cbn.
  now rewrite lookup_insert_ne.
Qed.

(** X3: a successful call is idempotent: calling [get_optimizer_fn] again on
    the configuration it returned succeeds and returns the same
    configuration. *)
Theorem get_optimizer_fn_idempotent cfg cfg' :
  get_optimizer_fn py_str cfg = (cfg', Ok ()) →
  get_optimizer_fn py_str cfg' = (cfg', Ok ()).
Proof.
  intros H.
  destruct (cfg !! "trainer_name") as [n|] eqn:Hn.
  2:{ unfold get_optimizer_fn, dict_getitem in H. rewrite Hn in H.
      cbn in H. discriminate. }
  destruct n as [name| | | | | |];
    try (unfold get_optimizer_fn in H; rewrite (dict_getitem_some _ _ _ Hn) in H;
         cbn in H; discriminate).
  destruct (String.eqb (split_head "_" name) "sklearn") eqn:Hs.
  - apply String.eqb_eq in Hs.
    rewrite (sklearn_skips_optimizer py_str cfg name Hn Hs) in H.
    injection H as <-. now apply (sklearn_skips_optimizer py_str cfg name).
  - apply String.eqb_neq in Hs.
    destruct (cfg !! "optim_name") as [v|] eqn:Ho.
    2:{ unfold get_optimizer_fn in H. rewrite (dict_getitem_some _ _ _ Hn) in H.
        cbn in H. apply String.eqb_neq in Hs. rewrite Hs in H. cbn in H.
        rewrite (optional_key_default cfg "wd") in H. cbn in H.
        unfold dict_getitem in H. rewrite Ho in H. cbn in H. discriminate. }
    rewrite (get_optimizer_fn_run cfg name v Hn Hs Ho) in H. cbn zeta in H.
    assert (Hframe : ∀ f, get_optimizer_fn py_str (<["optim_fn" := f]> cfg)
              = match get_optimizer_fn py_str cfg with
                | (d, Ok ()) => (d, Ok ())
                | (_, Raise e) => (<["optim_fn" := f]> cfg, Raise e)
                end).
    { intros f.
      rewrite (get_optimizer_fn_run (<["optim_fn" := f]> cfg) name v);
        [|now rewrite lookup_insert_ne..| exact Hs | now rewrite lookup_insert_ne].
      rewrite (get_optimizer_fn_run cfg name v Hn Hs Ho). cbn zeta.
      rewrite !dict_contains_insert_ne by done.
      rewrite !(lookup_insert_ne cfg "optim_fn") by done.
      destruct (eq_str v "Adam"); cbn.
      - now rewrite insert_insert_eq.
      - destruct (eq_str v "SGD"); cbn; [now rewrite insert_insert_eq | reflexivity]. }
    destruct (eq_str v "Adam") eqn:EA.
    + injection H as <-. rewrite Hframe.
      rewrite (get_optimizer_fn_run cfg name v Hn Hs Ho). cbn zeta.
      now rewrite EA.
    + destruct (eq_str v "SGD") eqn:ES; [|discriminate].
      injection H as <-. rewrite Hframe.
      rewrite (get_optimizer_fn_run cfg name v Hn Hs Ho). cbn zeta.
      now rewrite EA, ES.
Qed.

(** X4: configuration errors around the optimizer.  Without [trainer_name]
    the call raises a key error for it; a trainer name that is not a string
    raises an attribute error; for a trainer that is not a scikit-learn one a
    missing [optim_name] raises a key error.  In each case the configuration
    is left as it was. *)
Theorem get_optimizer_fn_missing_keys cfg :
  (cfg !! "trainer_name" = None →
   get_optimizer_fn py_str cfg = (cfg, Raise (KeyError "trainer_name"))) ∧
  (∀ v, cfg !! "trainer_name" = Some v → (∀ s, v ≠ VStr s) →
   get_optimizer_fn py_str cfg
     = (cfg, Raise (AttributeError "object has no attribute 'split'"))) ∧
  (∀ name : string, cfg !! "trainer_name" = Some (VStr name) →
   split_head "_" name ≠ "sklearn" → cfg !! "optim_name" = None →
   get_optimizer_fn py_str cfg = (cfg, Raise (KeyError "optim_name"))).
Proof.
  split; [|split].
  - intros Hn. unfold get_optimizer_fn, dict_getitem. now rewrite Hn.
  - intros v Hn Hv. unfold get_optimizer_fn.
    rewrite (dict_getitem_some _ _ _ Hn). cbn.
    destruct v; try reflexivity. now destruct (Hv s).
  - intros name Hn Hs Ho. unfold get_optimizer_fn.
    rewrite (dict_getitem_some _ _ _ Hn). cbn.
    apply String.eqb_neq in Hs. rewrite Hs. cbn.
    rewrite (optional_key_default cfg "wd"). cbn.
    unfold dict_getitem. now rewrite Ho.
Qed.
End TrainerOptimizer.

Lemma split_head_cases (sep : Ascii.ascii) (s : string) :
  Trainer.split_head sep s = s ∨
  ∃ rest, s = Trainer.split_head sep s +:+ String sep rest.
Proof.
  induction s as [|c r IH]; cbn; [now left|].
  destruct (Ascii.eqb c sep) eqn:E.
  - apply Ascii.eqb_eq in E as ->. right. now exists r.
  - destruct IH as [IH | [rest IH]].
    + left. now rewrite IH.
    + right. exists rest.
      change (String c r
              = String c (Trainer.split_head sep r +:+ String sep rest)).
      now rewrite <- IH.
Qed.

Section TrainerGuard.
Context {Other : Type} (py_str : Trainer.value Other → string).
Import Trainer.
Implicit Types (cfg : gmap string (value Other)).

(** X5: the optimizer is skipped exactly for the trainer names that are
    "sklearn" or begin with "sklearn_": for those names the call returns the
    configuration unchanged whatever else it holds, and for no other name
    does the first component equal "sklearn". *)
Theorem sklearn_guard_names (name : string) :
  (split_head "_" name = "sklearn" ↔
   name = "sklearn" ∨ ∃ rest, name = "sklearn_" +:+ rest) ∧
  ∀ cfg, cfg !! "trainer_name" = Some (VStr name) →
         (name = "sklearn" ∨ ∃ rest, name = "sklearn_" +:+ rest) →
         get_optimizer_fn py_str cfg = (cfg, Ok ()).
Proof.
  assert (Hiff : split_head "_" name = "sklearn" ↔
                 name = "sklearn" ∨ ∃ rest, name = "sklearn_" +:+ rest).
  { split.
    - intros H. destruct (split_head_cases "_" name) as [E | [rest E]].
      + left. congruence.
      + right. exists rest. rewrite E, H. reflexivity.
    - intros [-> | [rest ->]]; reflexivity. }
  split; [exact Hiff|].
  intros cfg Hn Hname. apply (sklearn_skips_optimizer py_str cfg name Hn).
  now apply Hiff.
Qed.
End TrainerGuard.

Section TrainerFns.
Context {Other : Type}.
Context (bce ce sigmoid softmax_last : Other).
Import Trainer.
Implicit Types (cfg : gmap string (value Other)) (v : value Other).

Local Abbreviation get_fns := (get_fns bce ce sigmoid softmax_last).

Local Abbreviation resolved_loss := (resolved_loss bce ce).
Local Abbreviation resolved_pred := (resolved_pred sigmoid softmax_last).

Lemma get_fns_run cfg l p :
  cfg !! "loss_fn" = Some l → cfg !! "pred_fn" = Some p →
  get_fns cfg
    = (<["pred_fn" := resolved_pred p]> (<["loss_fn" := resolved_loss l]> cfg),
       Ok ()).
Proof.
  intros Hl Hp. unfold Trainer.get_fns, dict_contains.
  rewrite Hl, Hp.
  rewrite !bool_decide_eq_true_2 by eauto. cbn.
  rewrite (dict_getitem_some _ _ _ Hl).
  assert (E : (if eq_str l "Binary Cross Entropy"
               then <["loss_fn" := VOther bce]> cfg
               else if eq_str l "Cross Entropy"
               then <["loss_fn" := VOther ce]> cfg else cfg)
              = <["loss_fn" := resolved_loss l]> cfg).
  { unfold Trainer.resolved_loss.
    destruct (eq_str l "Binary Cross Entropy"); [reflexivity|].
    destruct (eq_str l "Cross Entropy"); [reflexivity|].
    symmetry. now apply insert_id. }
  cbn zeta. rewrite E.
  assert (Hp' : <["loss_fn" := resolved_loss l]> cfg !! "pred_fn" = Some p)
    by now rewrite lookup_insert_ne.
  rewrite (dict_getitem_some _ _ _ Hp').
  unfold Trainer.resolved_pred.
  destruct (eq_str p "Sigmoid"); [reflexivity|].
  destruct (eq_str p "Softmax"); [reflexivity|].
  f_equal. symmetry. now apply insert_id.
Qed.

(** X6: when the configuration has both [loss_fn] and [pred_fn] the call
    succeeds and touches no other key; a name it does not know ("Binary Cross
    Entropy", "Cross Entropy" for the loss; "Sigmoid", "Softmax" for the
    prediction) is not rejected but left in place as it is. *)
Theorem get_fns_keeps_unknown_names cfg l p :
  cfg !! "loss_fn" = Some l → cfg !! "pred_fn" = Some p →
  ∃ cfg', get_fns cfg = (cfg', Ok ()) ∧
    (∀ key : string, key ≠ "loss_fn" → key ≠ "pred_fn" →
       cfg' !! key = cfg !! key) ∧
    (l ≠ VStr "Binary Cross Entropy" → l ≠ VStr "Cross Entropy" →
       cfg' !! "loss_fn" = Some l) ∧
    (p ≠ VStr "Sigmoid" → p ≠ VStr "Softmax" → cfg' !! "pred_fn" = Some p) ∧
    (l = VStr "Binary Cross Entropy" → cfg' !! "loss_fn" = Some (VOther bce)) ∧
    (l = VStr "Cross Entropy" → cfg' !! "loss_fn" = Some (VOther ce)) ∧
    (p = VStr "Sigmoid" → cfg' !! "pred_fn" = Some (VOther sigmoid)) ∧
    (p = VStr "Softmax" → cfg' !! "pred_fn" = Some (VOther softmax_last)).
Proof.
  intros Hl Hp. eexists. split; [exact (get_fns_run cfg l p Hl Hp)|].
  split.
  { intros key H1 H2. now rewrite !lookup_insert_ne. }
  rewrite lookup_insert_eq, lookup_insert_ne, lookup_insert_eq by done.
  unfold Trainer.resolved_loss, Trainer.resolved_pred.
  repeat split.
  - intros H1 H2. now rewrite !eq_str_false.
  - intros H1 H2. now rewrite !eq_str_false.
  - now intros ->.
  - now intros ->.
  - now intros ->.
  - now intros ->.
Qed.

(** X7: a successful [get_fns] is idempotent: on the configuration it
    returned, a second call succeeds and changes nothing. *)
Theorem get_fns_idempotent cfg cfg' :
  get_fns cfg = (cfg', Ok ()) → get_fns cfg' = (cfg', Ok ()).
Proof.
  intros H.
  destruct (cfg !! "loss_fn") as [l|] eqn:Hl.
  2:{ unfold Trainer.get_fns, dict_contains in H. rewrite Hl in H.
      rewrite bool_decide_eq_false_2 in H by (intros [? [=]]).
      cbn in H. discriminate. }
  destruct (cfg !! "pred_fn") as [p|] eqn:Hp.
  2:{ unfold Trainer.get_fns, dict_contains in H. rewrite Hl, Hp in H.
      rewrite bool_decide_eq_true_2 in H by eauto.
      rewrite bool_decide_eq_false_2 in H by (intros [? [=]]).
      cbn in H. discriminate. }
  rewrite (get_fns_run cfg l p Hl Hp) in H. injection H as <-.
  rewrite (get_fns_run _ (resolved_loss l) (resolved_pred p)).
  - f_equal.
    assert (E1 : resolved_loss (resolved_loss l) = resolved_loss l).
    { unfold Trainer.resolved_loss.
      destruct (eq_str l "Binary Cross Entropy") eqn:E; [reflexivity|].
      destruct (eq_str l "Cross Entropy") eqn:E'; [reflexivity|].
      now rewrite E, E'. }
    assert (E2 : resolved_pred (resolved_pred p) = resolved_pred p).
    { unfold Trainer.resolved_pred.
      destruct (eq_str p "Sigmoid") eqn:E; [reflexivity|].
      destruct (eq_str p "Softmax") eqn:E'; [reflexivity|].
      now rewrite E, E'. }
    rewrite E1, E2.
    apply map_eq. intros k.
    destruct (decide (k = "pred_fn")) as [->|N1].
    { now rewrite !lookup_insert_eq. }
    destruct (decide (k = "loss_fn")) as [->|N2].
    { rewrite !(lookup_insert_ne _ "pred_fn" "loss_fn") by done.
      now rewrite !lookup_insert_eq. }
    now rewrite !lookup_insert_ne by congruence.
  - now rewrite lookup_insert_ne, lookup_insert_eq.
  - now rewrite lookup_insert_eq.
Qed.
End TrainerFns.

(** ** The dataset registry *)

Section RegistryProps.
Context {GetFn : Type}.
Import LabelBench.
Implicit Types (regs : list (string * LabelType * GetFn))
               (ds : gmap string (LabelType * GetFn)).

Lemma register_all_app regs1 regs2 ds :
  register_all (regs1 ++ regs2) ds = register_all regs2 (register_all regs1 ds).
Proof. unfold register_all. apply foldl_app. Qed.

Lemma register_all_other regs ds (name : string) :
  name ∉ (fun r => r.1.1) <$> regs →
  register_all regs ds !! name = ds !! name.
Proof.
  revert ds. induction regs as [|[[n ty] f] regs IH]; intros ds Hn; [reflexivity|].
  cbn in Hn. apply not_elem_of_cons in Hn as [Hne Hn].
  cbn. unfold register_all in IH. rewrite IH by exact Hn.
  now rewrite lookup_insert_ne.
Qed.

(** X8: the last registration under a name wins: after any sequence of
    registrations, looking a name up gives the label type and constructor of
    the last registration made under it, and the decorator hands the
    constructor back unchanged; a name that was never registered raises a key
    error. *)
Theorem register_dataset_last_wins regs1 regs2 ds (name : string) ty (f : GetFn) :
  name ∉ (fun r => r.1.1) <$> regs2 →
  datasets_getitem (register_all (regs1 ++ (name, ty, f) :: regs2) ds) name
    = Ok (ty, f) ∧
  (register_dataset name ty f ds).2 = f ∧
  (∀ regs (other : string), other ∉ (fun r => r.1.1) <$> regs →
     datasets_getitem (register_all regs datasets_init) other
       = Raise (KeyError other)).
Proof.
  intros Hn. split; [|split; [reflexivity|]].
  - rewrite register_all_app. cbn [register_all foldl].
    unfold datasets_getitem.
    change (foldl _ ?d regs2) with (register_all regs2 d).
    rewrite register_all_other by exact Hn. cbn.
    now rewrite lookup_insert_eq.
  - intros regs other Ho. unfold datasets_getitem.
    rewrite register_all_other by exact Ho. reflexivity.
Qed.
End RegistryProps.

(** ** In-memory datasets *)

Section DatasetOnMemoryProps.
Context {Arr Labels Row Lab : Type}.
Context (arr_len : Arr → nat) (labels_len : Labels → nat).
Context (arr_getitem : Arr → Z → result Row)
        (labels_getitem : Labels → Z → result Lab).
Import LabelBench.
Implicit Types (ds : DatasetOnMemory.t Arr Labels).

(** X9: a dataset that was constructed can be read at every index below its
    length, whatever the index-return flag: the length check at construction
    makes every row index of the labels a row index of each view of the
    inputs.  With the flag set the index comes back as the third component.
    This uses that arrays and label arrays can be indexed below their
    length. *)
Theorem DatasetOnMemory_readable
    (Harr : ∀ a i, 0 ≤ i < Z.of_nat (arr_len a) → ∃ r, arr_getitem a i = Ok r)
    (Hlab : ∀ l i, 0 ≤ i < Z.of_nat (labels_len l) →
                   ∃ v, labels_getitem l i = Ok v)
    (e : array_or_pair Arr) (y : option Labels) (n_class : Z) ds (b : bool) :
  DatasetOnMemory.__init__ arr_len labels_len e y n_class = Ok ds →
  ∃ n, DatasetOnMemory.__len__ labels_len
         (DatasetOnMemory.set_return_indices b ds) = Ok n ∧
       ∀ i, 0 ≤ i < Z.of_nat n →
         ∃ x v, DatasetOnMemory.__getitem__ arr_getitem labels_getitem
                  (DatasetOnMemory.set_return_indices b ds) i
                = Ok (x, v, if b then Some i else None).
Proof.
  intros Hinit.
  destruct (DatasetOnMemory_init_ok_inv arr_len labels_len e y n_class ds Hinit)
    as (l & -> & Hrows).
  destruct (DatasetOnMemory_init_fields arr_len labels_len e (Some l) n_class ds
              Hinit) as [HX Hy].
  exists (labels_len l). split.
  { unfold DatasetOnMemory.__len__. cbn. now rewrite Hy. }
  intros i Hi. unfold DatasetOnMemory.__getitem__. cbn. rewrite HX, Hy.
  destruct (Hlab l i Hi) as [v ->].
  destruct e as [a|a a'].
  - destruct (Harr a i) as [r ->]; [now rewrite Hrows|].
    cbn. eauto.
  - destruct Hrows as [Ha Ha'].
    destruct (Harr a i) as [r ->]; [now rewrite Ha|].
    destruct (Harr a' i) as [r' ->]; [now rewrite Ha'|].
    cbn. eauto.
Qed.

(** [get_inputs] fails exactly on a dataset whose input is a pair of views,
    and otherwise returns the input array the dataset was built from. *)
Lemma get_inputs_single_only (e : array_or_pair Arr) (y : option Labels)
    (n_class : Z) ds :
  DatasetOnMemory.__init__ arr_len labels_len e y n_class = Ok ds →
  match e with
  | Single a => DatasetOnMemory.get_inputs ds = Ok a
  | Paired _ _ =>
      DatasetOnMemory.get_inputs ds
        = Raise (Exception "Dataset has tuple as input.")
  end ∧
  DatasetOnMemory.get_labels ds = y.
Proof.
  intros Hinit.
  destruct (DatasetOnMemory_init_fields arr_len labels_len e y n_class ds Hinit)
    as [HX Hy].
  unfold DatasetOnMemory.get_inputs, DatasetOnMemory.get_labels.
  rewrite HX, Hy. now destruct e.
Qed.
End DatasetOnMemoryProps.

Section ALBenchDatasetOnMemoryProps.
Context {Arr Labels : Type}.
Context (arr_len : Arr → nat) (labels_len : Labels → nat).
Import ALBench.

(** X10: the older in-memory dataset is constructed exactly when the labels
    are present and as many as the input rows and the metadata, when given,
    has that many entries too; the constructed dataset holds what it was
    given. *)
Theorem albench_DatasetOnMemory_init_iff (e : Arr) (y : option Labels)
    (n_class : Z) (meta : option Labels) :
  (∃ ds, DatasetOnMemory.__init__ arr_len labels_len e y n_class meta = Ok ds) ↔
  (∃ l, y = Some l ∧ arr_len e = labels_len l ∧
        ∀ m, meta = Some m → arr_len e = labels_len m).
Proof.
  unfold DatasetOnMemory.__init__. split.
  - intros [ds H]. destruct y as [l|]; cbn in H; [|discriminate].
    exists l. split; [reflexivity|].
    case_bool_decide; [|discriminate]. split; [assumption|].
    intros m ->. case_bool_decide; [assumption | discriminate].
  - intros (l & -> & Hl & Hm). cbn.
    rewrite bool_decide_eq_true_2 by exact Hl.
    destruct meta as [m|]; [|eauto].
    rewrite bool_decide_eq_true_2 by now apply Hm. eauto.
Qed.
End ALBenchDatasetOnMemoryProps.

(** ** More on the transform wrappers *)

Section TransformDatasetMore.
Context {X Y Meta : Type}.
Import LabelBench.TransformDataset.
Implicit Types (w : t X Y Meta) (i : Z).

(** X11: a read of the wrapper can succeed only if the raw dataset yields
    an item at that index, the item has no metadata fields or the wrapper
    ignores them, and an input transform is set; the index comes back as it
    was passed exactly when index return is switched on.  (Whether the
    transforms themselves return is not part of the statement.) *)
Theorem getitem_succeeds_only_if w i s :
  __getitem__ w i = Ok s →
  (∃ it f, raw_getitem (dataset w) i = Ok it ∧
           (ignore_metadata w = true ∨ item_meta it = []) ∧
           __transform w = Some f) ∧
  sample_index s = (if _return_indices w then Some i else None).
Proof.
  intros H. unfold __getitem__ in H.
  destruct (raw_getitem (dataset w) i) as [it|] eqn:Hi; [|discriminate].
  cbn in H.
  assert (Hm : ignore_metadata w = true ∨ item_meta it = []).
  { destruct (ignore_metadata w); [now left|]. right.
    unfold unpack_two in H. now destruct (item_meta it). }
  assert (E : (if ignore_metadata w then unpack_first_two it
               else unpack_two it) = Ok (item_x it, item_y it)).
  { destruct Hm as [-> | Hm']; [reflexivity|].
    destruct (ignore_metadata w); [reflexivity|].
    unfold unpack_two. now rewrite Hm'. }
  rewrite E in H. cbn in H.
  destruct (__transform w) as [f|] eqn:Ht.
  - split; [now exists it, f|].
    destruct (__strong_transform w); cbn in H; injection H as <-; reflexivity.
  - exfalso. destruct (__strong_transform w); discriminate.
Qed.

(** X12: with a strong transform set, the input of a sample is the pair of
    the weak view and the strong view, and both are computed from the raw
    input (the strong transform is not applied on top of the weak one); the
    label goes through the target transform if one is set, and the index is
    returned as it was passed exactly when index return is switched on. *)
Theorem getitem_weak_and_strong w i it (f g : X → X) (b : bool) :
  __transform w = Some f →
  raw_getitem (dataset w) i = Ok it →
  (ignore_metadata w = true ∨ item_meta it = []) →
  __getitem__ (set_return_indices b (set_strong_transform (Some g) w)) i =
    Ok {| sample_x := WeakStrong (f (item_x it)) (g (item_x it));
          sample_y := apply_if_set (__target_transform w) (item_y it);
          sample_index := if b then Some i else None |}.
Proof.
  intros Ht Hi Hm. unfold __getitem__. cbn. rewrite Hi, Ht. cbn.
  destruct Hm as [-> | Hm]; cbn; [reflexivity|].
  destruct (ignore_metadata w); cbn; [reflexivity|].
  unfold unpack_two. rewrite Hm. reflexivity.
Qed.

(** X13: no call on the wrapper changes the wrapped dataset or the default
    transforms: after any history of calls the length is that of the raw
    dataset, and resetting brings back the transforms given at
    construction. *)
Theorem run_keeps_dataset_and_defaults (cs : list (call X Y))
    (ds : raw_dataset X Y Meta) (tr : option (X → X)) (ttr : option (Y → Y))
    (ignore : bool) :
  let w := run (__init__ ds tr ttr ignore) cs in
  __len__ w = raw_len ds ∧
  dataset w = ds ∧
  ignore_metadata w = ignore ∧
  get_transform (set_to_default_transform w) = tr ∧
  __target_transform (set_to_default_target_transform w) = ttr.
Proof.
  assert (H : ∀ w0 : t X Y Meta,
            dataset (run w0 cs) = dataset w0 ∧
            ignore_metadata (run w0 cs) = ignore_metadata w0 ∧
            __default_transform (run w0 cs) = __default_transform w0 ∧
            __default_target_transform (run w0 cs)
              = __default_target_transform w0).
  { induction cs as [|c cs IH]; intros w0; [auto|].
    change (run w0 (c :: cs)) with (run (step w0 c) cs).
    destruct (IH (step w0 c)) as (-> & -> & -> & ->).
    destruct c; auto. }
  intros w. destruct (H (__init__ ds tr ttr ignore)) as (Hd & Hi & Ht & Htt).
  unfold __len__, get_transform. cbn. fold w in Hd, Hi, Ht, Htt.
  rewrite Hd, Hi, Ht, Htt. auto.
Qed.
End TransformDatasetMore.

(** ** More on the active-learning dataset *)

Lemma size_list_to_set_le (l : list Z) :
  (size (list_to_set l : gset Z) ≤ length l)%nat.
Proof.
  induction l as [|x l IH]; cbn; [rewrite size_empty; lia|].
  rewrite size_union_alt, size_singleton.
  assert (Hs : (list_to_set l ∖ {[x]} : gset Z) ⊆ list_to_set l).
  { intros z Hz. now apply elem_of_difference in Hz as [Hz _]. }
  apply subseteq_size in Hs. lia.
Qed.

Lemma size_py_range (n : nat) : size (py_set (py_range n)) = n.
Proof.
  unfold py_set, py_range.
  rewrite size_list_to_set by apply NoDup_seqZ.
  rewrite length_seqZ. lia.
Qed.

Section ALDatasetMore.
Context {X Y Meta Arr Stat Labels FE : Type}.
Context (arr_len : Arr → nat) (labels_len : Labels → nat).
Context (normalize : LabelBench.array_or_pair Arr → Stat → Stat → Arr).
Context (get_feature : FE → LabelBench.TransformDataset.t X Y Meta →
                       LabelBench.split → Z → bool →
                       FE * result (LabelBench.array_or_pair Arr)).
Context (shape : Arr → list nat).
Import LabelBench LabelBench.ALDataset.
Implicit Types (d : t X Y Meta Arr Stat Labels) (fe : FE) (epoch : Z)
               (h : heap) (l : list Z).

Local Abbreviation get_embedding_datasets :=
  (get_embedding_datasets arr_len labels_len normalize).
Local Abbreviation update_embedding_dataset :=
  (update_embedding_dataset get_feature).
Local Abbreviation get_embedding_dim := (get_embedding_dim shape).

(** What the labeling reads depend on. *)
Lemma observe_ext d d' h :
  __labeled_idxs d' = __labeled_idxs d →
  train_dataset d' = train_dataset d →
  observe d' h = observe d h.
Proof.
  intros Hl Ht.
  unfold observe, read_labeled, read_unlabeled, unlabeled_idxs, labeled_idxs,
    num_labeled, __len__.
  now rewrite Hl, Ht.
Qed.

Lemma update_embedding_dataset_frame epoch fe us d :
  let d' := (update_embedding_dataset epoch fe us d).1.2 in
  __labeled_idxs d' = __labeled_idxs d ∧
  train_dataset d' = train_dataset d ∧
  __train_labels d' = __train_labels d.
Proof.
  unfold ALDataset.update_embedding_dataset. cbn.
  destruct (get_feature fe (train_dataset d) train epoch us)
    as [fe1 [e1|x]]; cbn; [|auto].
  destruct (get_feature fe1 (val_dataset d) val epoch us)
    as [fe2 [e2|x]]; cbn; [|auto].
  destruct (get_feature fe2 (test_dataset d) test epoch us)
    as [fe3 [e3|x]]; cbn; auto.
Qed.

(** X15: [get_embedding_dim()] fails with the "not initialized" assertion
    exactly when [train_emb] is absent.  It needs the train split only: after
    an update whose train extraction succeeded it returns the second
    dimension of the (first view of the) new train embedding, also when the
    update then failed on a later split. *)
Theorem get_embedding_dim_needs_train_only d :
  (get_embedding_dim d = Raise (AssertionError "Embedding is not initialized.")
   ↔ train_emb d = None) ∧
  ∀ epoch fe us fe1 e1,
    get_feature fe (train_dataset d) train epoch us = (fe1, Ok e1) →
    get_embedding_dim (update_embedding_dataset epoch fe us d).1.2
      = shape_1 shape (first_view e1).
Proof.
  split.
  - unfold ALDataset.get_embedding_dim, shape_1.
    destruct (train_emb d) as [[a|a b]|]; [| |tauto];
      (split; [|discriminate]);
      destruct (shape a !! 1%nat); discriminate.
  - intros epoch fe us fe1 e1 E1.
    unfold ALDataset.update_embedding_dataset. cbn. rewrite E1. cbn.
    destruct (get_feature fe1 (val_dataset d) val epoch us)
      as [fe2 [e2|x]]; cbn; [|now destruct e1].
    destruct (get_feature fe2 (test_dataset d) test epoch us)
      as [fe3 [e3|x]]; cbn; now destruct e1.
Qed.

(** X16: where the update stops decides what is stored.  When the extractor
    raises on the train split the dataset is left exactly as it was; when it
    raises on the test split, [train_emb] and [val_emb] hold the new
    embeddings and [test_emb] its old value. *)
Theorem update_embedding_dataset_stops_at_failure epoch fe us d :
  (∀ fe1 x,
     get_feature fe (train_dataset d) train epoch us = (fe1, Raise x) →
     update_embedding_dataset epoch fe us d = (fe1, d, Raise x)) ∧
  (∀ fe1 fe2 fe3 e1 e2 x,
     get_feature fe (train_dataset d) train epoch us = (fe1, Ok e1) →
     get_feature fe1 (val_dataset d) val epoch us = (fe2, Ok e2) →
     get_feature fe2 (test_dataset d) test epoch us = (fe3, Raise x) →
     ∃ d', update_embedding_dataset epoch fe us d = (fe3, d', Raise x) ∧
           train_emb d' = Some e1 ∧ val_emb d' = Some e2 ∧
           test_emb d' = test_emb d).
Proof.
  split.
  - intros fe1 x E. unfold ALDataset.update_embedding_dataset. cbn.
    now rewrite E.
  - intros fe1 fe2 fe3 e1 e2 x E1 E2 E3.
    exists (setattr_emb (setattr_emb d train e1) val e2).
    unfold ALDataset.update_embedding_dataset. cbn.
    rewrite E1. cbn. rewrite E2. cbn. rewrite E3. auto.
Qed.

(** X17: recomputing embeddings and building the embedding datasets never
    change what is labeled: after [update_embedding_dataset], however it
    ends, and after [get_embedding_datasets()], the calls [labeled_idxs()],
    [num_labeled()] and [unlabeled_idxs()] give what they gave before. *)
Theorem embedding_calls_keep_labeling epoch fe us d h :
  observe (update_embedding_dataset epoch fe us d).1.2 h = observe d h ∧
  observe (get_embedding_datasets d).1 h = observe d h.
Proof.
  split.
  - destruct (update_embedding_dataset_frame epoch fe us d) as (Hl & Ht & _).
    now apply observe_ext.
  - apply observe_ext; unfold ALDataset.get_embedding_datasets;
      destruct (train_emb d), (val_emb d), (test_emb d); reflexivity.
Qed.

(** X18: labeling never changes the embedding side: after a successful
    [update_labeled_idxs] the calls [get_embedding_datasets()] and
    [get_embedding_dim()] return what they returned before. *)
Theorem labeling_keeps_embeddings d h new h' d' :
  update_labeled_idxs new d h = (h', Ok d') →
  (get_embedding_datasets d').2 = (get_embedding_datasets d).2 ∧
  get_embedding_dim d' = get_embedding_dim d.
Proof.
  intros H.
  assert (∃ r, d' = set_labeled_idxs d r) as [r ->].
  { unfold update_labeled_idxs in H.
    destruct (__labeled_idxs d) as [old|].
    - unfold bind_M in H.
      destruct (np_array_list new h) as [h1 [n|]]; [|discriminate].
      destruct (np_concatenate old n h1) as [h2 [r|]]; [|discriminate].
      injection H as _ <-. eauto.
    - unfold bind_M in H.
      destruct (np_array_list new h) as [h1 [r|]]; [|discriminate].
      injection H as _ <-. eauto. }
  split; [|reflexivity].
  unfold ALDataset.get_embedding_datasets. cbn.
  destruct (train_emb d), (val_emb d), (test_emb d); reflexivity.
Qed.

(** X19: [get_embedding_datasets()] is idempotent: a second call right after
    the first leaves the dataset as the first call left it and returns the
    same result. *)
Theorem get_embedding_datasets_idempotent d :
  get_embedding_datasets (get_embedding_datasets d).1
    = get_embedding_datasets d.
Proof.
  unfold ALDataset.get_embedding_datasets.
  destruct (train_emb d) as [tr|] eqn:Htr; cbn; [|now rewrite Htr].
  destruct (val_emb d) as [va|] eqn:Hva; cbn; [|now rewrite Htr, Hva].
  destruct (test_emb d) as [te|] eqn:Hte; cbn; [|now rewrite Htr, Hva, Hte].
  rewrite Htr, Hva, Hte. cbn. destruct tr; reflexivity.
Qed.

(** X20: [get_train_labels()] realizes the label producer once: it returns
    the labels the producer gives (or the array it was constructed with), a
    second call returns the same labels and changes nothing, and the training
    dataset built by [get_embedding_datasets()], before or after, carries
    these labels. *)
Theorem get_train_labels_memoized d :
  let d1 := (get_train_labels d).1 in
  let labels := (get_train_labels d).2 in
  labels = realize_labels (__train_labels d) ∧
  get_train_labels d1 = (d1, labels) ∧
  (get_embedding_datasets d1).2 = (get_embedding_datasets d).2 ∧
  ∀ a b c, (get_embedding_datasets d).2 = Ok (a, b, c) →
           DatasetOnMemory.y a = labels.
Proof.
  cbv zeta.
  assert (Hy : ∀ a b c, (get_embedding_datasets d).2 = Ok (a, b, c) →
                        DatasetOnMemory.y a = realize_labels (__train_labels d)).
  { intros a b c H.
    destruct (train_emb d) as [tr|] eqn:Htr;
      [|rewrite get_embedding_datasets_absent in H by auto; discriminate].
    destruct (val_emb d) as [va|] eqn:Hva;
      [|rewrite get_embedding_datasets_absent in H by auto; discriminate].
    destruct (test_emb d) as [te|] eqn:Hte;
      [|rewrite get_embedding_datasets_absent in H by auto; discriminate].
    rewrite (get_embedding_datasets_present _ _ _ d tr va te Htr Hva Hte) in H.
    cbn in H.
    destruct (DatasetOnMemory.__init__ arr_len labels_len
                (normalized_train normalize tr _ _) _ _) as [a'|] eqn:Ea;
      [|discriminate].
    cbn in H.
    destruct (DatasetOnMemory.__init__ arr_len labels_len
                (Single (normalize va _ _)) _ _) as [b'|]; [|discriminate].
    cbn in H.
    destruct (DatasetOnMemory.__init__ arr_len labels_len
                (Single (normalize te _ _)) _ _) as [c'|]; [|discriminate].
    cbn in H. injection H as <- _ _.
    now apply DatasetOnMemory_init_fields in Ea as [_ ->]. }
  destruct (get_train_labels d) as [d1 labels] eqn:G. cbn [fst snd].
  unfold get_train_labels in G.
  destruct (__train_labels d) as [v|f] eqn:E; injection G as <- <-.
  - split; [reflexivity|]. split; [|split; [reflexivity|]].
    + unfold get_train_labels. now rewrite E.
    + intros a b c H. now rewrite (Hy a b c H).
  - split; [reflexivity|]. split; [reflexivity|]. split.
    + unfold ALDataset.get_embedding_datasets. cbn. rewrite E. cbn.
      destruct (train_emb d), (val_emb d), (test_emb d); reflexivity.
    + intros a b c H. now rewrite (Hy a b c H).
Qed.
End ALDatasetMore.

Section TrackerMore.
Context {X Y Meta Arr Stat Labels : Type}.
Import LabelBench.ALDataset.
Implicit Types (d : t X Y Meta Arr Stat Labels) (h : heap) (l : list Z).

(** An update of a tracked dataset allocates two arrays and writes into no
    array that exists. *)
Lemma update_labeled_idxs_allocates d h old new :
  tracks d h old →
  ∃ h' d', update_labeled_idxs new d h = (h', Ok d') ∧
           tracks d' h' (old ++ new) ∧ __len__ d' = __len__ d ∧
           ∀ r a, h !! r = Some a → h' !! r = Some a.
Proof.
  intros (r0 & Hd & Hr). unfold update_labeled_idxs. rewrite Hd.
  unfold bind_M, np_array_list, np_concatenate, bind_M, deref, alloc.
  rewrite (lookup_alloc_old _ _ _ _ Hr), lookup_insert_eq. cbn.
  eexists _, _. split; [reflexivity|]. split; [|split; [reflexivity|]].
  - eexists. split; [reflexivity|]. apply lookup_insert_eq.
  - intros r a Hra. apply lookup_alloc_old. now apply lookup_alloc_old.
Qed.

Lemma update_all_allocates batches : ∀ d h old,
  tracks d h old →
  ∃ h' d', update_all batches d h = (h', Ok d') ∧
           tracks d' h' (old ++ concat batches) ∧
           ∀ r a, h !! r = Some a → h' !! r = Some a.
Proof.
  induction batches as [|b bs IH]; intros d h old Ht; cbn.
  - exists h, d. rewrite app_nil_r. auto.
  - destruct (update_labeled_idxs_allocates d h old b Ht)
      as (h1 & d1 & E & Ht1 & _ & Hp1).
    destruct (IH d1 h1 _ Ht1) as (h2 & d2 & E2 & Ht2 & Hp2).
    exists h2, d2. unfold bind_M. rewrite E, E2.
    rewrite <- app_assoc in Ht2. auto.
Qed.

(** X21: the number of unlabeled indices.  With a tracker holding [l], the
    array returned by [unlabeled_idxs()] has at most as many entries as the
    training split and at least the split size minus [num_labeled()]; it has
    exactly that many when no index was labeled twice and every labeled index
    lies in the training range. *)
Theorem unlabeled_idxs_count d h l :
  tracks d h l →
  ∃ u, (read_unlabeled d h).2 = Ok u ∧
       (num_labeled d h).2 = Ok (length l) ∧
       (__len__ d - length l ≤ length u ≤ __len__ d)%nat ∧
       (NoDup l → (∀ i, i ∈ l → 0 ≤ i < Z.of_nat (__len__ d)) →
        length u = (__len__ d - length l)%nat).
Proof.
  intros Ht. eexists. split; [exact (read_unlabeled_tracks d h l Ht)|].
  split; [now rewrite (num_labeled_tracks d h l Ht)|].
  unfold py_list_of_set.
  change (length (elements ?s)) with (size s).
  set (A := py_set (py_range (__len__ d))). set (B := py_set l).
  assert (HA : size A = __len__ d) by apply size_py_range.
  assert (HB : (size B ≤ length l)%nat) by apply size_list_to_set_le.
  split; [split|].
  - assert (Hsub : A ⊆ (A ∖ B) ∪ B).
    { intros z Hz. destruct (decide (z ∈ B)); set_unfold; tauto. }
    apply subseteq_size in Hsub.
    rewrite size_union in Hsub; [lia|].
    intros z Hz1 Hz2. now apply elem_of_difference in Hz1 as [_ Hz1].
  - rewrite <- HA. apply subseteq_size.
    intros z Hz. now apply elem_of_difference in Hz as [Hz _].
  - intros Hnd Hin.
    rewrite size_difference.
    + rewrite HA. unfold B, py_set. now rewrite size_list_to_set.
    + intros z Hz. unfold A, B, py_set in *.
      apply elem_of_list_to_set in Hz. apply elem_of_list_to_set.
      apply elem_of_py_range. now apply Hin.
Qed.

(** X22: an array handed out by [labeled_idxs()] is a snapshot: later
    [update_labeled_idxs] calls build new arrays and leave it as it was, while
    the dataset itself moves on to the longer sequence. *)
Theorem labeled_idxs_snapshot d h l (batches : list (list Z)) :
  tracks d h l →
  ∃ h1 r h2 d2,
    labeled_idxs d h = (h1, Ok r) ∧
    update_all batches d h1 = (h2, Ok d2) ∧
    np_to_list r h2 = (h2, Ok l) ∧
    (read_labeled d2 h2).2 = Ok (l ++ concat batches,
                                 length (l ++ concat batches)).
Proof.
  intros Ht.
  destruct (labeled_idxs_tracks d h l Ht) as (r0 & E & _ & _).
  assert (Ht1 : tracks d (<[next_loc h := NdIdx l]> h) l)
    by now apply tracks_alloc.
  destruct (update_all_allocates batches d _ l Ht1) as (h2 & d2 & E2 & Ht2 & Hp).
  exists (<[next_loc h := NdIdx l]> h), (next_loc h), h2, d2.
  split; [exact E|]. split; [exact E2|]. split.
  - apply np_to_list_idx, Hp, lookup_insert_eq.
  - now apply read_labeled_tracks.
Qed.

(** X23: labeling nothing still initializes the tracker: after
    [update_labeled_idxs([])] on a dataset without tracker, [num_labeled()] is
    0, [labeled_idxs()] is empty and [unlabeled_idxs()] lists every index of
    the training split once. *)
Theorem update_labeled_idxs_empty_initializes d h :
  __labeled_idxs d = None →
  ∃ u, ((do d' <- update_labeled_idxs [] d; observe d') h).2 = Ok ([], 0%nat, u) ∧
       NoDup u ∧ ∀ i, i ∈ u ↔ 0 ≤ i < Z.of_nat (__len__ d).
Proof.
  intros Hd.
  destruct (update_labeled_idxs_first d h [] Hd) as (h' & d' & E & Ht & L).
  eexists. unfold bind_M at 1. rewrite E.
  rewrite (observe_tracks d' h' [] Ht). split; [reflexivity|].
  rewrite L.
  destruct (unlabeled_complement (__len__ d) []) as [Hnd Hi].
  split; [exact Hnd|]. intros i. rewrite Hi.
  split; [tauto|]. intros H. split; [exact H|]. apply not_elem_of_nil.
Qed.
End TrackerMore.

(** ** The CIFAR-10 constructor *)

Lemma slice_to_from {A} (l : list A) (k : Z) :
  Cifar10.slice_to l k ++ Cifar10.slice_from l k = l.
Proof. apply take_drop. Qed.

Lemma half_slice_bound (n : nat) :
  Cifar10.slice_bound n ((- Z.of_nat n) `div` 2) = (n / 2)%nat.
Proof.
  unfold Cifar10.slice_bound.
  assert (Hq : Z.of_nat (n / 2) = Z.of_nat n `div` 2)
    by (rewrite Nat2Z.inj_div; reflexivity).
  case_bool_decide as Hk.
  - apply Nat2Z.inj. rewrite Z2Nat.id by lia. rewrite Hq.
    pose proof (Z.div_mod (- Z.of_nat n) 2 ltac:(lia)) as D1.
    pose proof (Z.mod_pos_bound (- Z.of_nat n) 2 ltac:(lia)) as B1.
    pose proof (Z.div_mod (Z.of_nat n) 2 ltac:(lia)) as D2.
    pose proof (Z.mod_pos_bound (Z.of_nat n) 2 ltac:(lia)) as B2.
    lia.
  - apply Nat2Z.inj. rewrite Z2Nat.id by lia. rewrite Hq.
    pose proof (Z.div_mod (- Z.of_nat n) 2 ltac:(lia)) as D1.
    pose proof (Z.mod_pos_bound (- Z.of_nat n) 2 ltac:(lia)) as B1.
    pose proof (Z.div_mod (Z.of_nat n) 2 ltac:(lia)) as D2.
    pose proof (Z.mod_pos_bound (Z.of_nat n) 2 ltac:(lia)) as B2.
    lia.
Qed.

Lemma indices_getitem_lookup (indices : list Z) (i : nat) (j : Z) :
  indices !! i = Some j →
  Cifar10.indices_getitem indices (Z.of_nat i) = Ok j.
Proof.
  intros H. pose proof (lookup_lt_Some _ _ _ H) as Hlt.
  unfold Cifar10.indices_getitem. cbv zeta.
  rewrite (bool_decide_eq_false_2 (Z.of_nat i < 0)) by lia. cbv iota.
  rewrite bool_decide_eq_true_2 by lia.
  now rewrite Nat2Z.id, H.
Qed.

Section Cifar10Props.
Context {X Y Meta TT Labels : Type}.
Context (train_transform test_transform : X → X).
Context (target_transform : Z → TT).
Context (CIFAR10 : string → bool → TT → raw_dataset X Y Meta).
Context (permutation : nat → list Z).
Context (get_classnames : string → list string).
Import Cifar10.

Local Abbreviation get_cifar10_imb_dataset :=
  (get_cifar10_imb_dataset (Labels := Labels) train_transform test_transform
     target_transform CIFAR10 permutation get_classnames).
Local Abbreviation get_cifar10_dataset :=
  (get_cifar10_dataset (Labels := Labels) train_transform test_transform
     target_transform CIFAR10 permutation get_classnames).

(** X24: the validation and test splits cut the permuted test indices in
    two without losing or repeating a position: the validation split gets the
    first half rounded down, the test split the rest, and the two index
    arrays put end to end are the permutation. *)
Theorem cifar10_val_test_split (n_class : Z) (data_dir : string) :
  let r := get_cifar10_imb_dataset n_class data_dir in
  let idxs := permutation
                (raw_len (CIFAR10 data_dir false (target_transform n_class))) in
  ALBench.TransformDataset.__len__ (ret_val r) = (length idxs / 2)%nat ∧
  ALBench.TransformDataset.__len__ (ret_test r)
    = (length idxs - length idxs / 2)%nat ∧
  val_idxs idxs ++ test_idxs idxs = idxs.
Proof.
  intros r idxs.
  assert (Hv : ALBench.TransformDataset.__len__ (ret_val r)
               = length (val_idxs idxs)) by reflexivity.
  assert (Ht : ALBench.TransformDataset.__len__ (ret_test r)
               = length (test_idxs idxs)) by reflexivity.
  rewrite Hv, Ht. clear Hv Ht.
  unfold val_idxs, test_idxs, slice_to, slice_from.
  rewrite half_slice_bound, length_take, length_drop.
  pose proof (Nat.Div0.div_le_upper_bound (length idxs) 2 (length idxs)
                ltac:(lia)) as Hle.
  split; [lia|]. split; [reflexivity | apply take_drop].
Qed.

(** X25: what the validation and the test wrapper read.  Item [i] of the
    validation wrapper is the test transform applied to the CIFAR-10 test item
    at position [idxs[i]]; item [i] of the test wrapper is the one at
    [idxs[len(val) + i]]; labels come back as the raw dataset gives them. *)
Theorem cifar10_val_test_items (n_class : Z) (data_dir : string)
    (i : nat) (j : Z) (it : item X Y Meta) :
  let r := get_cifar10_imb_dataset n_class data_dir in
  let raw_test := CIFAR10 data_dir false (target_transform n_class) in
  let idxs := permutation (raw_len raw_test) in
  raw_getitem raw_test j = Ok it → item_meta it = [] →
  ((i < length idxs / 2)%nat → idxs !! i = Some j →
   ALBench.TransformDataset.__getitem__ (ret_val r) (Z.of_nat i)
     = Ok (test_transform (item_x it), item_y it)) ∧
  (idxs !! (length idxs / 2 + i)%nat = Some j →
   ALBench.TransformDataset.__getitem__ (ret_test r) (Z.of_nat i)
     = Ok (test_transform (item_x it), item_y it)).
Proof.
  intros r raw_test idxs Hj Hm. split.
  - intros Hi Hl.
    unfold ALBench.TransformDataset.__getitem__. cbn. fold raw_test idxs.
    rewrite (indices_getitem_lookup _ i j).
    + cbn. rewrite Hj. cbn. unfold unpack_two. now rewrite Hm.
    + unfold val_idxs, slice_to. rewrite half_slice_bound.
      now rewrite lookup_take_lt.
  - intros Hl.
    unfold ALBench.TransformDataset.__getitem__. cbn. fold raw_test idxs.
    rewrite (indices_getitem_lookup _ i j).
    + cbn. rewrite Hj. cbn. unfold unpack_two. now rewrite Hm.
    + unfold test_idxs, slice_from. rewrite half_slice_bound.
      now rewrite lookup_drop.
Qed.

(** X26: the class names returned.  For [0 <= n_class < 10] they are the
    first [n_class] names of the table followed by "others", so with a table
    of ten names there are [n_class + 1] of them, one more than the returned
    number of classes; from 10 classes on, and for [get_cifar10_dataset], they
    are the table itself. *)
Theorem cifar10_classnames (n_class : Z) (data_dir : string) :
  let names := get_classnames "cifar10" in
  (0 ≤ n_class < 10 →
   ret_classnames (get_cifar10_imb_dataset n_class data_dir)
     = take (Z.to_nat n_class) names ++ ["others"] ∧
   (length names = 10%nat →
    Z.of_nat (length (ret_classnames (get_cifar10_imb_dataset n_class data_dir)))
      = ret_n_class (get_cifar10_imb_dataset n_class data_dir) + 1)) ∧
  (10 ≤ n_class →
   ret_classnames (get_cifar10_imb_dataset n_class data_dir) = names) ∧
  ret_classnames (get_cifar10_dataset data_dir) = names ∧
  ret_n_class (get_cifar10_dataset data_dir) = 10.
Proof.
  intros names. split; [|split; [|split; reflexivity]].
  - intros Hn. cbn. rewrite bool_decide_eq_true_2 by lia.
    fold names. unfold slice_to, slice_bound.
    rewrite bool_decide_eq_false_2 by lia.
    assert (E : take (Z.to_nat (n_class `min` Z.of_nat (length names))) names
                = take (Z.to_nat n_class) names).
    { destruct (decide (n_class ≤ Z.of_nat (length names))).
      - now rewrite Z.min_l.
      - rewrite Z.min_r, Nat2Z.id by lia.
        rewrite !take_ge by lia. reflexivity. }
    rewrite E. split; [reflexivity|].
    intros Hlen. rewrite length_app, length_take, Hlen. cbn. lia.
  - intros Hn. cbn. now rewrite bool_decide_eq_false_2 by lia.
Qed.
End Cifar10Props.

Section Cifar10ALDataset.
Context {X Y Meta TT Arr Stat Labels FE : Type}.
Context (train_transform test_transform : X → X).
Context (target_transform : Z → TT).
Context (CIFAR10 : string → bool → TT → raw_dataset X Y Meta).
Context (permutation : nat → list Z).
Context (classnames_of : string → list string).
Context (arr_len : Arr → nat) (labels_len : Labels → nat).
Context (normalize : Arr → Stat → Stat → Arr).
Context (get_feature_fn : FE → ALBench.TransformDataset.t X Y Meta →
                          ALBench.split → Z → FE * result Arr).
Import ALBench ALBench.ALDataset.

Local Abbreviation get_cifar10_imb_dataset :=
  (Cifar10.get_cifar10_imb_dataset (Labels := Labels) train_transform
     test_transform target_transform CIFAR10 permutation classnames_of).

Lemma albench_update_completed epoch fe (d : t X Y Meta Arr Stat Labels) fe' d' :
  update_embedding_dataset get_feature_fn epoch fe d = (fe', d', Ok ()) →
  ∃ e1 e2 e3,
    d' = setattr_emb (setattr_emb (setattr_emb d train e1) val e2) test e3.
Proof.
  unfold update_embedding_dataset. cbn.
  destruct (get_feature_fn fe (train_dataset d) train epoch)
    as [fe1 [e1|x]]; [|intros [=]]. cbn.
  destruct (get_feature_fn fe1 (val_dataset d) val epoch)
    as [fe2 [e2|x]]; [|intros [=]]. cbn.
  destruct (get_feature_fn fe2 (test_dataset d) test epoch)
    as [fe3 [e3|x]]; [|intros [=]].
  intros [= <- <-]. eauto.
Qed.

(** X27: the constructor returns no label arrays, and a dataset built from
    what it returns cannot produce embedding datasets: after every completed
    [update_embedding_dataset] the call [get_embedding_datasets()] raises the
    type error of taking the length of an absent label array. *)
Theorem cifar10_labels_absent (n_class : Z) (data_dir : string)
    (ty : LabelType) (mean std : stat_field Arr Stat)
    (wtr wva wte : labels_field Labels) epoch fe fe' d' :
  let r := get_cifar10_imb_dataset n_class data_dir in
  let d := __init__ (Cifar10.ret_train r) (Cifar10.ret_val r)
             (Cifar10.ret_test r)
             (LabelsValue (Cifar10.ret_train_labels r))
             (LabelsValue (Cifar10.ret_val_labels r))
             (LabelsValue (Cifar10.ret_test_labels r))
             ty (Cifar10.ret_n_class r) (Cifar10.ret_classnames r)
             mean std wtr wva wte in
  update_embedding_dataset get_feature_fn epoch fe d = (fe', d', Ok ()) →
  (Cifar10.ret_train_labels r = None ∧ Cifar10.ret_val_labels r = None ∧
   Cifar10.ret_test_labels r = None) ∧
  (get_embedding_datasets arr_len labels_len normalize d').2
    = Raise (TypeError "object of type 'NoneType' has no len()").
Proof.
  intros r d E. split; [repeat split|].
  destruct (albench_update_completed _ _ _ _ _ E) as (e1 & e2 & e3 & ->).
  reflexivity.
Qed.
End Cifar10ALDataset.

(** ** The properties above on concrete inputs *)

Lemma pytorch_not_sklearn :
  Trainer.split_head "_" "pytorch_passive" ≠ "sklearn".
Proof. vm_compute. discriminate. Qed.

Lemma get_optimizer_fn_adam_witness :
  (DemoMore.cfg_adam !! "trainer_name" = Some (Trainer.VStr "pytorch_passive") ∧
   DemoMore.cfg_adam !! "optim_name" = Some (Trainer.VStr "Adam")) ∧
  Trainer.get_optimizer_fn Demo.py_str DemoMore.cfg_adam
    = (<["optim_fn" := Trainer.AdamFn (Trainer.VInt 1)]> DemoMore.cfg_adam,
       Ok ()).
Proof.
  split; [split; reflexivity|].
  exact (proj1 (get_optimizer_fn_adam Demo.py_str DemoMore.cfg_adam
                  "pytorch_passive" eq_refl pytorch_not_sklearn eq_refl)).
Defined.

Lemma get_optimizer_fn_sgd_witness :
  (DemoMore.cfg_sgd !! "trainer_name" = Some (Trainer.VStr "pytorch_passive") ∧
   DemoMore.cfg_sgd !! "optim_name" = Some (Trainer.VStr "SGD")) ∧
  Trainer.get_optimizer_fn Demo.py_str DemoMore.cfg_sgd
    = (<["optim_fn" := Trainer.SGDFn (Trainer.VInt 0) (Trainer.VBool true)
                         (Trainer.VInt 0)]> DemoMore.cfg_sgd, Ok ()).
Proof.
  split; [split; reflexivity|].
  exact (proj1 (get_optimizer_fn_sgd Demo.py_str DemoMore.cfg_sgd
                  "pytorch_passive" eq_refl pytorch_not_sklearn eq_refl)).
Defined.

Lemma get_optimizer_fn_idempotent_witness :
  let cfg' := <["optim_fn" := Trainer.AdamFn (Trainer.VInt 1)]> DemoMore.cfg_adam in
  Trainer.get_optimizer_fn Demo.py_str DemoMore.cfg_adam = (cfg', Ok ()) ∧
  Trainer.get_optimizer_fn Demo.py_str cfg' = (cfg', Ok ()).
Proof.
  intros cfg'.
  assert (H : Trainer.get_optimizer_fn Demo.py_str DemoMore.cfg_adam
              = (cfg', Ok ())) by (vm_compute; reflexivity).
  split; [exact H|].
  exact (get_optimizer_fn_idempotent Demo.py_str DemoMore.cfg_adam cfg' H).
Defined.

Lemma get_optimizer_fn_missing_keys_witness :
  (DemoMore.cfg_no_optim !! "trainer_name"
     = Some (Trainer.VStr "pytorch_passive") ∧
   DemoMore.cfg_no_optim !! "optim_name" = None) ∧
  Trainer.get_optimizer_fn Demo.py_str DemoMore.cfg_no_optim
    = (DemoMore.cfg_no_optim, Raise (KeyError "optim_name")) ∧
  Trainer.get_optimizer_fn Demo.py_str (∅ : gmap string (Trainer.value unit))
    = (∅, Raise (KeyError "trainer_name")).
Proof.
  split; [split; reflexivity|]. split.
  - exact (proj2 (proj2 (get_optimizer_fn_missing_keys Demo.py_str
                           DemoMore.cfg_no_optim))
             "pytorch_passive" eq_refl pytorch_not_sklearn eq_refl).
  - exact (proj1 (get_optimizer_fn_missing_keys Demo.py_str ∅) eq_refl).
Defined.

Lemma sklearn_guard_names_witness :
  ("sklearn_passive" = "sklearn" ∨
   ∃ rest, "sklearn_passive" = "sklearn_" +:+ rest) ∧
  Trainer.split_head "_" "sklearn_passive" = "sklearn" ∧
  Trainer.get_optimizer_fn Demo.py_str Demo.cfg_sklearn
    = (Demo.cfg_sklearn, Ok ()).
Proof.
  assert (H : "sklearn_passive" = "sklearn" ∨
              ∃ rest, "sklearn_passive" = "sklearn_" +:+ rest)
    by (right; exists "passive"; reflexivity).
  split; [exact H|]. split.
  - exact (proj2 (proj1 (sklearn_guard_names Demo.py_str "sklearn_passive")) H).
  - exact (proj2 (sklearn_guard_names Demo.py_str "sklearn_passive")
             Demo.cfg_sklearn eq_refl H).
Defined.

Lemma get_fns_keeps_unknown_names_witness :
  (DemoMore.cfg_fns !! "loss_fn" = Some (Trainer.VStr "Cross Entropy") ∧
   DemoMore.cfg_fns !! "pred_fn" = Some (Trainer.VStr "Argmax")) ∧
  ∃ cfg', DemoMore.get_fns DemoMore.cfg_fns = (cfg', Ok ()) ∧
          cfg' !! "lr" = Some (Trainer.VInt 3) ∧
          cfg' !! "pred_fn" = Some (Trainer.VStr "Argmax") ∧
          cfg' !! "loss_fn" = Some (Trainer.VOther "F.cross_entropy").
Proof.
  split; [split; reflexivity|].
  destruct (get_fns_keeps_unknown_names "F.binary_cross_entropy_with_logits"
              "F.cross_entropy" "torch.sigmoid" "softmax" DemoMore.cfg_fns
              (Trainer.VStr "Cross Entropy") (Trainer.VStr "Argmax")
              eq_refl eq_refl)
    as (cfg' & E & Hother & _ & Hp & _ & Hce & _ & _).
  exists cfg'. split; [exact E|]. split; [|split].
  - rewrite Hother by discriminate. reflexivity.
  - apply Hp; discriminate.
  - apply Hce. reflexivity.
Defined.

Lemma get_fns_idempotent_witness :
  let cfg' := (DemoMore.get_fns DemoMore.cfg_fns).1 in
  DemoMore.get_fns DemoMore.cfg_fns = (cfg', Ok ()) ∧
  DemoMore.get_fns cfg' = (cfg', Ok ()).
Proof.
  intros cfg'.
  assert (H : DemoMore.get_fns DemoMore.cfg_fns = (cfg', Ok ()))
    by (vm_compute; reflexivity).
  split; [exact H|].
  exact (get_fns_idempotent "F.binary_cross_entropy_with_logits"
           "F.cross_entropy" "torch.sigmoid" "softmax" DemoMore.cfg_fns cfg' H).
Defined.

Lemma register_dataset_last_wins_witness :
  let regs1 := [("cifar10", LabelBench.MULTI_CLASS, 1%nat);
                ("voc", LabelBench.MULTI_LABEL, 2%nat)] in
  let regs2 := [("svhn", LabelBench.MULTI_CLASS, 4%nat)] in
  ("cifar10" ∉
     ((fun r : string * LabelBench.LabelType * nat => r.1.1) <$> regs2)) ∧
  LabelBench.datasets_getitem
    (LabelBench.register_all
       (regs1 ++ ("cifar10", LabelBench.MULTI_LABEL, 3%nat) :: regs2)
       LabelBench.datasets_init) "cifar10"
    = Ok (LabelBench.MULTI_LABEL, 3%nat).
Proof.
  intros regs1 regs2.
  assert (H : "cifar10" ∉
              ((fun r : string * LabelBench.LabelType * nat => r.1.1) <$> regs2)).
  { cbn. intros Hin. apply list_elem_of_singleton in Hin. discriminate. }
  split; [exact H|].
  exact (proj1 (register_dataset_last_wins regs1 regs2 LabelBench.datasets_init
                  "cifar10" LabelBench.MULTI_LABEL 3%nat H)).
Defined.

Lemma list_getitem_ok {A} (l : list A) (i : Z) :
  0 ≤ i < Z.of_nat (length l) → ∃ v, DemoMore.list_getitem l i = Ok v.
Proof.
  intros Hi. unfold DemoMore.list_getitem. cbv zeta.
  rewrite (bool_decide_eq_false_2 (i < 0)) by lia. cbv iota.
  rewrite bool_decide_eq_true_2 by lia.
  destruct (l !! Z.to_nat i) as [v|] eqn:E; [eauto|].
  apply lookup_ge_None in E. lia.
Qed.

Lemma nd_getitem_ok (a : Demo.nd) (i : Z) :
  0 ≤ i < Z.of_nat (Demo.nd_len a) → ∃ r, DemoMore.nd_getitem a i = Ok r.
Proof.
  destruct a as [z|l]; cbn; [lia|]. apply list_getitem_ok.
Qed.

Lemma DatasetOnMemory_readable_witness :
  let e := LabelBench.Paired (Demo.vec [4; 5; 6]) (Demo.vec [7; 8; 9]) in
  ∃ ds,
    LabelBench.DatasetOnMemory.__init__ Demo.nd_len length e
      (Some Demo.labels3) 2 = Ok ds ∧
    ∃ n, LabelBench.DatasetOnMemory.__len__ length
           (LabelBench.DatasetOnMemory.set_return_indices true ds) = Ok n ∧
         ∀ i, 0 ≤ i < Z.of_nat n →
           ∃ x v, LabelBench.DatasetOnMemory.__getitem__
                    DemoMore.nd_getitem DemoMore.list_getitem
                    (LabelBench.DatasetOnMemory.set_return_indices true ds) i
                  = Ok (x, v, Some i).
Proof.
  intros e. eexists. split; [reflexivity|].
  exact (DatasetOnMemory_readable Demo.nd_len length DemoMore.nd_getitem
           DemoMore.list_getitem nd_getitem_ok list_getitem_ok e
           (Some Demo.labels3) 2 _ true eq_refl).
Defined.

Lemma albench_DatasetOnMemory_init_iff_witness :
  let e := Demo.vec [4; 5; 6] in
  (∃ l, Some Demo.labels3 = Some l ∧ Demo.nd_len e = length l ∧
        ∀ m, Some [1; 1; 0] = Some m → Demo.nd_len e = length m) ∧
  ∃ ds, ALBench.DatasetOnMemory.__init__ Demo.nd_len length e
          (Some Demo.labels3) 2 (Some [1; 1; 0]) = Ok ds.
Proof.
  intros e.
  assert (H : ∃ l, Some Demo.labels3 = Some l ∧ Demo.nd_len e = length l ∧
                   ∀ m, Some [1; 1; 0] = Some m → Demo.nd_len e = length m).
  { exists Demo.labels3. split; [reflexivity|]. split; [reflexivity|].
    intros m [= <-]. reflexivity. }
  split; [exact H|].
  exact (proj2 (albench_DatasetOnMemory_init_iff Demo.nd_len length e
                  (Some Demo.labels3) 2 (Some [1; 1; 0])) H).
Defined.

Lemma getitem_succeeds_only_if_witness :
  let w := LabelBench.TransformDataset.set_return_indices true
             (Demo.wrap Demo.raw3) in
  let s := {| LabelBench.TransformDataset.sample_x :=
                LabelBench.TransformDataset.Weak "img1!";
              LabelBench.TransformDataset.sample_y := 8;
              LabelBench.TransformDataset.sample_index := Some 1 |} in
  LabelBench.TransformDataset.__getitem__ w 1 = Ok s ∧
  (∃ it f, raw_getitem Demo.raw3 1 = Ok it ∧
           (false = true ∨ item_meta it = []) ∧
           Some (fun x : string => x +:+ "!") = Some f) ∧
  Some 1 = Some 1.
Proof.
  intros w s. split; [reflexivity|].
  exact (getitem_succeeds_only_if w 1 s eq_refl).
Defined.

Lemma getitem_weak_and_strong_witness :
  (LabelBench.TransformDataset.__transform (Demo.wrap Demo.raw3)
     = Some (fun x => x +:+ "!") ∧
   raw_getitem Demo.raw3 (-1) = Ok (Item "img2" 9 [])) ∧
  LabelBench.TransformDataset.__getitem__
    (LabelBench.TransformDataset.set_return_indices true
       (LabelBench.TransformDataset.set_strong_transform (Some Demo.upper)
          (Demo.wrap Demo.raw3))) (-1)
  = Ok {| LabelBench.TransformDataset.sample_x :=
            LabelBench.TransformDataset.WeakStrong "img2!" "img2^";
          LabelBench.TransformDataset.sample_y := 9;
          LabelBench.TransformDataset.sample_index := Some (-1) |}.
Proof.
  split; [split; reflexivity|].
  exact (getitem_weak_and_strong (Demo.wrap Demo.raw3) (-1) (Item "img2" 9 [])
           (fun x => x +:+ "!") Demo.upper true eq_refl eq_refl
           (or_intror eq_refl)).
Defined.

(** At a negative epoch the second demo extractor fails on the test split;
    the embedding dimension of the new train embedding is available all the
    same. *)
Lemma get_embedding_dim_needs_train_only_witness :
  let e1 := LabelBench.Single
              (Demo.Rows [Demo.vec [-1; 0]; Demo.vec [0; 0]; Demo.vec [1; 0]]) in
  DemoMore.get_feature2 () (LabelBench.ALDataset.train_dataset Demo.al3)
    LabelBench.train (-1) false = ((), Ok e1) ∧
  (DemoMore.update_embedding_dataset2 (-1) () false Demo.al3).2
    = Raise (Exception "extractor failed") ∧
  LabelBench.ALDataset.get_embedding_dim DemoMore.nd_shape
    (DemoMore.update_embedding_dataset2 (-1) () false Demo.al3).1.2 = Ok 2%nat ∧
  LabelBench.ALDataset.get_embedding_dim DemoMore.nd_shape Demo.al3
    = Raise (AssertionError "Embedding is not initialized.").
Proof.
  intros e1. split; [reflexivity|]. split; [reflexivity|]. split.
  - exact (proj2 (get_embedding_dim_needs_train_only DemoMore.get_feature2
                    DemoMore.nd_shape Demo.al3) (-1) () false () e1 eq_refl).
  - exact (proj2 (proj1 (get_embedding_dim_needs_train_only
                           DemoMore.get_feature2 DemoMore.nd_shape Demo.al3))
             eq_refl).
Defined.

Lemma update_embedding_dataset_stops_at_failure_witness :
  let rows n := LabelBench.Single
                  (Demo.Rows ((fun k => Demo.vec [-1 + k; 0]) <$> seqZ 0 n)) in
  (DemoMore.get_feature2 () (LabelBench.ALDataset.train_dataset Demo.al3)
     LabelBench.train (-1) false = ((), Ok (rows 3)) ∧
   DemoMore.get_feature2 () (LabelBench.ALDataset.val_dataset Demo.al3)
     LabelBench.val (-1) false = ((), Ok (rows 1)) ∧
   DemoMore.get_feature2 () (LabelBench.ALDataset.test_dataset Demo.al3)
     LabelBench.test (-1) false = ((), Raise (Exception "extractor failed"))) ∧
  ∃ d', DemoMore.update_embedding_dataset2 (-1) () false Demo.al3
          = ((), d', Raise (Exception "extractor failed")) ∧
        LabelBench.ALDataset.train_emb d' = Some (rows 3) ∧
        LabelBench.ALDataset.val_emb d' = Some (rows 1) ∧
        LabelBench.ALDataset.test_emb d' = None.
Proof.
  intros rows. split; [repeat split|].
  exact (proj2 (update_embedding_dataset_stops_at_failure DemoMore.get_feature2
                  (-1) () false Demo.al3)
           () () () (rows 3) (rows 1) (Exception "extractor failed")
           eq_refl eq_refl eq_refl).
Defined.

Lemma labeling_keeps_embeddings_witness :
  let d := (Demo.update_embedding_dataset 5 [] false Demo.al3).1.2 in
  ∃ h' d',
    LabelBench.ALDataset.update_labeled_idxs [2; 0] d ∅ = (h', Ok d') ∧
    (Demo.get_embedding_datasets d').2 = (Demo.get_embedding_datasets d).2 ∧
    LabelBench.ALDataset.get_embedding_dim DemoMore.nd_shape d'
      = LabelBench.ALDataset.get_embedding_dim DemoMore.nd_shape d.
Proof.
  intros d. eexists _, _. split; [reflexivity|].
  exact (labeling_keeps_embeddings Demo.nd_len length Demo.normalize
           DemoMore.nd_shape d ∅ [2; 0] _ _ eq_refl).
Defined.

Lemma get_train_labels_memoized_witness :
  let d := (Demo.update_embedding_dataset 5 [] false DemoMore.al_lazy).1.2 in
  (LabelBench.ALDataset.get_train_labels d).2 = Some Demo.labels3 ∧
  ∃ a b c, (Demo.get_embedding_datasets d).2 = Ok (a, b, c) ∧
           LabelBench.DatasetOnMemory.y a
             = (LabelBench.ALDataset.get_train_labels d).2.
Proof.
  intros d. split; [reflexivity|].
  destruct (Demo.get_embedding_datasets d).2 as [[[a b] c]|] eqn:E;
    [|vm_compute in E; discriminate].
  exists a, b, c. split; [reflexivity|].
  exact (proj2 (proj2 (proj2 (get_train_labels_memoized Demo.nd_len length
                                Demo.normalize d))) a b c E).
Defined.

Lemma unlabeled_idxs_count_witness :
  let d := LabelBench.ALDataset.set_labeled_idxs Demo.al3 (Some 1%positive) in
  let h : heap := {[ 1%positive := NdIdx [2; 0] ]} in
  tracks d h [2; 0] ∧ NoDup [2; 0] ∧
  ∃ u, (read_unlabeled d h).2 = Ok u ∧ length u = 1%nat.
Proof.
  intros d h.
  assert (Ht : tracks d h [2; 0]) by (exists 1%positive; split; reflexivity).
  assert (Hnd : NoDup [2; 0]).
  { apply NoDup_cons. split.
    - intros Hin. apply list_elem_of_singleton in Hin. discriminate.
    - apply NoDup_singleton. }
  split; [exact Ht|]. split; [exact Hnd|].
  destruct (unlabeled_idxs_count d h [2; 0] Ht) as (u & Hu & _ & _ & Hlen).
  exists u. split; [exact Hu|].
  apply Hlen; [exact Hnd|].
  intros i Hi. apply elem_of_cons in Hi as [-> | Hi]; [cbn; lia|].
  apply list_elem_of_singleton in Hi as ->. cbn. lia.
Defined.

Lemma labeled_idxs_snapshot_witness :
  let d := LabelBench.ALDataset.set_labeled_idxs Demo.al3 (Some 1%positive) in
  let h : heap := {[ 1%positive := NdIdx [2; 0] ]} in
  tracks d h [2; 0] ∧
  ∃ h1 r h2 d2,
    LabelBench.ALDataset.labeled_idxs d h = (h1, Ok r) ∧
    update_all [[1]; [2]] d h1 = (h2, Ok d2) ∧
    np_to_list r h2 = (h2, Ok [2; 0]) ∧
    (read_labeled d2 h2).2 = Ok ([2; 0; 1; 2], 4%nat).
Proof.
  intros d h.
  assert (Ht : tracks d h [2; 0]) by (exists 1%positive; split; reflexivity).
  split; [exact Ht|].
  exact (labeled_idxs_snapshot d h [2; 0] [[1]; [2]] Ht).
Defined.

Lemma update_labeled_idxs_empty_initializes_witness :
  LabelBench.ALDataset.__labeled_idxs Demo.al3 = None ∧
  ∃ u, ((do d' <- LabelBench.ALDataset.update_labeled_idxs [] Demo.al3;
         observe d') ∅).2 = Ok ([], 0%nat, u) ∧
       NoDup u ∧ ∀ i, i ∈ u ↔ 0 ≤ i < 3.
Proof.
  split; [reflexivity|].
  exact (update_labeled_idxs_empty_initializes Demo.al3 ∅ eq_refl).
Defined.

(** Five test items under the permutation [4, 3, 2, 1, 0]: validation reads
    positions 4 and 3, the test split positions 2, 1 and 0. *)
Lemma cifar10_val_test_items_witness :
  let r := DemoMore.get_cifar10_imb_dataset 3 "./data" in
  (raw_getitem DemoMore.raw5 3 = Ok (Item "t3" 3 []) ∧
   DemoMore.permutation 5 !! 1%nat = Some 3) ∧
  ALBench.TransformDataset.__getitem__ (Cifar10.ret_val r) 1 = Ok ("t3!", 3).
Proof.
  intros r. split; [split; reflexivity|].
  exact (proj1 (cifar10_val_test_items (Labels := list Z) (fun x => x +:+ "~")
                  (fun x => x +:+ "!") (fun _ => ()) DemoMore.CIFAR10
                  DemoMore.permutation DemoMore.names10 3 "./data" 1 3
                  (Item "t3" 3 []) eq_refl eq_refl)
           ltac:(vm_compute; lia) eq_refl).
Defined.

Lemma cifar10_classnames_witness :
  let r := DemoMore.get_cifar10_imb_dataset 3 "./data" in
  (0 ≤ 3 < 10 ∧ length (DemoMore.names10 "cifar10") = 10%nat) ∧
  Cifar10.ret_classnames r = ["airplane"; "automobile"; "bird"; "others"] ∧
  Z.of_nat (length (Cifar10.ret_classnames r)) = Cifar10.ret_n_class r + 1.
Proof.
  intros r. split; [split; [lia | reflexivity]|].
  destruct (proj1 (cifar10_classnames (Labels := list Z) (fun x => x +:+ "~")
                     (fun x => x +:+ "!") (fun _ => ()) DemoMore.CIFAR10
                     DemoMore.permutation DemoMore.names10 3 "./data")
              ltac:(lia)) as [Hnames Hlen].
  split; [exact Hnames | exact (Hlen eq_refl)].
Defined.

Lemma cifar10_labels_absent_witness :
  let r := DemoMore.get_cifar10_imb_dataset 3 "./data" in
  let d := ALBench.ALDataset.__init__ (Cifar10.ret_train r) (Cifar10.ret_val r)
             (Cifar10.ret_test r)
             (ALBench.ALDataset.LabelsValue (Cifar10.ret_train_labels r))
             (ALBench.ALDataset.LabelsValue (Cifar10.ret_val_labels r))
             (ALBench.ALDataset.LabelsValue (Cifar10.ret_test_labels r))
             ALBench.MULTI_CLASS (Cifar10.ret_n_class r)
             (Cifar10.ret_classnames r)
             (ALBench.ALDataset.StatFn Demo.mean)
             (ALBench.ALDataset.StatFn Demo.std)
             (ALBench.ALDataset.LabelsValue None)
             (ALBench.ALDataset.LabelsValue None)
             (ALBench.ALDataset.LabelsValue None) in
  ∃ d', ALBench.ALDataset.update_embedding_dataset DemoMore.get_feature_fn 0 () d
          = ((), d', Ok ()) ∧
        (ALBench.ALDataset.get_embedding_datasets Demo.nd_len length
           DemoMore.albench_normalize d').2
        = Raise (TypeError "object of type 'NoneType' has no len()").
Proof.
  intros r d. eexists. split; [reflexivity|].
  exact (proj2 (cifar10_labels_absent (fun x => x +:+ "~") (fun x => x +:+ "!")
                  (fun _ => ()) DemoMore.CIFAR10 DemoMore.permutation
                  DemoMore.names10 Demo.nd_len length DemoMore.albench_normalize
                  DemoMore.get_feature_fn 3 "./data" ALBench.MULTI_CLASS
                  (ALBench.ALDataset.StatFn Demo.mean)
                  (ALBench.ALDataset.StatFn Demo.std)
                  (ALBench.ALDataset.LabelsValue None)
                  (ALBench.ALDataset.LabelsValue None)
                  (ALBench.ALDataset.LabelsValue None) 0 () () _ eq_refl)).
Defined.

(** ** Initialization of the embeddings, in both copies *)

Section EmbeddingBothCopies.
Context {X Y Meta Arr Stat Labels FE FE' : Type}.
Context (arr_len : Arr → nat) (labels_len : Labels → nat).
Context (normalize : LabelBench.array_or_pair Arr → Stat → Stat → Arr).
Context (get_feature : FE → LabelBench.TransformDataset.t X Y Meta →
                       LabelBench.split → Z → bool →
                       FE * result (LabelBench.array_or_pair Arr)).
Context (normalize' : Arr → Stat → Stat → Arr).
Context (get_feature_fn : FE' → ALBench.TransformDataset.t X Y Meta →
                          ALBench.split → Z → FE' * result Arr).

Local Abbreviation not_initialized :=
  (Raise (Exception "Embedding is not initialized.")).
Local Abbreviation lb_get :=
  (LabelBench.ALDataset.get_embedding_datasets arr_len labels_len normalize).
Local Abbreviation lb_update :=
  (LabelBench.ALDataset.update_embedding_dataset get_feature).
Local Abbreviation ab_get :=
  (ALBench.ALDataset.get_embedding_datasets arr_len labels_len normalize').
Local Abbreviation ab_update :=
  (ALBench.ALDataset.update_embedding_dataset get_feature_fn).
Local Abbreviation ab_init :=
  (ALBench.DatasetOnMemory.__init__ arr_len labels_len).





End EmbeddingBothCopies.

